(** * nltools.analysis: pattern expression and ROC diagnostics

    A shallow embedding of [apply_mask] and of the class [Roc] of
    [nltools/analysis.py], with the properties of the ROC computation
    (rates, area under the curve, threshold policies, forced-choice
    transformation, accuracy) stated and proved over it.

    Conventions of the embedding.
    - A numpy [float64] scalar is an exact rational ([Qc]); rounding is not
      modelled, and neither is overflow.  Where a division of numpy
      answers with [inf] or [nan] the run is marked as having left the
      embedding.  [np.linspace] is kept exact: numpy's array differs from
      it by rounding, and altogether when the range of the scores is not
      a finite float ([span_is_finite] says that it is one).  A
      one-dimensional array is a list, a boolean array a [list bool].
    - Arrays supplied by the caller and mutated through [self] live in a
      store and are referred to by location, so that in-place assignment
      and aliasing are visible.
    - A Python exception ends the call; the attributes assigned before it
      stay assigned, so a run returns the final state together with either
      a value or the exception.
    - A Python string is its characters together with whether it is the
      interned object for them: [s is 'literal'] holds of the interned
      string with the literal's characters and of no other (CPython interns
      identifier-like literals, and not the strings computed at run time),
      whereas [==] and [in] compare characters. *)

From Stdlib Require Import QArith Qcanon ZArith String List Lia.
From stdpp Require Import base decidable option list numbers strings.

Local Open Scope string_scope.
Local Open Scope list_scope.
Local Open Scope Qc_scope.

(** ** Exceptions and results

    [OutOfModel] is not a Python exception: it marks a run that has left
    what the embedding represents (a float division that numpy answers with
    [inf] or [nan], a location with no array behind it). *)

Inductive exn : Type :=
| ValueError (msg : string)
| ZeroDivisionError
| NameError (name : string)
| AttributeError (attr : string)
| IndexError
| UnboundLocalError (name : string)
| OutOfModel (why : string).

Inductive result (A : Type) : Type :=
| Ok (a : A)
| Raise (e : exn).
Arguments Ok {A} a.
Arguments Raise {A} e.

Definition is_ok {A} (r : result A) : bool :=
  match r with Ok _ => true | Raise _ => false end.

#[global] Instance result_ret : MRet result := @Ok.
#[global] Instance result_bind : MBind result := fun A B k r =>
  match r with Ok a => k a | Raise e => Raise e end.

(** ** The fragment of Python and numpy that the module uses *)

Module Np.

(** [a[m]] for a boolean array [m] of the length of [a]: the entries of [a]
    at the positions where [m] is true. *)
Fixpoint select {A} (a : list A) (m : list bool) : list A :=
  match a, m with
  | x :: a', b :: m' => if b then x :: select a' m' else select a' m'
  | _, _ => []
  end.

(** Boolean-array indexing raises [IndexError] when the lengths differ. *)
Definition bool_index {A} (a : list A) (m : list bool) : result (list A) :=
  if Nat.eqb (length a) (length m) then Ok (select a m) else Raise IndexError.

(** [~m] on a boolean array. *)
Definition invert (m : list bool) : list bool := map negb m.

(** [a >= x] and [a < x], element by element. *)
Definition ge (a : list Qc) (x : Qc) : list bool :=
  map (fun v => bool_decide (x ≤ v)) a.
Definition lt (a : list Qc) (x : Qc) : list bool :=
  map (fun v => bool_decide (v < x)) a.

(** Python's [sum] over booleans adds them up from 0, left to right; [len]. *)
Definition sum (m : list bool) : Z := fold_left (fun acc b => (acc + Z.b2z b)%Z) m 0%Z.
Definition len {A} (a : list A) : Z := Z.of_nat (length a).

(** Python's [any]. *)
Definition any (m : list bool) : bool := existsb (fun b => b) m.

(** [float(k)] of an integer. *)
Definition float (k : Z) : Qc := Qc_of_Z k.

(** [x / y] on Python floats raises [ZeroDivisionError] on a zero divisor. *)
Definition truediv (x y : Qc) : result Qc :=
  if decide (y = 0) then Raise ZeroDivisionError else Ok (x / y).

(** [x / y] where [x] is a numpy scalar: a zero divisor gives [inf] or
    [nan] and a warning, which has no rational counterpart. *)
Definition divide (x y : Qc) : result Qc :=
  if decide (y = 0) then Raise (OutOfModel "inf or nan") else Ok (x / y).

(** Broadcasting of two one-dimensional operands: equal lengths, or one of
    them of length one; anything else is a [ValueError]. *)
Definition broadcast2 {A B C} (f : A -> B -> C) (xs : list A) (ys : list B)
  : result (list C) :=
  if Nat.eqb (length xs) (length ys) then Ok (zip_with f xs ys)
  else match xs, ys with
       | _, [y] => Ok (map (fun x => f x y) xs)
       | [x], _ => Ok (map (fun y => f x y) ys)
       | _, _ => Raise (ValueError "operands could not be broadcast together")
       end.

(** The scatter of [a[m] = vals] once [vals] has one value per true entry. *)
Fixpoint scatter {A} (a : list A) (m : list bool) (vals : list A) : list A :=
  match a, m with
  | x :: a', b :: m' =>
      if b then match vals with
                | v :: vals' => v :: scatter a' m' vals'
                | [] => x :: scatter a' m' []
                end
      else x :: scatter a' m' vals
  | _, _ => a
  end.

(** [a[m] = vals]: [vals] has as many entries as [m] has true ones, or a
    single entry that is repeated. *)
Definition bool_index_assign {A} (a : list A) (m : list bool) (vals : list A)
  : result (list A) :=
  if negb (Nat.eqb (length a) (length m)) then Raise IndexError
  else if Nat.eqb (length vals) (length (select a m)) then Ok (scatter a m vals)
  else match vals with
       | [v] => Ok (scatter a m (replicate (length (select a m)) v))
       | _ => Raise (ValueError "cannot assign input values to the masked output values")
       end.

(** Python's [min] and [max] over a sequence; empty sequences are refused. *)
Definition qmin (x y : Qc) : Qc := if decide (y < x) then y else x.
Definition qmax (x y : Qc) : Qc := if decide (x < y) then y else x.

Definition min (a : list Qc) : result Qc :=
  match a with
  | [] => Raise (ValueError "min() arg is an empty sequence")
  | x :: a' => Ok (fold_left qmin a' x)
  end.
Definition max (a : list Qc) : result Qc :=
  match a with
  | [] => Raise (ValueError "max() arg is an empty sequence")
  | x :: a' => Ok (fold_left qmax a' x)
  end.

(** The largest finite [float64], [(2 - 2^-52) * 2^1023]. *)
Definition float_max : Qc := Qc_of_Z (2 ^ 1024 - 2 ^ 971).

(** [np.linspace(start, stop, num)]: [num] evenly spaced samples with both
    ends included.  numpy computes [start + i * ((stop - start) / (num - 1))]
    in floating point and sets the last sample to [stop]; the samples are
    given here exactly.  When [stop - start] exceeds [float_max] the
    difference overflows and numpy's array is [nan, inf, ..., inf, stop]
    instead, which this definition does not give. *)
Definition linspace (start stop : Qc) (num : nat) : list Qc :=
  match num with
  | O => []
  | S O => [start]
  | S (S k) =>
      map (fun i => start + Qc_of_Z (Z.of_nat i) * ((stop - start) / Qc_of_Z (Z.of_nat (S k))))
          (seq 0 num)
  end.

(** [np.zeros(shape)]. *)
Definition zeros (shape : nat) : list Qc := replicate shape 0.

(** [np.argmax] and [np.argmin]: index of the first extremal entry. *)
Fixpoint argmax_from (best : Qc) (ibest i : nat) (a : list Qc) : nat :=
  match a with
  | [] => ibest
  | x :: a' => if decide (best < x) then argmax_from x i (S i) a'
               else argmax_from best ibest (S i) a'
  end.
Definition argmax (a : list Qc) : result nat :=
  match a with
  | [] => Raise (ValueError "attempt to get argmax of an empty sequence")
  | x :: a' => Ok (argmax_from x 0%nat 1%nat a')
  end.

Fixpoint argmin_from (best : Qc) (ibest i : nat) (a : list Qc) : nat :=
  match a with
  | [] => ibest
  | x :: a' => if decide (x < best) then argmin_from x i (S i) a'
               else argmin_from best ibest (S i) a'
  end.
Definition argmin (a : list Qc) : result nat :=
  match a with
  | [] => Raise (ValueError "attempt to get argmin of an empty sequence")
  | x :: a' => Ok (argmin_from x 0%nat 1%nat a')
  end.

(** [a[i]] for an index produced by [argmax]/[argmin]. *)
Definition item {A} (a : list A) (i : nat) : result A :=
  match a !! i with
  | Some x => Ok x
  | None => Raise IndexError
  end.

(** [np.minimum] and [np.maximum] of a scalar and an array. *)
Definition minimum (c : Qc) (a : list Qc) : list Qc := map (fun v => qmin c v) a.
Definition maximum (c : Qc) (a : list Qc) : list Qc := map (fun v => qmax c v) a.

(** Sums and means of float arrays; the mean of a boolean array is the
    fraction of its true entries. *)
Definition fsum (a : list Qc) : Qc := fold_right Qcplus 0 a.
Definition mean (a : list Qc) : result Qc := divide (fsum a) (Qc_of_Z (len a)).
Definition mean_bool (m : list bool) : result Qc :=
  divide (Qc_of_Z (sum m)) (Qc_of_Z (len m)).

(** [np.var]: the mean of the squared deviations from the mean. *)
Definition var (a : list Qc) : result Qc :=
  m ← mean a; mean (map (fun v => (v - m) * (v - m)) a).

(** [abs] of a float. *)
Definition qabs (x : Qc) : Qc := if decide (x < 0) then - x else x.

(** [np.diff] and [np.trapz(y, x)]. *)
Fixpoint diff (x : list Qc) : list Qc :=
  match x with
  | x0 :: ((x1 :: _) as x') => (x1 - x0) :: diff x'
  | _ => []
  end.
Fixpoint trapz (y x : list Qc) : Qc :=
  match y, x with
  | y0 :: ((y1 :: _) as y'), x0 :: ((x1 :: _) as x') =>
      (x1 - x0) * ((y1 + y0) / 2) + trapz y' x'
  | _, _ => 0
  end.

End Np.

(** ** Strings and identity

    The module compares strings with [is].  In CPython the literals it
    compares with ('optimal_overall', 'dot_product', 'lassopcr', ...) are
    interned when the module is compiled, and so is every identifier-like
    literal of a caller; a string built at run time (concatenated, sliced,
    read from a file or from user input) has the same characters but is
    another object. *)
Record pystr : Type := PyString { chars : string; interned : bool }.

(** The string denoted by an identifier-like literal in source code. *)
Definition literal (s : string) : pystr := PyString s true.

(** [x is 'name']. *)
Definition py_is (x : pystr) (name : string) : bool :=
  interned x && String.eqb (chars x) name.

(** ** The store and the [Roc] object *)

(** Float arrays handed in by the caller are shared with it: they are kept
    in a store, and [self.input_values] and [self.criterion_values] hold
    locations. *)
Abbreviation loc := nat.
Abbreviation store := (list (list Qc)).

(** The attributes of a [Roc] instance; an attribute that has not been
    assigned yet is [None]. *)
Record Roc : Type := mkRoc {
  input_values : option (loc);
  binary_outcome : option (list bool);
  threshold_type : option (pystr);
  forced_choice : option (bool);
  criterion_values : option (loc);
  class_thr : option (Qc);
  tpr : option (list Qc);
  fpr : option (list Qc);
  n_true : option (Qc);
  n_false : option (Qc);
  auc : option (Qc);
  false_positive : option (list bool);
  false_negative : option (list bool);
  misclass : option (list bool);
  true_positive : option (list bool);
  true_negative : option (list bool);
  sensitivity : option (Qc);
  specificity : option (Qc);
  ppv : option (Qc);
  accuracy : option (Qc);
  n : option (Z);
  accuracy_p : option (Qc);
  accuracy_se : option (Qc)
}.

Definition new_Roc : Roc :=
  mkRoc None None None None None None None None None None None None None None None None None None None None None None None.

(** [self.attr = v], one setter per attribute. *)
Definition set_input_values (v : loc) (r : Roc) : Roc :=
  mkRoc (Some v) (binary_outcome r) (threshold_type r) (forced_choice r) (criterion_values r) (class_thr r) (tpr r) (fpr r) (n_true r) (n_false r) (auc r) (false_positive r) (false_negative r) (misclass r) (true_positive r) (true_negative r) (sensitivity r) (specificity r) (ppv r) (accuracy r) (n r) (accuracy_p r) (accuracy_se r).
Definition set_binary_outcome (v : list bool) (r : Roc) : Roc :=
  mkRoc (input_values r) (Some v) (threshold_type r) (forced_choice r) (criterion_values r) (class_thr r) (tpr r) (fpr r) (n_true r) (n_false r) (auc r) (false_positive r) (false_negative r) (misclass r) (true_positive r) (true_negative r) (sensitivity r) (specificity r) (ppv r) (accuracy r) (n r) (accuracy_p r) (accuracy_se r).
Definition set_threshold_type (v : pystr) (r : Roc) : Roc :=
  mkRoc (input_values r) (binary_outcome r) (Some v) (forced_choice r) (criterion_values r) (class_thr r) (tpr r) (fpr r) (n_true r) (n_false r) (auc r) (false_positive r) (false_negative r) (misclass r) (true_positive r) (true_negative r) (sensitivity r) (specificity r) (ppv r) (accuracy r) (n r) (accuracy_p r) (accuracy_se r).
Definition set_forced_choice (v : bool) (r : Roc) : Roc :=
  mkRoc (input_values r) (binary_outcome r) (threshold_type r) (Some v) (criterion_values r) (class_thr r) (tpr r) (fpr r) (n_true r) (n_false r) (auc r) (false_positive r) (false_negative r) (misclass r) (true_positive r) (true_negative r) (sensitivity r) (specificity r) (ppv r) (accuracy r) (n r) (accuracy_p r) (accuracy_se r).
Definition set_criterion_values (v : loc) (r : Roc) : Roc :=
  mkRoc (input_values r) (binary_outcome r) (threshold_type r) (forced_choice r) (Some v) (class_thr r) (tpr r) (fpr r) (n_true r) (n_false r) (auc r) (false_positive r) (false_negative r) (misclass r) (true_positive r) (true_negative r) (sensitivity r) (specificity r) (ppv r) (accuracy r) (n r) (accuracy_p r) (accuracy_se r).
Definition set_class_thr (v : Qc) (r : Roc) : Roc :=
  mkRoc (input_values r) (binary_outcome r) (threshold_type r) (forced_choice r) (criterion_values r) (Some v) (tpr r) (fpr r) (n_true r) (n_false r) (auc r) (false_positive r) (false_negative r) (misclass r) (true_positive r) (true_negative r) (sensitivity r) (specificity r) (ppv r) (accuracy r) (n r) (accuracy_p r) (accuracy_se r).
Definition set_tpr (v : list Qc) (r : Roc) : Roc :=
  mkRoc (input_values r) (binary_outcome r) (threshold_type r) (forced_choice r) (criterion_values r) (class_thr r) (Some v) (fpr r) (n_true r) (n_false r) (auc r) (false_positive r) (false_negative r) (misclass r) (true_positive r) (true_negative r) (sensitivity r) (specificity r) (ppv r) (accuracy r) (n r) (accuracy_p r) (accuracy_se r).
Definition set_fpr (v : list Qc) (r : Roc) : Roc :=
  mkRoc (input_values r) (binary_outcome r) (threshold_type r) (forced_choice r) (criterion_values r) (class_thr r) (tpr r) (Some v) (n_true r) (n_false r) (auc r) (false_positive r) (false_negative r) (misclass r) (true_positive r) (true_negative r) (sensitivity r) (specificity r) (ppv r) (accuracy r) (n r) (accuracy_p r) (accuracy_se r).
Definition set_n_true (v : Qc) (r : Roc) : Roc :=
  mkRoc (input_values r) (binary_outcome r) (threshold_type r) (forced_choice r) (criterion_values r) (class_thr r) (tpr r) (fpr r) (Some v) (n_false r) (auc r) (false_positive r) (false_negative r) (misclass r) (true_positive r) (true_negative r) (sensitivity r) (specificity r) (ppv r) (accuracy r) (n r) (accuracy_p r) (accuracy_se r).
Definition set_n_false (v : Qc) (r : Roc) : Roc :=
  mkRoc (input_values r) (binary_outcome r) (threshold_type r) (forced_choice r) (criterion_values r) (class_thr r) (tpr r) (fpr r) (n_true r) (Some v) (auc r) (false_positive r) (false_negative r) (misclass r) (true_positive r) (true_negative r) (sensitivity r) (specificity r) (ppv r) (accuracy r) (n r) (accuracy_p r) (accuracy_se r).
Definition set_auc (v : Qc) (r : Roc) : Roc :=
  mkRoc (input_values r) (binary_outcome r) (threshold_type r) (forced_choice r) (criterion_values r) (class_thr r) (tpr r) (fpr r) (n_true r) (n_false r) (Some v) (false_positive r) (false_negative r) (misclass r) (true_positive r) (true_negative r) (sensitivity r) (specificity r) (ppv r) (accuracy r) (n r) (accuracy_p r) (accuracy_se r).
Definition set_false_positive (v : list bool) (r : Roc) : Roc :=
  mkRoc (input_values r) (binary_outcome r) (threshold_type r) (forced_choice r) (criterion_values r) (class_thr r) (tpr r) (fpr r) (n_true r) (n_false r) (auc r) (Some v) (false_negative r) (misclass r) (true_positive r) (true_negative r) (sensitivity r) (specificity r) (ppv r) (accuracy r) (n r) (accuracy_p r) (accuracy_se r).
Definition set_false_negative (v : list bool) (r : Roc) : Roc :=
  mkRoc (input_values r) (binary_outcome r) (threshold_type r) (forced_choice r) (criterion_values r) (class_thr r) (tpr r) (fpr r) (n_true r) (n_false r) (auc r) (false_positive r) (Some v) (misclass r) (true_positive r) (true_negative r) (sensitivity r) (specificity r) (ppv r) (accuracy r) (n r) (accuracy_p r) (accuracy_se r).
Definition set_misclass (v : list bool) (r : Roc) : Roc :=
  mkRoc (input_values r) (binary_outcome r) (threshold_type r) (forced_choice r) (criterion_values r) (class_thr r) (tpr r) (fpr r) (n_true r) (n_false r) (auc r) (false_positive r) (false_negative r) (Some v) (true_positive r) (true_negative r) (sensitivity r) (specificity r) (ppv r) (accuracy r) (n r) (accuracy_p r) (accuracy_se r).
Definition set_true_positive (v : list bool) (r : Roc) : Roc :=
  mkRoc (input_values r) (binary_outcome r) (threshold_type r) (forced_choice r) (criterion_values r) (class_thr r) (tpr r) (fpr r) (n_true r) (n_false r) (auc r) (false_positive r) (false_negative r) (misclass r) (Some v) (true_negative r) (sensitivity r) (specificity r) (ppv r) (accuracy r) (n r) (accuracy_p r) (accuracy_se r).
Definition set_true_negative (v : list bool) (r : Roc) : Roc :=
  mkRoc (input_values r) (binary_outcome r) (threshold_type r) (forced_choice r) (criterion_values r) (class_thr r) (tpr r) (fpr r) (n_true r) (n_false r) (auc r) (false_positive r) (false_negative r) (misclass r) (true_positive r) (Some v) (sensitivity r) (specificity r) (ppv r) (accuracy r) (n r) (accuracy_p r) (accuracy_se r).
Definition set_sensitivity (v : Qc) (r : Roc) : Roc :=
  mkRoc (input_values r) (binary_outcome r) (threshold_type r) (forced_choice r) (criterion_values r) (class_thr r) (tpr r) (fpr r) (n_true r) (n_false r) (auc r) (false_positive r) (false_negative r) (misclass r) (true_positive r) (true_negative r) (Some v) (specificity r) (ppv r) (accuracy r) (n r) (accuracy_p r) (accuracy_se r).
Definition set_specificity (v : Qc) (r : Roc) : Roc :=
  mkRoc (input_values r) (binary_outcome r) (threshold_type r) (forced_choice r) (criterion_values r) (class_thr r) (tpr r) (fpr r) (n_true r) (n_false r) (auc r) (false_positive r) (false_negative r) (misclass r) (true_positive r) (true_negative r) (sensitivity r) (Some v) (ppv r) (accuracy r) (n r) (accuracy_p r) (accuracy_se r).
Definition set_ppv (v : Qc) (r : Roc) : Roc :=
  mkRoc (input_values r) (binary_outcome r) (threshold_type r) (forced_choice r) (criterion_values r) (class_thr r) (tpr r) (fpr r) (n_true r) (n_false r) (auc r) (false_positive r) (false_negative r) (misclass r) (true_positive r) (true_negative r) (sensitivity r) (specificity r) (Some v) (accuracy r) (n r) (accuracy_p r) (accuracy_se r).
Definition set_accuracy (v : Qc) (r : Roc) : Roc :=
  mkRoc (input_values r) (binary_outcome r) (threshold_type r) (forced_choice r) (criterion_values r) (class_thr r) (tpr r) (fpr r) (n_true r) (n_false r) (auc r) (false_positive r) (false_negative r) (misclass r) (true_positive r) (true_negative r) (sensitivity r) (specificity r) (ppv r) (Some v) (n r) (accuracy_p r) (accuracy_se r).
Definition set_n (v : Z) (r : Roc) : Roc :=
  mkRoc (input_values r) (binary_outcome r) (threshold_type r) (forced_choice r) (criterion_values r) (class_thr r) (tpr r) (fpr r) (n_true r) (n_false r) (auc r) (false_positive r) (false_negative r) (misclass r) (true_positive r) (true_negative r) (sensitivity r) (specificity r) (ppv r) (accuracy r) (Some v) (accuracy_p r) (accuracy_se r).
Definition set_accuracy_p (v : Qc) (r : Roc) : Roc :=
  mkRoc (input_values r) (binary_outcome r) (threshold_type r) (forced_choice r) (criterion_values r) (class_thr r) (tpr r) (fpr r) (n_true r) (n_false r) (auc r) (false_positive r) (false_negative r) (misclass r) (true_positive r) (true_negative r) (sensitivity r) (specificity r) (ppv r) (accuracy r) (n r) (Some v) (accuracy_se r).
Definition set_accuracy_se (v : Qc) (r : Roc) : Roc :=
  mkRoc (input_values r) (binary_outcome r) (threshold_type r) (forced_choice r) (criterion_values r) (class_thr r) (tpr r) (fpr r) (n_true r) (n_false r) (auc r) (false_positive r) (false_negative r) (misclass r) (true_positive r) (true_negative r) (sensitivity r) (specificity r) (ppv r) (accuracy r) (n r) (accuracy_p r) (Some v).

(** ** Runs: state, value or exception *)

(** A run over a state [S] returns the state it ends in and either a value
    or the exception that ended it. *)
Definition St (S A : Type) : Type := S -> S * result A.

Definition ret {S A} (a : A) : St S A := fun w => (w, Ok a).
Definition raise {S A} (e : exn) : St S A := fun w => (w, Raise e).
Definition bind {S A B} (m : St S A) (k : A -> St S B) : St S B :=
  fun w => match m w with
           | (w', Ok a) => k a w'
           | (w', Raise e) => (w', Raise e)
           end.
Definition lift {S A} (r : result A) : St S A := fun w => (w, r).

#[global] Instance St_ret {S} : MRet (St S) := @ret S.
#[global] Instance St_bind {S} : MBind (St S) := fun A B k m => bind m k.

(** The state of a [Roc] method: the store and the object. *)
Record world : Type := mkWorld { heap : store; self : Roc }.

Abbreviation M := (St world).

(** Reading an attribute of [self] that was never assigned raises
    [AttributeError]. *)
Definition attr {A} (f : Roc -> option A) (name : string) : M A :=
  fun w => match f (self w) with
           | Some v => (w, Ok v)
           | None => (w, Raise (AttributeError name))
           end.
Definition setattr (upd : Roc -> Roc) : M unit :=
  fun w => (mkWorld (heap w) (upd (self w)), Ok tt).

(** The array behind a location, its replacement in place, and a fresh
    array. *)
Definition load (l : loc) : M (list Qc) :=
  fun w => match heap w !! l with
           | Some a => (w, Ok a)
           | None => (w, Raise (OutOfModel "no array at this location"))
           end.
Definition store_at (l : loc) (a : list Qc) : M unit :=
  fun w => (mkWorld (<[l := a]> (heap w)) (self w), Ok tt).
Definition alloc (a : list Qc) : M loc :=
  fun w => (mkWorld (heap w ++ [a]) (self w), Ok (length (heap w))).

(** [for i, x in enumerate(xs): body]. *)
Fixpoint for_enumerate {A} (body : nat -> A -> M unit) (i : nat) (xs : list A) : M unit :=
  match xs with
  | [] => ret tt
  | x :: xs' => body i x ;; for_enumerate body (S i) xs'
  end.

(** ** [sklearn.metrics.auc]

    The function is imported from scikit-learn and is not part of the
    repository.  It is written here after the library: the two arrays have
    the same length and at least two points, [x] is either non-decreasing
    or non-increasing (anything else is a [ValueError]), and the result is
    the trapezoidal integral of [y] over [x], negated when [x] decreases. *)
Module Sklearn.

Definition auc (x y : list Qc) : result Qc :=
  if negb (Nat.eqb (length x) (length y)) then
    Raise (ValueError "Found input variables with inconsistent numbers of samples")
  else if Nat.ltb (length x) 2 then
    Raise (ValueError "At least 2 points are needed to compute area under curve")
  else
    let dx := Np.diff x in
    if existsb (fun d => bool_decide (d < 0)) dx then
      if forallb (fun d => bool_decide (d ≤ 0)) dx then Ok (- 1 * Np.trapz y x)
      else Raise (ValueError "x is neither increasing nor decreasing")
    else Ok (1 * Np.trapz y x).

End Sklearn.

(** ** Class [Roc] *)

(** The arguments of [Roc.calculate]; [None] is Python's [None]. *)
Record calculate_args : Type := mkArgs {
  arg_input_values : option loc;
  arg_binary_outcome : option (list bool);
  arg_criterion_values : option loc;
  arg_threshold_type : pystr;
  arg_forced_choice : bool;
  arg_balanced_acc : bool
}.

(** [self.calculate()] with every argument at its default. *)
Definition default_args : calculate_args :=
  mkArgs None None None (literal "optimal_overall") false false.

(** The names bound at module level in [analysis.py] (imports, the
    constant [resource_dir], the two classes and [apply_mask]).  A name read
    in a method that is not one of its locals is looked up here, then in the
    builtins, and is a [NameError] when absent. *)
Definition module_globals : list string :=
  ["os"; "importlib"; "nib"; "sklearn"; "Pipeline"; "NiftiMasker"; "pd"; "np";
   "plot_stat_map"; "sns"; "plt"; "dist_from_hyperplane_plot"; "scatterplot";
   "probability_plot"; "roc_plot"; "pearson"; "norm"; "binom_test"; "auc";
   "resource_dir"; "Predict"; "apply_mask"; "Roc"].

Definition load_name (name : string) : M (list Qc) :=
  if bool_decide (name ∈ module_globals)
  then raise (OutOfModel "a module-level object used as an array")
  else raise (NameError name).

Section Roc.

(** scipy's [norm.ppf] and [binom_test] and numpy's [sqrt] are not rational
    functions; they are parameters of the embedding. *)
Variable norm_ppf : Qc -> Qc.
Variable binom_test : Z -> Z -> Qc.
Variable np_sqrt : Qc -> Qc.

(** What [Roc.plot] calls besides: numpy's [arange] (which refuses bounds
    that give no length), scipy's [norm.cdf] and the drawing function
    [roc_plot] of [nltools.plotting], which is not among the sources; the
    drawing returns nothing or raises, and has no access to the object. *)
Variable np_arange : Qc -> Qc -> Qc -> result (list Qc).
Variable norm_cdf : Qc -> Qc -> Qc -> Qc.
Variable roc_plot : list Qc -> list Qc -> result unit.

(** [Roc.__init__(input_values, binary_outcome, threshold_type, forced_choice)]. *)
Definition init (input_values_ : loc) (binary_outcome_ : list bool)
    (threshold_type_ : pystr) (forced_choice_ : bool) : M unit :=
  iv ← load input_values_;
  (if negb (Np.len iv =? Np.len binary_outcome_)%Z
   then raise (ValueError "Data Problem: input_value and binary_outcome are different lengths.")
   else mret tt);;
  (if negb (Np.any binary_outcome_)
   then raise (ValueError "Data Problem: binary_outcome may not be boolean")
   else mret tt);;
  let thr_type := ["optimal_overall"; "optimal_balanced"; "minimum_sdt_bias"] in
  (if negb (bool_decide (chars threshold_type_ ∈ thr_type))
   then raise (ValueError "threshold_type must be ['optimal_overall', 'optimal_balanced','minimum_sdt_bias']")
   else mret tt);;
  setattr (set_input_values input_values_);;
  setattr (set_binary_outcome binary_outcome_);;
  setattr (set_threshold_type threshold_type_);;
  setattr (set_forced_choice forced_choice_).

(** [Roc(...)]: a new object, initialised in the given store. *)
Definition construct (h : store) (input_values_ : loc) (binary_outcome_ : list bool)
    (threshold_type_ : pystr) (forced_choice_ : bool) : world * result unit :=
  init input_values_ binary_outcome_ threshold_type_ forced_choice_ (mkWorld h new_Roc).

(** [self.input_values], as an array. *)
Definition self_input_values : M (list Qc) :=
  l ← attr input_values "input_values"; load l.
Definition self_criterion_values : M (list Qc) :=
  l ← attr criterion_values "criterion_values"; load l.
Definition self_binary_outcome : M (list bool) :=
  attr binary_outcome "binary_outcome".

(** Lines 437-441: arguments that are not [None] replace the attributes. *)
Definition calc_inputs (a : calculate_args) : M unit :=
  match arg_input_values a with
  | Some v => setattr (set_input_values v)
  | None => mret tt
  end;;
  match arg_binary_outcome a with
  | Some v => setattr (set_binary_outcome v)
  | None => mret tt
  end.

(** Lines 443-447: the criterion values, by default 50 per observation
    between the least and the greatest input value. *)
Definition calc_criterion (a : calculate_args) : M unit :=
  match arg_criterion_values a with
  | Some c => setattr (set_criterion_values c)
  | None =>
      iv ← self_input_values;
      lo ← lift (Np.min iv);
      iv ← self_input_values;
      hi ← lift (Np.max iv);
      bo ← self_binary_outcome;
      c ← alloc (Np.linspace lo hi (50 * length bo));
      setattr (set_criterion_values c)
  end.

(** Lines 449-454: the forced-choice transformation, in place. *)
Definition calc_forced_choice (a : calculate_args) : M unit :=
  fc ← attr forced_choice "forced_choice";
  if arg_forced_choice a || fc then
    setattr (set_forced_choice true);;
    l ← attr input_values "input_values";
    iv ← load l; bo ← self_binary_outcome;
    s1 ← lift (Np.bool_index iv bo);
    iv ← load l; bo ← self_binary_outcome;
    s2 ← lift (Np.bool_index iv bo);
    sm ← lift (Np.broadcast2 Qcplus s1 s2);
    let mn_scores := map (fun v => v / 2) sm in
    iv ← load l; bo ← self_binary_outcome;
    s ← lift (Np.bool_index iv bo);
    d ← lift (Np.broadcast2 Qcminus s mn_scores);
    iv ← load l; bo ← self_binary_outcome;
    iv' ← lift (Np.bool_index_assign iv bo d);
    store_at l iv';;
    iv ← load l; bo ← self_binary_outcome;
    s ← lift (Np.bool_index iv (Np.invert bo));
    d ← lift (Np.broadcast2 Qcminus s mn_scores);
    iv ← load l; bo ← self_binary_outcome;
    iv' ← lift (Np.bool_index_assign iv (Np.invert bo) d);
    store_at l iv';;
    setattr (set_class_thr 0)
  else mret tt.

(** Lines 460-462: the body of the loop over the criterion values. *)
Definition calc_rates_body (i : nat) (x : Qc) : M unit :=
  iv ← self_input_values;
  let wh := Np.ge iv x in
  bo ← self_binary_outcome;
  wh_true ← lift (Np.bool_index wh bo);
  bo ← self_binary_outcome;
  q ← lift (Np.truediv (Np.float (Np.sum wh_true)) (Np.float (Np.sum bo)));
  t ← attr tpr "tpr";
  setattr (set_tpr (<[i := q]> t));;
  bo ← self_binary_outcome;
  wh_false ← lift (Np.bool_index wh (Np.invert bo));
  bo ← self_binary_outcome;
  q ← lift (Np.truediv (Np.float (Np.sum wh_false)) (Np.float (Np.sum (Np.invert bo))));
  f ← attr fpr "fpr";
  setattr (set_fpr (<[i := q]> f)).

(** Lines 456-464: true and false positive rate at every criterion value. *)
Definition calc_rates : M unit :=
  cv ← self_criterion_values;
  setattr (set_tpr (Np.zeros (length cv)));;
  cv ← self_criterion_values;
  setattr (set_fpr (Np.zeros (length cv)));;
  cv ← self_criterion_values;
  for_enumerate calc_rates_body 0 cv;;
  bo ← self_binary_outcome;
  setattr (set_n_true (Np.float (Np.sum bo)));;
  bo ← self_binary_outcome;
  setattr (set_n_false (Np.float (Np.sum (Np.invert bo)))).

(** Line 475: the area under the curve. *)
Definition calc_auc : M unit :=
  f ← attr fpr "fpr";
  t ← attr tpr "tpr";
  area ← lift (Sklearn.auc f t);
  setattr (set_auc area).

(** Lines 477-491: the classification threshold, unless forced choice has
    fixed it at 0.  The three branches are chosen by [is], so by the
    identity of the string and not by its characters.  The branch for
    ['optimal_balanced'] reads the bare names [tpr] and [fpr], which are
    neither locals of [calculate] nor globals. *)
Definition calc_threshold (a : calculate_args) : M unit :=
  fc ← attr forced_choice "forced_choice";
  if negb fc then
    let threshold_type_ := arg_threshold_type a in
    setattr (set_threshold_type threshold_type_);;
    if py_is threshold_type_ "optimal_balanced" then
      t ← load_name "tpr";
      f ← load_name "fpr";
      s ← lift (Np.broadcast2 Qcplus t f);
      let mn := map (fun v => v / 2) s in
      cv ← self_criterion_values;
      i ← lift (Np.argmax mn);
      x ← lift (Np.item cv i);
      setattr (set_class_thr x)
    else if py_is threshold_type_ "optimal_overall" then
      t ← attr tpr "tpr";
      nt ← attr n_true "n_true";
      let n_corr_t := map (fun v => v * nt) t in
      f ← attr fpr "fpr";
      nf ← attr n_false "n_false";
      let n_corr_f := map (fun v => (1 - v) * nf) f in
      sm ← lift (Np.broadcast2 Qcplus n_corr_t n_corr_f);
      cv ← self_criterion_values;
      i ← lift (Np.argmax sm);
      x ← lift (Np.item cv i);
      setattr (set_class_thr x)
    else if py_is threshold_type_ "minimum_sdt_bias" then
      t ← attr tpr "tpr";
      let zt := map norm_ppf (Np.maximum (Q2Qc (1 # 10000)) (Np.minimum (Q2Qc (9999 # 10000)) t)) in
      f ← attr fpr "fpr";
      let zf := map norm_ppf (Np.maximum (Q2Qc (1 # 10000)) (Np.minimum (Q2Qc (9999 # 10000)) f)) in
      s ← lift (Np.broadcast2 Qcplus zt zf);
      let c_bias := map (fun v => v / Np.float 2) s in
      cv ← self_criterion_values;
      i ← lift (Np.argmin (map Np.qabs c_bias));
      x ← lift (Np.item cv i);
      setattr (set_class_thr x)
    else mret tt
  else mret tt.

(** Lines 493-507: the confusion vectors and the rates at the threshold. *)
Definition calc_output : M unit :=
  iv ← self_input_values; thr ← attr class_thr "class_thr"; bo ← self_binary_outcome;
  fp ← lift (Np.broadcast2 andb (Np.ge iv thr) (Np.invert bo));
  setattr (set_false_positive fp);;
  iv ← self_input_values; thr ← attr class_thr "class_thr"; bo ← self_binary_outcome;
  fn ← lift (Np.broadcast2 andb (Np.lt iv thr) bo);
  setattr (set_false_negative fn);;
  fn ← attr false_negative "false_negative"; fp ← attr false_positive "false_positive";
  mc ← lift (Np.broadcast2 orb fn fp);
  setattr (set_misclass mc);;
  bo ← self_binary_outcome; mc ← attr misclass "misclass";
  tp ← lift (Np.broadcast2 andb bo (Np.invert mc));
  setattr (set_true_positive tp);;
  bo ← self_binary_outcome; mc ← attr misclass "misclass";
  tn ← lift (Np.broadcast2 andb (Np.invert bo) (Np.invert mc));
  setattr (set_true_negative tn);;
  iv ← self_input_values; bo ← self_binary_outcome;
  s ← lift (Np.bool_index iv bo);
  thr ← attr class_thr "class_thr"; nt ← attr n_true "n_true";
  q ← lift (Np.divide (Np.float (Np.sum (Np.ge s thr))) nt);
  setattr (set_sensitivity q);;
  iv ← self_input_values; bo ← self_binary_outcome;
  s ← lift (Np.bool_index iv (Np.invert bo));
  thr ← attr class_thr "class_thr"; nf ← attr n_false "n_false";
  q ← lift (Np.divide (Np.float (Np.sum (Np.ge s thr))) nf);
  setattr (set_specificity (1 - q));;
  tp ← attr true_positive "true_positive";
  tp' ← attr true_positive "true_positive"; fp ← attr false_positive "false_positive";
  q ← lift (Np.truediv (Np.float (Np.sum tp))
                       (Np.float (Np.sum tp') + Np.float (Np.sum fp)));
  setattr (set_ppv q);;
  fc ← attr forced_choice "forced_choice";
  if (fc : bool) then
    tp ← attr true_positive "true_positive"; bo ← self_binary_outcome;
    v ← lift (Np.bool_index tp bo);
    setattr (set_true_positive v);;
    tn ← attr true_negative "true_negative"; bo ← self_binary_outcome;
    v ← lift (Np.bool_index tn (Np.invert bo));
    setattr (set_true_negative v);;
    fn ← attr false_negative "false_negative"; bo ← self_binary_outcome;
    v ← lift (Np.bool_index fn bo);
    setattr (set_false_negative v);;
    fp ← attr false_positive "false_positive"; bo ← self_binary_outcome;
    v ← lift (Np.bool_index fp (Np.invert bo));
    setattr (set_false_positive v);;
    fp ← attr false_positive "false_positive"; fn ← attr false_negative "false_negative";
    mc ← lift (Np.broadcast2 orb fp fn);
    setattr (set_misclass mc)
  else mret tt.

(** Lines 509-513: accuracy, balanced or plain. *)
Definition calc_accuracy (a : calculate_args) : M unit :=
  if arg_balanced_acc a then
    se ← attr sensitivity "sensitivity"; sp ← attr specificity "specificity";
    m ← lift (Np.mean [se; sp]);
    setattr (set_accuracy m)
  else
    mc ← attr misclass "misclass";
    m ← lift (Np.mean_bool mc);
    setattr (set_accuracy (1 - m)).

(** Lines 515-518: the binomial test and the standard error. *)
Definition calc_pvalue : M unit :=
  mc ← attr misclass "misclass";
  setattr (set_n (Np.len mc));;
  mc ← attr misclass "misclass"; n_ ← attr n "n";
  setattr (set_accuracy_p (binom_test (Np.sum (Np.invert mc)) n_));;
  mc ← attr misclass "misclass";
  m1 ← lift (Np.mean_bool (Np.invert mc));
  mc ← attr misclass "misclass";
  m2 ← lift (Np.mean_bool (Np.invert mc));
  n_ ← attr n "n";
  q ← lift (Np.truediv (m1 * m2) (Np.float n_));
  setattr (set_accuracy_se (np_sqrt q)).

(** [Roc.calculate], lines 420-518. *)
Definition calculate (a : calculate_args) : M unit :=
  calc_inputs a;;
  calc_criterion a;;
  calc_forced_choice a;;
  calc_rates;;
  calc_auc;;
  calc_threshold a;;
  calc_output;;
  calc_accuracy a;;
  calc_pvalue.

(** [np.std]: the square root of the variance. *)
Definition np_std (a : list Qc) : result Qc :=
  v ← Np.var a; mret (np_sqrt v).

(** Lines 537-546: the smooth curve of the forced-choice case, from the
    differences between the scores of the two classes. *)
Definition plot_gaussian_forced : M (list Qc * list Qc) :=
  iv ← self_input_values; bo ← self_binary_outcome;
  t ← lift (Np.bool_index iv bo);
  iv ← self_input_values; bo ← self_binary_outcome;
  f ← lift (Np.bool_index iv (Np.invert bo));
  diff_scores ← lift (Np.broadcast2 Qcminus t f);
  mn_diff ← lift (Np.mean diff_scores);
  sd ← lift (np_std diff_scores);
  d ← lift (Np.divide mn_diff sd);
  sd ← lift (np_std diff_scores);
  pooled_sd ← lift (Np.divide sd (np_sqrt 2));
  d_a_model ← lift (Np.divide mn_diff pooled_sd);
  x ← lift (np_arange (Qc_of_Z (-3)) (Qc_of_Z 3) (Q2Qc (1 # 10)));
  let tpr_smooth := map (fun v => 1 - norm_cdf v d 1) x in
  let fpr_smooth := map (fun v => 1 - norm_cdf v (- d) 1) x in
  mret (fpr_smooth, tpr_smooth).

(** Lines 548-559: the smooth curve of the single-interval case, from the
    means of the two classes and the variance of the true one. *)
Definition plot_gaussian_single : M (list Qc * list Qc) :=
  iv ← self_input_values; bo ← self_binary_outcome;
  t ← lift (Np.bool_index iv bo);
  mn_true ← lift (Np.mean t);
  iv ← self_input_values; bo ← self_binary_outcome;
  f ← lift (Np.bool_index iv (Np.invert bo));
  mn_false ← lift (Np.mean f);
  iv ← self_input_values; bo ← self_binary_outcome;
  t ← lift (Np.bool_index iv bo);
  var_true ← lift (Np.var t);
  iv ← self_input_values; bo ← self_binary_outcome;
  f ← lift (Np.bool_index iv (Np.invert bo));
  var_false ← lift (Np.var f);
  nt ← attr n_true "n_true";
  nt' ← attr n_true "n_true"; nf ← attr n_false "n_false";
  q ← lift (Np.divide (var_true * (nt - 1)) (nt' + nf - 2));
  let pooled_sd := np_sqrt q in
  d ← lift (Np.divide (mn_true - mn_false) pooled_sd);
  z_true ← lift (Np.divide mn_true pooled_sd);
  z_false ← lift (Np.divide mn_false pooled_sd);
  x ← lift (np_arange (z_false - Qc_of_Z 3) (z_true + Qc_of_Z 3) (Q2Qc (1 # 10)));
  let tpr_smooth := map (fun v => 1 - norm_cdf v z_true 1) x in
  let fpr_smooth := map (fun v => 1 - norm_cdf v z_false 1) x in
  mret (fpr_smooth, tpr_smooth).

(** [Roc.plot], lines 519-566: the parameters are recomputed with default
    arguments, then the curve is prepared and handed to [roc_plot]. *)
Definition plot (plot_method : pystr) : M unit :=
  calculate default_args;;
  if py_is plot_method "gaussian" then
    fc ← attr forced_choice "forced_choice";
    '(fpr_smooth, tpr_smooth) ← (if (fc : bool) then plot_gaussian_forced
                                 else plot_gaussian_single);
    lift (roc_plot fpr_smooth tpr_smooth)
  else if py_is plot_method "observed" then
    f ← attr fpr "fpr"; t ← attr tpr "tpr";
    lift (roc_plot f t)
  else raise (ValueError "plot_method must be 'gaussian' or 'observed'").

End Roc.

(** ** [apply_mask] *)

(** Two-dimensional arrays, with their shape kept apart from the rows so
    that empty axes are not lost. *)
Record matrix : Type := mkMatrix {
  rows : nat;
  cols : nat;
  cells : list (list Qc)
}.

(** The value of an expression of array type: zero, one or two axes. *)
Inductive ndarray : Type :=
| Scalar (x : Qc)
| Vector (v : list Qc)
| Matrix (m : matrix).

Definition wf_matrix (m : matrix) : Prop :=
  length (cells m) = rows m ∧ Forall (fun r => length r = cols m) (cells m).

Definition column (j : nat) (m : matrix) : list Qc :=
  map (fun r => nth j r 0) (cells m).

(** [np.transpose] of a two-dimensional array. *)
Definition transpose (m : matrix) : matrix :=
  mkMatrix (cols m) (rows m) (map (fun j => column j m) (seq 0 (cols m))).

Definition inner (x y : list Qc) : Qc := Np.fsum (zip_with Qcmult x y).

(** [np.dot] of two two-dimensional arrays: the matrix product, refused
    when the inner dimensions differ. *)
Definition dot (a b : matrix) : result matrix :=
  if negb (Nat.eqb (cols a) (rows b)) then Raise (ValueError "shapes not aligned")
  else Ok (mkMatrix (rows a) (cols b)
             (map (fun r => map (fun j => inner r (column j b)) (seq 0 (cols b))) (cells a))).

(** [.squeeze()]: the axes of length one are dropped. *)
Definition squeeze (m : matrix) : ndarray :=
  match rows m, cols m with
  | 1%nat, 1%nat => Scalar (nth 0 (nth 0 (cells m) []) 0)
  | 1%nat, _ => Vector (nth 0 (cells m) [])
  | _, 1%nat => Vector (column 0 m)
  | _, _ => Matrix m
  end.

(** [os.path.join] of a directory and a relative file name. *)
Definition path_join (dir file : string) : string :=
  if String.eqb dir "" then file
  else if String.eqb (String.substring (String.length dir - 1) 1 dir) "/" then dir ++ file
  else dir ++ "/" ++ file.

(** The arguments of [apply_mask] are Python objects whose type the
    function inspects. *)
Inductive pyobj (image : Type) : Type :=
| PyNone
| Nifti1Image (img : image)
| PyOther.
Arguments PyNone {image}.
Arguments Nifti1Image {image} img.
Arguments PyOther {image}.

Section ApplyMask.

(** nibabel images, nilearn's masker, the mask file shipped with the
    package, numpy's [savetxt] and [sqrt] come from outside the repository
    and are parameters: [fit_transform mask img] stands for
    [NiftiMasker(mask_img=mask).fit_transform(img)], one row per volume and
    one column per voxel of the mask. *)
Variable image : Type.
Variable files : Type.
Variable fit_transform : image -> image -> result matrix.
Variable load_default_mask : result image.
Variable np_savetxt : string -> ndarray -> St files unit.
Variable np_sqrt : Qc -> Qc.

(** Pearson's correlation coefficient of two vectors. *)
Definition pearson_r (x y : list Qc) : result Qc :=
  mx ← Np.mean x;
  my ← Np.mean y;
  let xm := map (fun v => v - mx) x in
  let ym := map (fun v => v - my) y in
  Np.divide (inner xm ym) (np_sqrt (inner xm xm) * np_sqrt (inner ym ym)).

(** Modelled from the spec: [nltools.stats.pearson] is imported from a
    module of the repository that is not among the sources.  The
    specification says of the call [pearson(data_masked, weight_map_masked)]
    that it yields the Pearson correlation between each masked image and the
    masked weight map: one coefficient per row of the first argument, taken
    against the single row of the second.  It says nothing of a second
    argument with another number of rows. *)
Definition pearson (x y : matrix) : result ndarray :=
  match cells y with
  | [w] => v ← mapM (fun r => pearson_r r w) (cells x); mret (Vector v)
  | _ => Raise (OutOfModel "weight map with other than one row")
  end.

(** [apply_mask(data, weight_map, mask, method, save_output, output_dir)],
    lines 346-389.  The method is recognised by [is] (lines 381 and 383);
    the file name is built from its characters. *)
Definition apply_mask (data weight_map mask : pyobj image) (method : pystr)
    (save_output : bool) (output_dir : string) : St files ndarray :=
  mask_ ← match mask with
          | PyNone => lift load_default_mask
          | Nifti1Image m => mret m
          | PyOther => raise (ValueError "Mask is not a nibabel instance")
          end;
  data_ ← match data with
          | Nifti1Image d => mret d
          | _ => raise (ValueError "Data is not a nibabel instance")
          end;
  data_masked ← lift (fit_transform mask_ data_);
  weight_map_ ← match weight_map with
                | Nifti1Image m => mret m
                | _ => raise (ValueError "Weight_map is not a nibabel instance")
                end;
  weight_map_masked ← lift (fit_transform mask_ weight_map_);
  pexp ← (if py_is method "dot_product" then
            p ← lift (dot data_masked (transpose weight_map_masked));
            mret (Some (squeeze p))
          else if py_is method "correlation" then
            p ← lift (pearson data_masked weight_map_masked);
            mret (Some p)
          else mret None);
  (if save_output then
     let path := path_join output_dir ("Pattern_Expression_" ++ chars method ++ ".csv") in
     match pexp with
     | Some p => np_savetxt path p
     | None => raise (UnboundLocalError "pexp")
     end
   else mret tt);;
  match pexp with
  | Some p => mret p
  | None => raise (UnboundLocalError "pexp")
  end.

End ApplyMask.

(** * Specification-side notions *)

(** The difference between the greatest and the least score is a finite
    float, so that [np.linspace] between them does not overflow. *)
Definition span_is_finite (iv : list Qc) : Prop :=
  ∀ lo hi, Np.min iv = Ok lo → Np.max iv = Ok hi → hi - lo ≤ Np.float_max.

(** The number of observations whose outcome is [flag]. *)
Definition total (flag : bool) (bo : list bool) : nat :=
  length (filter (fun b => b = flag) bo).

(** The number of observations whose outcome is [flag] and whose input
    value is at least [x]. *)
Definition hits (flag : bool) (iv : list Qc) (bo : list bool) (x : Qc) : nat :=
  length (filter (fun p => p.2 = flag ∧ x ≤ p.1) (zip iv bo)).

(** The rate of such observations among those of outcome [flag]: the true
    positive rate for [flag = true], the false positive rate otherwise. *)
Definition rate (flag : bool) (iv : list Qc) (bo : list bool) (x : Qc) : Qc :=
  Qc_of_Z (Z.of_nat (hits flag iv bo x)) / Qc_of_Z (Z.of_nat (total flag bo)).

(** * Facts about the numpy fragment *)

Section NpFacts.

Lemma total_cons (flag b : bool) (m : list bool) :
  total flag (b :: m) = ((if bool_decide (b = flag) then 1 else 0) + total flag m)%nat.
Proof. unfold total. rewrite filter_cons. by case_bool_decide; case_decide. Qed.

Lemma hits_cons (flag b : bool) (v x : Qc) (iv : list Qc) (bo : list bool) :
  hits flag (v :: iv) (b :: bo) x
  = ((if bool_decide (b = flag ∧ (x ≤ v)%Qc) then 1 else 0) + hits flag iv bo x)%nat.
Proof.
  unfold hits. change (zip (v :: iv) (b :: bo)) with ((v, b) :: zip iv bo).
  rewrite filter_cons. by case_bool_decide; case_decide.
Qed.

Lemma hits_nil_l (flag : bool) (bo : list bool) (x : Qc) : hits flag [] bo x = 0%nat.
Proof. done. Qed.

Lemma hits_nil_r (flag : bool) (iv : list Qc) (x : Qc) : hits flag iv [] x = 0%nat.
Proof. by destruct iv. Qed.

Lemma sum_fold (m : list bool) (acc : Z) :
  fold_left (fun acc b => (acc + Z.b2z b)%Z) m acc = (acc + Z.of_nat (total true m))%Z.
Proof.
  revert acc. induction m as [|b m IH]; intros acc.
  - unfold total. simpl. lia.
  - cbn [fold_left]. rewrite IH, total_cons. destruct b; simpl; lia.
Qed.

Lemma sum_total (m : list bool) : Np.sum m = Z.of_nat (total true m).
Proof. unfold Np.sum. rewrite sum_fold. lia. Qed.

Lemma total_invert (flag : bool) (m : list bool) :
  total flag (Np.invert m) = total (negb flag) m.
Proof.
  unfold Np.invert. induction m as [|b m IH]; [done|].
  cbn [map]. rewrite !total_cons, IH. by destruct b, flag.
Qed.

Lemma sum_invert (m : list bool) : Np.sum (Np.invert m) = Z.of_nat (total false m).
Proof. rewrite sum_total, total_invert. done. Qed.

Lemma total_split (m : list bool) : (total true m + total false m = length m)%nat.
Proof.
  induction m as [|b m IH]; [done|].
  rewrite !total_cons. destruct b; simpl; lia.
Qed.

Lemma select_length {A} (a : list A) (m : list bool) :
  length a = length m → length (Np.select a m) = total true m.
Proof.
  revert m. induction a as [|x a IH]; intros [|b m] Hl; try done.
  rewrite total_cons. simpl in Hl. destruct b; simpl; auto.
Qed.

Lemma select_map {A B} (f : A → B) (a : list A) (m : list bool) :
  Np.select (map f a) m = map f (Np.select a m).
Proof.
  revert m. induction a as [|x a IH]; intros [|b m]; simpl; try done.
  destruct b; simpl; congruence.
Qed.

Lemma total_ge_cons (v x : Qc) (a : list Qc) :
  total true (Np.ge (v :: a) x)
  = ((if bool_decide (x ≤ v)%Qc then 1 else 0) + total true (Np.ge a x))%nat.
Proof. unfold Np.ge. cbn [map]. rewrite total_cons. by repeat case_bool_decide. Qed.

Lemma total_ge_select (flag : bool) (iv : list Qc) (bo : list bool) (x : Qc) :
  total true (Np.ge (Np.select iv (if flag then bo else Np.invert bo)) x)
  = hits flag iv bo x.
Proof.
  revert bo. induction iv as [|v iv IH]; intros [|b bo].
  - by destruct flag.
  - by destruct flag.
  - rewrite hits_nil_r. by destruct flag.
  - rewrite hits_cons, <- IH, bool_decide_and.
    destruct flag, b; cbn [Np.select Np.invert map negb];
      rewrite ?total_ge_cons; by destruct (bool_decide (x ≤ v)).
Qed.

Lemma sum_select_ge (flag : bool) (iv : list Qc) (bo : list bool) (x : Qc) :
  Np.sum (Np.select (Np.ge iv x) (if flag then bo else Np.invert bo))
  = Z.of_nat (hits flag iv bo x).
Proof.
  unfold Np.ge at 1. rewrite select_map.
  fold (Np.ge (Np.select iv (if flag then bo else Np.invert bo)) x).
  rewrite sum_total, total_ge_select. done.
Qed.

Lemma invert_length (m : list bool) : length (Np.invert m) = length m.
Proof. unfold Np.invert. by rewrite length_map. Qed.

Lemma ge_length (a : list Qc) (x : Qc) : length (Np.ge a x) = length a.
Proof. unfold Np.ge. by rewrite length_map. Qed.

Lemma lt_length (a : list Qc) (x : Qc) : length (Np.lt a x) = length a.
Proof. unfold Np.lt. by rewrite length_map. Qed.

Lemma bool_index_eq {A} (a : list A) (m : list bool) :
  length a = length m → Np.bool_index a m = Ok (Np.select a m).
Proof. intros H. unfold Np.bool_index. by rewrite H, Nat.eqb_refl. Qed.

Lemma broadcast2_eq {A B C} (f : A → B → C) (xs : list A) (ys : list B) :
  length xs = length ys → Np.broadcast2 f xs ys = Ok (zip_with f xs ys).
Proof. intros H. unfold Np.broadcast2. by rewrite H, Nat.eqb_refl. Qed.

End NpFacts.

(** * Reasoning about runs *)

(** [wp m w Q]: the run of [m] from [w] ends in a state and an outcome that
    satisfy [Q]. *)
Definition wp {S A} (m : St S A) (w : S) (Q : S → result A → Prop) : Prop :=
  Q (m w).1 (m w).2.

Section WpRules.
Context {S : Type}.

Lemma wp_bind {A B} (m : St S A) (k : A → St S B) (w : S) (Q : S → result B → Prop) :
  wp m w (fun w' r => match r with
                      | Ok a => wp (k a) w' Q
                      | Raise e => Q w' (Raise e)
                      end) →
  wp (m ≫= k) w Q.
Proof.
  unfold wp, mbind, St_bind, bind. destruct (m w) as [w' [a|e]]; simpl; auto.
Qed.

Lemma wp_ret {A} (a : A) (w : S) (Q : S → result A → Prop) :
  Q w (Ok a) → wp (mret a) w Q.
Proof. done. Qed.

Lemma wp_raise {A} (e : exn) (w : S) (Q : S → result A → Prop) :
  Q w (Raise e) → wp (raise e) w Q.
Proof. done. Qed.

Lemma wp_lift {A} (r : result A) (w : S) (Q : S → result A → Prop) :
  Q w r → wp (lift r) w Q.
Proof. done. Qed.

Lemma wp_lift_ok {A} (r : result A) (a : A) (w : S) (Q : S → result A → Prop) :
  r = Ok a → Q w (Ok a) → wp (lift r) w Q.
Proof. by intros ->. Qed.

Lemma wp_mono {A} (m : St S A) (w : S) (Q Q' : S → result A → Prop) :
  wp m w Q → (∀ w' r, Q w' r → Q' w' r) → wp m w Q'.
Proof. unfold wp. auto. Qed.

Lemma wp_run {A} (m : St S A) (w : S) (Q : S → result A → Prop) :
  wp m w Q → Q (m w).1 (m w).2.
Proof. done. Qed.

Lemma wp_state {A} (m : St S A) (w : S) (P : S → Prop) :
  wp m w (fun w' _ => P w') → P (m w).1.
Proof. done. Qed.

End WpRules.

Lemma wp_attr_some {A} (f : Roc → option A) (name : string) (w : world) (v : A)
    (Q : world → result A → Prop) :
  f (self w) = Some v → Q w (Ok v) → wp (attr f name) w Q.
Proof. unfold wp, attr. by intros ->. Qed.

Lemma wp_attr_none {A} (f : Roc → option A) (name : string) (w : world)
    (Q : world → result A → Prop) :
  f (self w) = None → Q w (Raise (AttributeError name)) → wp (attr f name) w Q.
Proof. unfold wp, attr. by intros ->. Qed.

Lemma wp_attr_any {A} (f : Roc → option A) (name : string) (w : world)
    (Q : world → result A → Prop) :
  (∀ r, Q w r) → wp (attr f name) w Q.
Proof. unfold wp, attr. intros H. destruct (f (self w)); apply H. Qed.

Lemma wp_setattr (upd : Roc → Roc) (w : world) (Q : world → result unit → Prop) :
  Q (mkWorld (heap w) (upd (self w))) (Ok tt) → wp (setattr upd) w Q.
Proof. done. Qed.

Lemma wp_load_some (l : loc) (a : list Qc) (w : world) (Q : world → result (list Qc) → Prop) :
  heap w !! l = Some a → Q w (Ok a) → wp (load l) w Q.
Proof. unfold wp, load. by intros ->. Qed.

Lemma wp_load_any (l : loc) (w : world) (Q : world → result (list Qc) → Prop) :
  (∀ r, Q w r) → wp (load l) w Q.
Proof. unfold wp, load. intros H. destruct (heap w !! l); apply H. Qed.

Lemma wp_store_at (l : loc) (a : list Qc) (w : world) (Q : world → result unit → Prop) :
  Q (mkWorld (<[l := a]> (heap w)) (self w)) (Ok tt) → wp (store_at l a) w Q.
Proof. done. Qed.

Lemma wp_alloc (a : list Qc) (w : world) (Q : world → result loc → Prop) :
  Q (mkWorld (heap w ++ [a]) (self w)) (Ok (length (heap w))) → wp (alloc a) w Q.
Proof. done. Qed.

(** One step of a run whose outcome is known. *)
Ltac wp_attr :=
  apply wp_bind; eapply wp_attr_some; [cbn; first [reflexivity | eassumption] | cbn beta iota].
Ltac wp_load :=
  apply wp_bind; eapply wp_load_some; [cbn; first [reflexivity | eassumption] | cbn beta iota].
Ltac wp_set :=
  first [apply wp_bind; apply wp_setattr; cbn beta iota | apply wp_setattr].
Ltac wp_lift_with lem :=
  apply wp_bind; eapply wp_lift_ok; [apply lem | cbn beta iota].

(** * The rates *)

Lemma Qc_of_nat_nonzero (k : nat) : k ≠ 0%nat → Qc_of_Z (Z.of_nat k) ≠ 0.
Proof.
  intros Hk H. rewrite <- Z2Qc_inj_0 in H. apply Z2Qc_inj in H. lia.
Qed.

Lemma truediv_rate (flag : bool) (iv : list Qc) (bo : list bool) (x : Qc) :
  total flag bo ≠ 0%nat →
  Np.truediv
    (Np.float (Np.sum (Np.select (Np.ge iv x) (if flag then bo else Np.invert bo))))
    (Np.float (Np.sum (if flag then bo else Np.invert bo)))
  = Ok (rate flag iv bo x).
Proof.
  intros Hn. unfold Np.truediv, Np.float, rate.
  rewrite sum_select_ge.
  replace (Np.sum (if flag then bo else Np.invert bo)) with (Z.of_nat (total flag bo))
    by (destruct flag; [by rewrite sum_total | by rewrite sum_invert]).
  destruct (decide _) as [H0|_]; [|done].
  by apply Qc_of_nat_nonzero in H0.
Qed.

Section Rates.
Variables (l : loc) (iv : list Qc) (bo : list bool).
Hypothesis Hlen : length iv = length bo.
Hypothesis Htrue : total true bo ≠ 0%nat.
Hypothesis Hfalse : total false bo ≠ 0%nat.

Lemma wp_calc_rates_body (w : world) (i : nat) (x : Qc) (t f : list Qc)
    (Q : world → result unit → Prop) :
  input_values (self w) = Some l → heap w !! l = Some iv →
  binary_outcome (self w) = Some bo →
  tpr (self w) = Some t → fpr (self w) = Some f →
  Q (mkWorld (heap w)
       (set_fpr (<[i := rate false iv bo x]> f)
          (set_tpr (<[i := rate true iv bo x]> t) (self w)))) (Ok tt) →
  wp (calc_rates_body i x) w Q.
Proof.
  intros Hl Hh Hb Ht Hf HQ.
  unfold calc_rates_body, self_input_values, self_binary_outcome.
  apply wp_bind. wp_attr. eapply wp_load_some; [done|]. cbn beta iota.
  wp_attr.
  wp_lift_with (bool_index_eq (Np.ge iv x) bo); [by rewrite ge_length|].
  wp_attr.
  wp_lift_with (truediv_rate true iv bo x Htrue).
  wp_attr. wp_set.
  wp_attr.
  wp_lift_with (bool_index_eq (Np.ge iv x) (Np.invert bo));
    [by rewrite ge_length, invert_length|].
  wp_attr.
  wp_lift_with (truediv_rate false iv bo x Hfalse).
  wp_attr. wp_set.
  exact HQ.
Qed.

End Rates.

Section RatesLoop.
Variables (l : loc) (iv : list Qc) (bo : list bool).
Hypothesis Hlen : length iv = length bo.
Hypothesis Htrue : total true bo ≠ 0%nat.
Hypothesis Hfalse : total false bo ≠ 0%nat.

Lemma take_S_insert {A} (t : list A) (i : nat) (v : A) :
  (i < length t)%nat → take (S i) (<[i := v]> t) = take i t ++ [v].
Proof.
  intros Hi. rewrite (take_S_r _ _ v) by (by apply list_lookup_insert_eq).
  by rewrite take_insert_ge by lia.
Qed.

(** The loop fills the two arrays from index [i] on, one criterion value
    after the other. *)
Lemma wp_rates_loop (xs : list Qc) :
  ∀ (w : world) (i : nat) (t f : list Qc) (Q : world → result unit → Prop),
    input_values (self w) = Some l → heap w !! l = Some iv →
    binary_outcome (self w) = Some bo →
    tpr (self w) = Some t → fpr (self w) = Some f →
    length t = (i + length xs)%nat → length f = (i + length xs)%nat →
    Q (mkWorld (heap w)
         (set_fpr (take i f ++ map (rate false iv bo) xs)
            (set_tpr (take i t ++ map (rate true iv bo) xs) (self w)))) (Ok tt) →
    wp (for_enumerate calc_rates_body i xs) w Q.
Proof.
  induction xs as [|x xs IH]; intros w i t f Q Hl Hh Hb Ht Hf Hlt Hlf HQ.
  - simpl in *. apply wp_ret.
    rewrite !app_nil_r, !take_ge in HQ by lia.
    destruct w as [h r]; destruct r; simpl in *; by subst.
  - cbn [for_enumerate]. apply wp_bind.
    eapply (wp_calc_rates_body l iv bo Hlen Htrue Hfalse); eauto.
    cbn beta iota. simpl in Hlt, Hlf.
    eapply (IH _ (S i)); try reflexivity; cbn; eauto.
    + rewrite length_insert. lia.
    + rewrite length_insert. lia.
    + rewrite !take_S_insert by lia. rewrite <- !app_assoc. exact HQ.
Qed.

(** Lines 456-464 on well-formed data: both rates at every criterion value,
    and the two counts. *)
Lemma wp_calc_rates (w : world) (c : loc) (cv : list Qc)
    (Q : world → result unit → Prop) :
  input_values (self w) = Some l → heap w !! l = Some iv →
  binary_outcome (self w) = Some bo →
  criterion_values (self w) = Some c → heap w !! c = Some cv →
  Q (mkWorld (heap w)
       (set_n_false (Qc_of_Z (Z.of_nat (total false bo)))
          (set_n_true (Qc_of_Z (Z.of_nat (total true bo)))
             (set_fpr (map (rate false iv bo) cv)
                (set_tpr (map (rate true iv bo) cv) (self w)))))) (Ok tt) →
  wp calc_rates w Q.
Proof.
  intros Hl Hh Hb Hc Hcv HQ.
  unfold calc_rates, self_criterion_values, self_binary_outcome.
  apply wp_bind. wp_attr. eapply wp_load_some; [done|]. cbn beta iota.
  wp_set.
  apply wp_bind. wp_attr. eapply wp_load_some; [done|]. cbn beta iota.
  wp_set.
  apply wp_bind. wp_attr. eapply wp_load_some; [done|]. cbn beta iota.
  apply wp_bind.
  eapply (wp_rates_loop cv _ 0%nat (Np.zeros (length cv)) (Np.zeros (length cv)));
    try reflexivity; cbn; eauto;
    try (unfold Np.zeros; by rewrite length_replicate).
  wp_attr. wp_set. wp_attr. wp_set.
  unfold Np.float. rewrite sum_total, sum_invert. exact HQ.
Qed.

End RatesLoop.

(** * What the later steps leave alone *)

(** The store and the attributes that hold the data of the call. *)
Definition same_inputs (w w' : world) : Prop :=
  heap w' = heap w ∧
  input_values (self w') = input_values (self w) ∧
  binary_outcome (self w') = binary_outcome (self w) ∧
  criterion_values (self w') = criterion_values (self w) ∧
  forced_choice (self w') = forced_choice (self w).

(** ... and the rates. *)
Definition same_rates (w w' : world) : Prop :=
  same_inputs w w' ∧
  tpr (self w') = tpr (self w) ∧ fpr (self w') = fpr (self w) ∧
  n_true (self w') = n_true (self w) ∧ n_false (self w') = n_false (self w).

(** ... and the area. *)
Definition same_auc (w w' : world) : Prop :=
  same_rates w w' ∧ auc (self w') = auc (self w).

(** ... and the threshold. *)
Definition same_thr (w w' : world) : Prop :=
  same_auc w w' ∧ class_thr (self w') = class_thr (self w) ∧
  threshold_type (self w') = threshold_type (self w).

#[local] Instance same_inputs_trans : Transitive same_inputs.
Proof. unfold same_inputs. intros x y z ? ?. intuition congruence. Qed.
#[local] Instance same_rates_trans : Transitive same_rates.
Proof.
  unfold same_rates. intros x y z [? ?] [? ?].
  split; [by etrans|intuition congruence].
Qed.
#[local] Instance same_auc_trans : Transitive same_auc.
Proof.
  unfold same_auc. intros x y z [? ?] [? ?]. split; [by etrans|congruence].
Qed.
#[local] Instance same_thr_trans : Transitive same_thr.
Proof.
  unfold same_thr. intros x y z [? ?] [? ?].
  split; [by etrans|intuition congruence].
Qed.

Lemma wp_frame_bind {A B} (R : world → world → Prop) `{!Transitive R}
    (m : M A) (k : A → M B) (w : world) :
  wp m w (fun w' _ => R w w') →
  (∀ a w1, wp (k a) w1 (fun w' _ => R w1 w')) →
  wp (m ≫= k) w (fun w' _ => R w w').
Proof.
  intros Hm Hk. apply wp_bind. eapply wp_mono; [exact Hm|].
  intros w1 [a|e] H1; simpl; [|done].
  eapply wp_mono; [apply Hk|]. intros w2 r2 H2. simpl in *. by etrans.
Qed.

Lemma wp_lift_any {A} (r : result A) (w : world) (Q : world → result A → Prop) :
  (∀ r', Q w r') → wp (lift r) w Q.
Proof. intros H. apply H. Qed.

Lemma wp_load_name_any (name : string) (w : world)
    (Q : world → result (list Qc) → Prop) :
  (∀ r, Q w r) → wp (load_name name) w Q.
Proof. intros H. unfold load_name. case_bool_decide; apply H. Qed.

(** Steps through a run whatever its outcome, leaving the goals about the
    state reached at each exit. *)
Ltac frame_step :=
  lazymatch goal with
  | |- wp (mbind _ _) _ _ => apply wp_bind
  | |- wp (attr _ _) _ _ => apply wp_attr_any; intros [?|?]; cbn beta iota
  | |- wp (load _) _ _ => apply wp_load_any; intros [?|?]; cbn beta iota
  | |- wp (lift _) _ _ => apply wp_lift_any; intros [?|?]; cbn beta iota
  | |- wp (load_name _) _ _ => apply wp_load_name_any; intros [?|?]; cbn beta iota
  | |- wp (setattr _) _ _ => apply wp_setattr; cbn beta iota
  | |- wp (mret _) _ _ => apply wp_ret; cbn beta iota
  | |- wp (raise _) _ _ => apply wp_raise; cbn beta iota
  | |- wp (if ?b then _ else _) _ _ => destruct b
  | |- wp (match ?o with Some _ => _ | None => _ end) _ _ => destruct o
  end.
Ltac frame_done :=
  unfold same_thr, same_auc, same_rates, same_inputs; cbn; by repeat split.
Ltac frame := repeat frame_step; try frame_done.

Section Frames.
Variables (norm_ppf : Qc → Qc) (binom_test : Z → Z → Qc) (np_sqrt : Qc → Qc).

Lemma calc_rates_body_frame (i : nat) (x : Qc) (w : world) :
  wp (calc_rates_body i x) w
     (fun w' _ => same_inputs w w' ∧ class_thr (self w') = class_thr (self w)).
Proof.
  unfold calc_rates_body, self_input_values, self_binary_outcome. frame.
Qed.

End Frames.

Definition same_inputs_thr (w w' : world) : Prop :=
  same_inputs w w' ∧ class_thr (self w') = class_thr (self w).

#[local] Instance same_inputs_thr_trans : Transitive same_inputs_thr.
Proof.
  unfold same_inputs_thr. intros x y z [? ?] [? ?]. split; [by etrans|congruence].
Qed.

Lemma same_inputs_refl (w : world) : same_inputs w w.
Proof. by repeat split. Qed.

Section MoreFrames.
Variables (norm_ppf : Qc → Qc) (binom_test : Z → Z → Qc) (np_sqrt : Qc → Qc).

Lemma rates_loop_frame (xs : list Qc) (i : nat) (w : world) :
  wp (for_enumerate calc_rates_body i xs) w (fun w' _ => same_inputs_thr w w').
Proof.
  revert i w. induction xs as [|x xs IH]; intros i w; cbn [for_enumerate].
  - apply wp_ret. by repeat split.
  - apply (wp_frame_bind same_inputs_thr); [|intros; apply IH].
    eapply wp_mono; [apply calc_rates_body_frame|]. by intros ? ? [? ?].
Qed.

Lemma calc_rates_frame (w : world) :
  wp calc_rates w (fun w' _ => same_inputs_thr w w').
Proof.
  unfold calc_rates, self_criterion_values, self_binary_outcome.
  repeat (apply (wp_frame_bind same_inputs_thr); [|intros ? ?]);
    try apply rates_loop_frame; unfold same_inputs_thr; frame.
Qed.

Lemma calc_auc_frame (w : world) :
  wp calc_auc w (fun w' _ => same_rates w w' ∧ class_thr (self w') = class_thr (self w)).
Proof. unfold calc_auc. frame. Qed.

Lemma calc_threshold_frame (a : calculate_args) (w : world) :
  wp (calc_threshold norm_ppf a) w (fun w' _ => same_auc w w').
Proof.
  unfold calc_threshold, self_criterion_values. frame.
Qed.

Lemma calc_output_frame (w : world) :
  wp calc_output w (fun w' _ => same_thr w w').
Proof.
  unfold calc_output, self_input_values, self_binary_outcome. frame.
Qed.

Lemma calc_accuracy_frame (a : calculate_args) (w : world) :
  wp (calc_accuracy a) w (fun w' _ => same_thr w w').
Proof. unfold calc_accuracy. frame. Qed.

Lemma calc_pvalue_frame (w : world) :
  wp (calc_pvalue binom_test np_sqrt) w (fun w' _ => same_thr w w').
Proof. unfold calc_pvalue. frame. Qed.

End MoreFrames.

(** * The first steps of [calculate] *)

(** What an optional argument leaves in the attribute it overrides. *)
Definition from_arg {A} (arg stored : option A) : option A :=
  match arg with Some v => Some v | None => stored end.

(** The attributes after lines 437-441. *)
Definition inputs_upd (a : calculate_args) (r : Roc) : Roc :=
  let r1 := match arg_input_values a with Some v => set_input_values v r | None => r end in
  match arg_binary_outcome a with Some v => set_binary_outcome v r1 | None => r1 end.

Lemma wp_calc_inputs (a : calculate_args) (w : world) (Q : world → result unit → Prop) :
  Q (mkWorld (heap w) (inputs_upd a (self w))) (Ok tt) → wp (calc_inputs a) w Q.
Proof.
  unfold calc_inputs, inputs_upd. destruct w as [h r].
  destruct (arg_input_values a), (arg_binary_outcome a); intros HQ;
    repeat first [apply wp_bind | apply wp_setattr | apply wp_ret]; exact HQ.
Qed.

Lemma inputs_upd_input_values (a : calculate_args) (r : Roc) :
  input_values (inputs_upd a r) = from_arg (arg_input_values a) (input_values r).
Proof. unfold inputs_upd. by destruct (arg_input_values a), (arg_binary_outcome a). Qed.

Lemma inputs_upd_binary_outcome (a : calculate_args) (r : Roc) :
  binary_outcome (inputs_upd a r) = from_arg (arg_binary_outcome a) (binary_outcome r).
Proof. unfold inputs_upd. by destruct (arg_input_values a), (arg_binary_outcome a). Qed.

Lemma inputs_upd_forced_choice (a : calculate_args) (r : Roc) :
  forced_choice (inputs_upd a r) = forced_choice r.
Proof. unfold inputs_upd. by destruct (arg_input_values a), (arg_binary_outcome a). Qed.

Lemma inputs_upd_class_thr (a : calculate_args) (r : Roc) :
  class_thr (inputs_upd a r) = class_thr r.
Proof. unfold inputs_upd. by destruct (arg_input_values a), (arg_binary_outcome a). Qed.

(** Where the criterion values of a call come from: the array the caller
    names, or a fresh array of 50 values per observation between the least
    and the greatest input value. *)
Definition criterion_source (a : calculate_args) (h : store) (iv : list Qc)
    (bo : list bool) (c : loc) (cv : list Qc) (h' : store) : Prop :=
  match arg_criterion_values a with
  | Some c0 => c = c0 ∧ h' = h ∧ h !! c = Some cv
  | None => ∃ lo hi, Np.min iv = Ok lo ∧ Np.max iv = Ok hi ∧
                     cv = Np.linspace lo hi (50 * length bo) ∧
                     c = length h ∧ h' = h ++ [cv]
  end.

Lemma min_ok (iv : list Qc) : iv ≠ [] → ∃ lo, Np.min iv = Ok lo.
Proof. destruct iv; [done|]. eauto. Qed.
Lemma max_ok (iv : list Qc) : iv ≠ [] → ∃ hi, Np.max iv = Ok hi.
Proof. destruct iv; [done|]. eauto. Qed.

Lemma wp_calc_criterion (a : calculate_args) (w : world) (l : loc) (iv : list Qc)
    (bo : list bool) (Q : world → result unit → Prop) :
  input_values (self w) = Some l → heap w !! l = Some iv →
  binary_outcome (self w) = Some bo → iv ≠ [] →
  (∀ c0, arg_criterion_values a = Some c0 → is_Some (heap w !! c0)) →
  (∀ c cv h', criterion_source a (heap w) iv bo c cv h' →
              Q (mkWorld h' (set_criterion_values c (self w))) (Ok tt)) →
  wp (calc_criterion a) w Q.
Proof.
  intros Hl Hh Hb Hne Hc HQ. unfold calc_criterion, criterion_source in *.
  destruct (arg_criterion_values a) as [c0|].
  - destruct (Hc c0 eq_refl) as [cv Hcv]. apply wp_setattr. by apply (HQ c0 cv).
  - destruct (min_ok iv Hne) as [lo Hlo], (max_ok iv Hne) as [hi Hhi].
    unfold self_input_values, self_binary_outcome.
    apply wp_bind. wp_attr. eapply wp_load_some; [done|]. cbn beta iota.
    wp_lift_with Hlo.
    apply wp_bind. wp_attr. eapply wp_load_some; [done|]. cbn beta iota.
    wp_lift_with Hhi.
    wp_attr. apply wp_bind. apply wp_alloc. cbn beta iota.
    apply wp_setattr. cbn. eapply HQ. eauto 10.
Qed.

(** The store keeps what it had when the criterion values are made. *)
Lemma criterion_source_lookup (a : calculate_args) (h : store) (iv : list Qc)
    (bo : list bool) (c : loc) (cv : list Qc) (h' : store) :
  criterion_source a h iv bo c cv h' →
  h' !! c = Some cv ∧ ∀ k x, h !! k = Some x → h' !! k = Some x.
Proof.
  unfold criterion_source. destruct (arg_criterion_values a) as [c0|].
  - intros (-> & -> & H). done.
  - intros (lo & hi & _ & _ & _ & -> & ->). split.
    + by apply list_lookup_middle.
    + intros k x Hk. by apply lookup_app_l_Some.
Qed.

(** * The forced-choice transformation *)

(** The array that lines 451-453 leave behind [self.input_values]. *)
Definition forced_choice_scores (iv : list Qc) (bo : list bool) : list Qc :=
  let s := Np.select iv bo in
  let mn_scores := map (fun v => v / 2) (zip_with Qcplus s s) in
  let iv1 := Np.scatter iv bo (zip_with Qcminus s mn_scores) in
  Np.scatter iv1 (Np.invert bo)
    (zip_with Qcminus (Np.select iv1 (Np.invert bo)) mn_scores).

Section Scatter.
Context {A : Type}.

Lemma scatter_length (a : list A) (m : list bool) (vals : list A) :
  length (Np.scatter a m vals) = length a.
Proof.
  revert m vals. induction a as [|x a IH]; intros [|b m] vals; simpl; try done.
  destruct b; [destruct vals|]; simpl; by rewrite IH.
Qed.

Lemma select_scatter (a : list A) (m : list bool) (vals : list A) :
  length a = length m → length vals = total true m →
  Np.select (Np.scatter a m vals) m = vals.
Proof.
  revert m vals. induction a as [|x a IH]; intros [|b m] vals Hl Hv; try done.
  - by destruct vals.
  - rewrite total_cons in Hv. simpl in Hl. destruct b; simpl in Hv.
    + destruct vals as [|v vals]; [done|]. simpl. f_equal. apply IH; simpl in Hv; lia.
    + simpl. apply IH; lia.
Qed.


Lemma select_invert_scatter (a : list A) (m : list bool) (vals : list A) :
  Np.select (Np.scatter a (Np.invert m) vals) m = Np.select a m.
Proof.
  revert m vals. induction a as [|x a IH]; intros [|b m] vals; simpl; try done.
  destruct b; simpl; [by rewrite IH|destruct vals; simpl; by rewrite IH].
Qed.

Lemma bool_index_assign_eq (a : list A) (m : list bool) (vals : list A) :
  length a = length m → length vals = total true m →
  Np.bool_index_assign a m vals = Ok (Np.scatter a m vals).
Proof.
  intros Hl Hv. unfold Np.bool_index_assign.
  rewrite Hl, Nat.eqb_refl. simpl.
  by rewrite select_length, Hv, Nat.eqb_refl by done.
Qed.

End Scatter.

Lemma invert_invert (m : list bool) : Np.invert (Np.invert m) = m.
Proof.
  unfold Np.invert. induction m as [|b m IH]; [done|].
  simpl. by rewrite negb_involutive, IH.
Qed.

Section ForcedChoice.
Variables (l : loc) (iv : list Qc) (bo : list bool).
Hypothesis Hlen : length iv = length bo.
Hypothesis Hpairs : total true bo = total false bo.

Lemma wp_calc_forced_choice_on (a : calculate_args) (w : world) (fc : bool)
    (Q : world → result unit → Prop) :
  forced_choice (self w) = Some fc → arg_forced_choice a || fc = true →
  input_values (self w) = Some l → heap w !! l = Some iv →
  binary_outcome (self w) = Some bo →
  Q (mkWorld (<[l := forced_choice_scores iv bo]> (heap w))
       (set_class_thr 0 (set_forced_choice true (self w)))) (Ok tt) →
  wp (calc_forced_choice a) w Q.
Proof.
  intros Hfc Hon Hl Hh Hb HQ.
  assert (Hlt : (l < length (heap w))%nat) by (by eapply lookup_lt_Some).
  assert (Hs : length (Np.select iv bo) = total true bo) by (by apply select_length).
  unfold calc_forced_choice, self_binary_outcome.
  wp_attr. rewrite Hon. wp_set. wp_attr.
  wp_load. wp_attr. wp_lift_with (bool_index_eq iv bo Hlen).
  wp_load. wp_attr. wp_lift_with (bool_index_eq iv bo Hlen).
  wp_lift_with (broadcast2_eq Qcplus (Np.select iv bo) (Np.select iv bo) eq_refl).
  wp_load. wp_attr. wp_lift_with (bool_index_eq iv bo Hlen).
  set (mn := map (fun v => v / 2) (zip_with Qcplus (Np.select iv bo) (Np.select iv bo))).
  assert (Hmn : length mn = total true bo).
  { unfold mn. by rewrite length_map, length_zip_with, Hs, Nat.min_id. }
  wp_lift_with (broadcast2_eq Qcminus (Np.select iv bo) mn); [congruence|].
  wp_load. wp_attr.
  set (d := zip_with Qcminus (Np.select iv bo) mn).
  assert (Hd : length d = total true bo).
  { unfold d. rewrite length_zip_with, Hs, Hmn. lia. }
  wp_lift_with (bool_index_assign_eq iv bo d Hlen Hd).
  apply wp_bind, wp_store_at. cbn beta iota.
  set (iv1 := Np.scatter iv bo d).
  assert (Hiv1 : length iv1 = length (Np.invert bo)).
  { unfold iv1. by rewrite scatter_length, invert_length. }
  assert (Hs1 : length (Np.select iv1 (Np.invert bo)) = total false bo).
  { rewrite select_length by done. by rewrite total_invert. }
  apply wp_bind. eapply wp_load_some; [cbn; by apply list_lookup_insert_eq|]. cbn beta iota.
  wp_attr. wp_lift_with (bool_index_eq iv1 (Np.invert bo) Hiv1).
  wp_lift_with (broadcast2_eq Qcminus (Np.select iv1 (Np.invert bo)) mn); [congruence|].
  apply wp_bind. eapply wp_load_some; [cbn; by apply list_lookup_insert_eq|]. cbn beta iota.
  wp_attr.
  wp_lift_with (bool_index_assign_eq iv1 (Np.invert bo)
                  (zip_with Qcminus (Np.select iv1 (Np.invert bo)) mn) Hiv1).
  { rewrite length_zip_with, Hs1, Hmn, total_invert. simpl. lia. }
  apply wp_bind, wp_store_at. cbn beta iota.
  apply wp_setattr. cbn [heap self]. rewrite list_insert_insert_eq. exact HQ.
Qed.

Lemma forced_choice_scores_length : length (forced_choice_scores iv bo) = length iv.
Proof. unfold forced_choice_scores. by rewrite !scatter_length. Qed.

End ForcedChoice.

(** With a single true outcome, of score [t], the mean score [(t + t) / 2]
    is an array of one entry, which numpy broadcasts against the scores with
    a false outcome: lines 451-453 then lower every score by [t]. *)
Definition forced_choice_single (iv : list Qc) (bo : list bool) : list Qc :=
  match Np.select iv bo with
  | [t] => map (fun v => v - t) iv
  | _ => iv
  end.


Lemma broadcast2_single {A B C} (f : A → B → C) (xs : list A) (y : B) :
  Np.broadcast2 f xs [y] = Ok (map (fun x => f x y) xs).
Proof.
  unfold Np.broadcast2. destruct (Nat.eqb_spec (length xs) (length [y])) as [Hl|Hl].
  - destruct xs as [|x [|x' xs]]; done.
  - destruct xs as [|x [|x' xs]]; done.
Qed.

Section ForcedChoiceSingle.
Variable g : Qc → Qc.

Lemma scatter_no_true (iv : list Qc) (bo : list bool) (vals : list Qc) :
  length iv = length bo → Np.select iv bo = [] →
  Np.scatter (Np.scatter iv bo vals) (Np.invert bo)
    (map g (Np.select (Np.scatter iv bo vals) (Np.invert bo)))
  = map g iv.
Proof.
  revert bo. induction iv as [|x iv IH]; intros [|b bo] Hl Hs; try done.
  destruct b; [done|]. simpl in *. f_equal. apply IH; [lia|done].
Qed.

Lemma scatter_one_true (iv : list Qc) (bo : list bool) (t : Qc) :
  length iv = length bo → Np.select iv bo = [t] →
  Np.scatter (Np.scatter iv bo [g t]) (Np.invert bo)
    (map g (Np.select (Np.scatter iv bo [g t]) (Np.invert bo)))
  = map g iv.
Proof.
  revert bo. induction iv as [|x iv IH]; intros [|b bo] Hl Hs; try done.
  destruct b; simpl in *.
  - injection Hs as -> Hs. f_equal. apply scatter_no_true; [lia|done].
  - f_equal. apply IH; [lia|done].
Qed.

End ForcedChoiceSingle.

Section ForcedChoiceOne.
Variables (l : loc) (iv : list Qc) (bo : list bool).
Hypothesis Hlen : length iv = length bo.
Hypothesis Hone : total true bo = 1%nat.

Lemma wp_calc_forced_choice_single (a : calculate_args) (w : world) (fc : bool)
    (Q : world → result unit → Prop) :
  forced_choice (self w) = Some fc → arg_forced_choice a || fc = true →
  input_values (self w) = Some l → heap w !! l = Some iv →
  binary_outcome (self w) = Some bo →
  Q (mkWorld (<[l := forced_choice_single iv bo]> (heap w))
       (set_class_thr 0 (set_forced_choice true (self w)))) (Ok tt) →
  wp (calc_forced_choice a) w Q.
Proof.
  intros Hfc Hon Hl Hh Hb HQ.
  assert (Hlt : (l < length (heap w))%nat) by (by eapply lookup_lt_Some).
  assert (Hs : length (Np.select iv bo) = 1%nat) by (by rewrite select_length).
  destruct (Np.select iv bo) as [|t [|t' s']] eqn:Es; try done. clear Hs.
  unfold forced_choice_single in HQ. rewrite Es in HQ.
  unfold calc_forced_choice, self_binary_outcome.
  wp_attr. rewrite Hon. wp_set. wp_attr.
  wp_load. wp_attr. wp_lift_with (bool_index_eq iv bo Hlen). rewrite Es.
  wp_load. wp_attr. wp_lift_with (bool_index_eq iv bo Hlen). rewrite Es.
  wp_lift_with (broadcast2_eq Qcplus [t] [t] eq_refl).
  wp_load. wp_attr. wp_lift_with (bool_index_eq iv bo Hlen). rewrite Es.
  cbn [zip_with map].
  wp_lift_with (broadcast2_eq Qcminus [t] [(t + t) / 2] eq_refl). cbn [zip_with].
  wp_load. wp_attr.
  set (m := (t + t) / 2).
  assert (Hd : length [t - m] = total true bo) by (by rewrite Hone).
  wp_lift_with (bool_index_assign_eq iv bo [t - m] Hlen Hd).
  apply wp_bind, wp_store_at. cbn beta iota.
  set (iv1 := Np.scatter iv bo [t - m]).
  assert (Hiv1 : length iv1 = length (Np.invert bo)).
  { unfold iv1. by rewrite scatter_length, invert_length. }
  apply wp_bind. eapply wp_load_some; [cbn; by apply list_lookup_insert_eq|]. cbn beta iota.
  wp_attr. wp_lift_with (bool_index_eq iv1 (Np.invert bo) Hiv1).
  wp_lift_with (broadcast2_single Qcminus (Np.select iv1 (Np.invert bo)) m).
  apply wp_bind. eapply wp_load_some; [cbn; by apply list_lookup_insert_eq|]. cbn beta iota.
  wp_attr.
  wp_lift_with (bool_index_assign_eq iv1 (Np.invert bo)
                  (map (fun x => x - m) (Np.select iv1 (Np.invert bo))) Hiv1).
  { rewrite length_map. by apply select_length. }
  apply wp_bind, wp_store_at. cbn beta iota.
  apply wp_setattr. cbn [heap self]. rewrite list_insert_insert_eq.
  unfold iv1. rewrite (scatter_one_true (fun x => x - m) iv bo t Hlen Es).
  assert (Hm : m = t) by (unfold m; field; done).
  rewrite Hm. exact HQ.
Qed.

Lemma forced_choice_single_length : length (forced_choice_single iv bo) = length iv.
Proof.
  unfold forced_choice_single. destruct (Np.select iv bo) as [|t [|t' s']]; try done.
  by rewrite length_map.
Qed.

End ForcedChoiceOne.

Lemma wp_calc_forced_choice_off (a : calculate_args) (w : world)
    (Q : world → result unit → Prop) :
  forced_choice (self w) = Some false → arg_forced_choice a = false →
  Q w (Ok tt) → wp (calc_forced_choice a) w Q.
Proof.
  intros Hfc Ha HQ. unfold calc_forced_choice. wp_attr. rewrite Ha. simpl.
  by apply wp_ret.
Qed.

(** * From the call to the rates *)

(** A call on well-formed data: [l] is the array of input values in effect
    (the argument, or else the attribute), [bo] the outcomes in effect, of
    the same length, with outcomes of both kinds; a criterion array named
    by the caller exists. *)
Record call_ok (a : calculate_args) (w : world) (l : loc) (iv : list Qc)
    (bo : list bool) (fc : bool) : Prop := {
  ok_input_values : from_arg (arg_input_values a) (input_values (self w)) = Some l;
  ok_binary_outcome : from_arg (arg_binary_outcome a) (binary_outcome (self w)) = Some bo;
  ok_heap : heap w !! l = Some iv;
  ok_length : length iv = length bo;
  ok_true : total true bo ≠ 0%nat;
  ok_false : total false bo ≠ 0%nat;
  ok_forced_choice : forced_choice (self w) = Some fc;
  ok_criterion : ∀ c0, arg_criterion_values a = Some c0 → is_Some (heap w !! c0)
}.

(** Whether the call runs the forced-choice transformation. *)
Definition forced (a : calculate_args) (fc : bool) : bool := arg_forced_choice a || fc.

(** The state once the rates are computed: [iv'] is the array behind
    [self.input_values] by then, [c] and [cv] the criterion array. *)
Record rates_done (a : calculate_args) (w : world) (l : loc) (iv : list Qc)
    (bo : list bool) (fc : bool) (w4 : world) (c : loc) (cv iv' : list Qc) : Prop := {
  rd_scores : iv' = if forced a fc then forced_choice_scores iv bo else iv;
  rd_heap : ∃ h2 cv0, criterion_source a (heap w) iv bo c cv0 h2 ∧
                      heap w4 = if forced a fc then <[l := iv']> h2 else h2;
  rd_input : heap w4 !! l = Some iv';
  rd_criterion : heap w4 !! c = Some cv;
  rd_input_values : input_values (self w4) = Some l;
  rd_binary_outcome : binary_outcome (self w4) = Some bo;
  rd_criterion_values : criterion_values (self w4) = Some c;
  rd_forced_choice : forced_choice (self w4) = Some (forced a fc);
  rd_class_thr : class_thr (self w4) = if forced a fc then Some 0 else class_thr (self w);
  rd_tpr : tpr (self w4) = Some (map (rate true iv' bo) cv);
  rd_fpr : fpr (self w4) = Some (map (rate false iv' bo) cv);
  rd_n_true : n_true (self w4) = Some (Qc_of_Z (Z.of_nat (total true bo)));
  rd_n_false : n_false (self w4) = Some (Qc_of_Z (Z.of_nat (total false bo)))
}.

Ltac attr_solve :=
  cbn; rewrite ?inputs_upd_input_values, ?inputs_upd_binary_outcome,
    ?inputs_upd_forced_choice, ?inputs_upd_class_thr;
  first [eassumption | reflexivity | done].

Section Prefix.
Variables (a : calculate_args) (w : world) (l : loc) (iv : list Qc) (bo : list bool)
          (fc : bool).
Hypothesis Hok : call_ok a w l iv bo fc.
Hypothesis Hpairs : forced a fc = true → total true bo = total false bo.

Lemma call_ok_nonempty : iv ≠ [].
Proof.
  destruct Hok. intros ->. destruct bo; [|done]. by apply ok_true0.
Qed.

Lemma wp_prefix {B} (k : M B) (Q : world → result B → Prop) :
  (∀ w4 c cv iv', rates_done a w l iv bo fc w4 c cv iv' → wp k w4 Q) →
  wp (calc_inputs a;; calc_criterion a;; calc_forced_choice a;; calc_rates;; k) w Q.
Proof.
  intros Hk. destruct Hok.
  apply wp_bind, wp_calc_inputs. cbn beta iota.
  apply wp_bind.
  eapply (wp_calc_criterion a _ l iv bo);
    [attr_solve|attr_solve|attr_solve|apply call_ok_nonempty|exact ok_criterion0|].
  intros c cv0 h2 Hsrc. cbn beta iota.
  destruct (criterion_source_lookup _ _ _ _ _ _ _ Hsrc) as [Hc Hkeep].
  pose proof (Hkeep _ _ ok_heap0) as Hl2.
  assert (Hlt : (l < length h2)%nat) by (by eapply lookup_lt_Some).
  apply wp_bind.
  destruct (forced a fc) eqn:Hon.
  - eapply (wp_calc_forced_choice_on l iv bo ok_length0 (Hpairs eq_refl) a _ fc);
      [attr_solve|exact Hon|attr_solve|attr_solve|attr_solve|].
    cbn beta iota. apply wp_bind.
    set (iv' := forced_choice_scores iv bo).
    assert (Hiv' : length iv' = length bo)
      by (unfold iv'; by rewrite forced_choice_scores_length).
    assert (Hc' : ∃ cv, <[l := iv']> h2 !! c = Some cv).
    { destruct (decide (l = c)) as [->|Hne].
      - exists iv'. by apply list_lookup_insert_eq.
      - exists cv0. by rewrite list_lookup_insert_ne. }
    destruct Hc' as [cv Hcv].
    eapply (wp_calc_rates l iv' bo Hiv' ok_true0 ok_false0 _ c cv);
      [attr_solve|by apply list_lookup_insert_eq|attr_solve|attr_solve|exact Hcv|].
    cbn beta iota. apply (Hk _ c cv iv').
    split; rewrite ?Hon; try attr_solve.
    + exists h2, cv0. by rewrite ?Hon.
    + by apply list_lookup_insert_eq.
  - pose proof Hon as Hon'. unfold forced in Hon'.
    apply orb_false_iff in Hon' as [Ha Hfc]. subst fc.
    eapply wp_calc_forced_choice_off; [attr_solve|exact Ha|].
    cbn beta iota. apply wp_bind.
    eapply (wp_calc_rates l iv bo ok_length0 ok_true0 ok_false0 _ c cv0);
      [attr_solve|attr_solve|attr_solve|attr_solve|attr_solve|].
    cbn beta iota. apply (Hk _ c cv0 iv).
    split; rewrite ?Hon; try attr_solve.
    exists h2, cv0. by rewrite ?Hon.
Qed.

End Prefix.


(** * What follows the rates *)

Lemma same_thr_auc (w w' : world) : same_thr w w' → same_auc w w'.
Proof. by intros [? ?]. Qed.
Lemma same_auc_rates (w w' : world) : same_auc w w' → same_rates w w'.
Proof. by intros [? ?]. Qed.

Section Tails.
Variables (norm_ppf : Qc → Qc) (binom_test : Z → Z → Qc) (np_sqrt : Qc → Qc).

(** The steps after the threshold. *)
Definition after_threshold (a : calculate_args) : M unit :=
  calc_output;; calc_accuracy a;; calc_pvalue binom_test np_sqrt.

(** The steps after the area. *)
Definition after_auc (a : calculate_args) : M unit :=
  calc_threshold norm_ppf a;; after_threshold a.

(** The steps after the rates. *)
Definition after_rates (a : calculate_args) : M unit :=
  calc_auc;; after_auc a.

Lemma calculate_unfold (a : calculate_args) :
  calculate norm_ppf binom_test np_sqrt a
  = (calc_inputs a;; calc_criterion a;; calc_forced_choice a;; calc_rates;; after_rates a).
Proof. reflexivity. Qed.

Lemma after_threshold_frame (a : calculate_args) (w : world) :
  wp (after_threshold a) w (fun w' _ => same_thr w w').
Proof.
  unfold after_threshold.
  apply (wp_frame_bind same_thr); [apply calc_output_frame|intros _ w1].
  apply (wp_frame_bind same_thr); [apply calc_accuracy_frame|intros _ w2].
  apply calc_pvalue_frame.
Qed.

Lemma after_auc_frame (a : calculate_args) (w : world) :
  wp (after_auc a) w (fun w' _ => same_auc w w').
Proof.
  unfold after_auc.
  apply (wp_frame_bind same_auc); [apply calc_threshold_frame|intros _ w1].
  eapply wp_mono; [apply after_threshold_frame|]. intros ? ?. apply same_thr_auc.
Qed.

Lemma after_rates_frame (a : calculate_args) (w : world) :
  wp (after_rates a) w (fun w' _ => same_rates w w').
Proof.
  unfold after_rates.
  apply (wp_frame_bind same_rates).
  - eapply wp_mono; [apply calc_auc_frame|]. by intros ? ? [? ?].
  - intros _ w1. eapply wp_mono; [apply after_auc_frame|].
    intros ? ?. apply same_auc_rates.
Qed.

End Tails.

(** * The rates that [calculate] leaves in [self] *)

Section RatesTheorem.
Variables (norm_ppf : Qc → Qc) (binom_test : Z → Z → Qc) (np_sqrt : Qc → Qc).


End RatesTheorem.

(** * The area under the curve *)

(** The area under the polygonal curve through the points [pts], by the
    trapezoidal rule: every two consecutive points contribute the width
    between their abscissas times the mean of their ordinates. *)
Fixpoint trapezoid_area (pts : list (Qc * Qc)) : Qc :=
  match pts with
  | p0 :: ((p1 :: _) as rest) =>
      Np.qabs (p1.1 - p0.1) * ((p0.2 + p1.2) / 2) + trapezoid_area rest
  | _ => 0
  end.

Fixpoint nondecreasing (xs : list Qc) : Prop :=
  match xs with
  | x0 :: ((x1 :: _) as xs') => x0 ≤ x1 ∧ nondecreasing xs'
  | _ => True
  end.

Fixpoint nonincreasing (xs : list Qc) : Prop :=
  match xs with
  | x0 :: ((x1 :: _) as xs') => x1 ≤ x0 ∧ nonincreasing xs'
  | _ => True
  end.

Section Order.

Lemma qmin_le_l (x y : Qc) : Np.qmin x y ≤ x.
Proof.
  unfold Np.qmin. case_decide; [by apply Qclt_le_weak|apply Qcle_refl].
Qed.

Lemma qmax_ge_l (x y : Qc) : x ≤ Np.qmax x y.
Proof.
  unfold Np.qmax. case_decide; [by apply Qclt_le_weak|apply Qcle_refl].
Qed.

Lemma qmax_ge_r (x y : Qc) : y ≤ Np.qmax x y.
Proof.
  unfold Np.qmax. case_decide; [apply Qcle_refl|by apply Qcnot_lt_le].
Qed.

Lemma fold_qmin_le (a : list Qc) (x : Qc) : fold_left Np.qmin a x ≤ x.
Proof.
  revert x. induction a as [|y a IH]; intros x; simpl; [apply Qcle_refl|].
  eapply Qcle_trans; [apply IH|apply qmin_le_l].
Qed.

Lemma fold_qmax_ge (a : list Qc) (x : Qc) : x ≤ fold_left Np.qmax a x.
Proof.
  revert x. induction a as [|y a IH]; intros x; simpl; [apply Qcle_refl|].
  eapply Qcle_trans; [apply qmax_ge_l|apply IH].
Qed.

Lemma fold_qmax_upper (a : list Qc) (x v : Qc) :
  v ∈ x :: a → v ≤ fold_left Np.qmax a x.
Proof.
  revert x. induction a as [|y a IH]; intros x Hv; simpl.
  - apply list_elem_of_singleton in Hv as ->. apply Qcle_refl.
  - apply elem_of_cons in Hv as [->|Hv].
    + eapply Qcle_trans; [apply qmax_ge_l|apply fold_qmax_ge].
    + apply elem_of_cons in Hv as [->|Hv].
      * eapply Qcle_trans; [apply qmax_ge_r|apply fold_qmax_ge].
      * apply IH. by right.
Qed.

Lemma fold_qmax_in (a : list Qc) (x : Qc) : fold_left Np.qmax a x ∈ x :: a.
Proof.
  revert x. induction a as [|y a IH]; intros x; simpl; [by left|].
  specialize (IH (Np.qmax x y)).
  apply elem_of_cons in IH as [->|IH].
  - unfold Np.qmax. case_decide; [right; by left|by left].
  - right. by right.
Qed.

Lemma min_le_max (iv : list Qc) (lo hi : Qc) :
  Np.min iv = Ok lo → Np.max iv = Ok hi → lo ≤ hi.
Proof.
  destruct iv as [|x a]; [done|]. simpl. intros [= <-] [= <-].
  eapply Qcle_trans; [apply fold_qmin_le|apply fold_qmax_ge].
Qed.

Lemma max_upper (iv : list Qc) (hi v : Qc) : Np.max iv = Ok hi → v ∈ iv → v ≤ hi.
Proof.
  destruct iv as [|x a]; [done|]. simpl. intros [= <-]. apply fold_qmax_upper.
Qed.

Lemma max_in (iv : list Qc) (hi : Qc) : Np.max iv = Ok hi → hi ∈ iv.
Proof.
  destruct iv as [|x a]; [done|]. simpl. intros [= <-]. apply fold_qmax_in.
Qed.

Lemma Qc_of_nat_pos (k : nat) : 0 < Qc_of_Z (Z.of_nat (S k)).
Proof. rewrite <- Z2Qc_inj_0. apply (proj1 (Z2Qc_inj_lt _ _)). lia. Qed.

Lemma Qc_of_nat_nonneg (k : nat) : 0 ≤ Qc_of_Z (Z.of_nat k).
Proof. rewrite <- Z2Qc_inj_0. apply (proj1 (Z2Qc_inj_le _ _)). lia. Qed.

Lemma Qc_of_nat_S (k : nat) : Qc_of_Z (Z.of_nat (S k)) = Qc_of_Z (Z.of_nat k) + 1.
Proof. by rewrite Nat2Z.inj_succ, <- Z.add_1_r, Z2Qc_inj_add, Z2Qc_inj_1. Qed.

Lemma Qcinv_nonneg (x : Qc) : 0 ≤ x → 0 ≤ / x.
Proof.
  intros Hx. destruct (decide (x = 0)) as [->|Hne]; [done|].
  apply Qclt_le_weak, Qcinv_pos. apply Qcle_lt_or_eq in Hx as [?|?]; [done|].
  by destruct Hne.
Qed.

Lemma Qcdiv_le_mono (x y d : Qc) : 0 ≤ d → x ≤ y → x / d ≤ y / d.
Proof.
  intros Hd Hxy. unfold Qcdiv. apply Qcmult_le_mono_nonneg_r; [|done].
  by apply Qcinv_nonneg.
Qed.

Lemma nondecreasing_map_seq (f : nat → Qc) (s n : nat) :
  (∀ i, f i ≤ f (S i)) → nondecreasing (map f (seq s n)).
Proof.
  intros Hf. revert s. induction n as [|n IH]; intros s; [done|].
  destruct n as [|n]; [done|]. specialize (IH (S s)).
  change (f s ≤ f (S s) ∧ nondecreasing (map f (seq (S s) (S n)))). auto.
Qed.

Lemma linspace_nondecreasing (lo hi : Qc) (n : nat) :
  lo ≤ hi → nondecreasing (Np.linspace lo hi n).
Proof.
  intros Hle. unfold Np.linspace. destruct n as [|[|k]]; [done..|].
  apply nondecreasing_map_seq. intros i.
  set (step := (hi - lo) / Qc_of_Z (Z.of_nat (S k))).
  assert (Hstep : 0 ≤ step).
  { unfold step, Qcdiv. apply Qcmult_nonneg_nonneg.
    - apply (Qcplus_le_mono_r _ _ lo). by ring_simplify.
    - apply Qcinv_nonneg, Qc_of_nat_nonneg. }
  rewrite Qc_of_nat_S.
  replace (lo + (Qc_of_Z (Z.of_nat i) + 1) * step)
    with ((lo + Qc_of_Z (Z.of_nat i) * step) + step) by ring.
  rewrite <- (Qcplus_0_r (lo + Qc_of_Z (Z.of_nat i) * step)) at 1.
  by apply Qcplus_le_mono_l.
Qed.

Lemma linspace_length (lo hi : Qc) (n : nat) : length (Np.linspace lo hi n) = n.
Proof.
  unfold Np.linspace. destruct n as [|[|k]]; [done..|].
  by rewrite length_map, length_seq.
Qed.

End Order.

Section Monotone.
Variables (iv : list Qc) (bo : list bool).

(** Raising the criterion can only lose hits. *)
Lemma hits_antitone (flag : bool) (x y : Qc) :
  x ≤ y → (hits flag iv bo y ≤ hits flag iv bo x)%nat.
Proof.
  intros Hxy. revert bo. induction iv as [|v iv' IH]; intros [|b bo'].
  - done.
  - done.
  - by rewrite !hits_nil_r.
  - rewrite !hits_cons. specialize (IH bo').
    repeat case_bool_decide; try lia.
    destruct H as [-> Hy]. destruct H0. split; [done|]. by eapply Qcle_trans.
Qed.

Lemma rate_antitone (flag : bool) (x y : Qc) :
  x ≤ y → rate flag iv bo y ≤ rate flag iv bo x.
Proof.
  intros Hxy. unfold rate. apply Qcdiv_le_mono; [apply Qc_of_nat_nonneg|].
  apply (proj1 (Z2Qc_inj_le _ _)). apply inj_le. by apply hits_antitone.
Qed.

Lemma rate_nonincreasing (flag : bool) (cv : list Qc) :
  nondecreasing cv → nonincreasing (map (rate flag iv bo) cv).
Proof.
  induction cv as [|x0 cv IH]; [done|]. destruct cv as [|x1 cv]; [done|].
  intros [H01 Hrest]. split; [by apply rate_antitone|]. by apply IH.
Qed.

End Monotone.

Section Auc.

Lemma qabs_nonpos (d : Qc) : d ≤ 0 → Np.qabs d = - d.
Proof.
  intros Hd. unfold Np.qabs. case_decide; [done|].
  assert (d = 0) as -> by (apply Qcle_antisym; [done|by apply Qcnot_lt_le]).
  done.
Qed.

Lemma diff_cons2 (x0 x1 : Qc) (xs : list Qc) :
  Np.diff (x0 :: x1 :: xs) = (x1 - x0) :: Np.diff (x1 :: xs).
Proof. done. Qed.

Lemma trapz_cons2 (y0 y1 x0 x1 : Qc) (ys xs : list Qc) :
  Np.trapz (y0 :: y1 :: ys) (x0 :: x1 :: xs)
  = (x1 - x0) * ((y1 + y0) / 2) + Np.trapz (y1 :: ys) (x1 :: xs).
Proof. done. Qed.

Lemma trapezoid_area_cons2 (p0 p1 : Qc * Qc) (pts : list (Qc * Qc)) :
  trapezoid_area (p0 :: p1 :: pts)
  = Np.qabs (p1.1 - p0.1) * ((p0.2 + p1.2) / 2) + trapezoid_area (p1 :: pts).
Proof. done. Qed.

Lemma nonincreasing_diff (xs : list Qc) :
  nonincreasing xs → forallb (fun d => bool_decide (d ≤ 0)) (Np.diff xs) = true.
Proof.
  induction xs as [|x0 xs IH]; [done|]. destruct xs as [|x1 xs]; [done|].
  intros [H01 Hrest]. rewrite diff_cons2. cbn [forallb]. rewrite IH by done.
  rewrite bool_decide_eq_true_2; [done|].
  apply (Qcplus_le_mono_r _ _ x0). by ring_simplify.
Qed.

(** Along a non-increasing abscissa the area is the opposite of numpy's
    signed integral. *)
Lemma trapezoid_area_nonincreasing (xs ys : list Qc) :
  nonincreasing xs → trapezoid_area (zip xs ys) = - Np.trapz ys xs.
Proof.
  revert ys. induction xs as [|x0 xs IH]; intros ys Hxs.
  - destruct ys as [|y0 [|y1 ys]]; simpl; ring.
  - destruct ys as [|y0 ys]; [simpl; ring|].
    destruct xs as [|x1 xs]; [destruct ys; simpl; ring|].
    destruct ys as [|y1 ys]; [simpl; ring|].
    destruct Hxs as [H01 Hrest].
    change (zip (x0 :: x1 :: xs) (y0 :: y1 :: ys))
      with ((x0, y0) :: (x1, y1) :: zip xs ys).
    rewrite trapezoid_area_cons2, trapz_cons2. cbn [fst snd].
    change ((x1, y1) :: zip xs ys) with (zip (x1 :: xs) (y1 :: ys)).
    rewrite (IH (y1 :: ys) Hrest).
    rewrite qabs_nonpos by (apply (Qcplus_le_mono_r _ _ x0); by ring_simplify).
    field. done.
Qed.

(** With no strictly negative step there is no area at all. *)
Lemma trapz_flat (xs ys : list Qc) :
  nonincreasing xs →
  existsb (fun d => bool_decide (d < 0)) (Np.diff xs) = false →
  Np.trapz ys xs = 0.
Proof.
  revert ys. induction xs as [|x0 xs IH]; intros ys Hxs Hex.
  - by destruct ys as [|y0 [|y1 ys]].
  - destruct ys as [|y0 ys]; [done|].
    destruct xs as [|x1 xs]; [by destruct ys|].
    destruct ys as [|y1 ys]; [done|].
    destruct Hxs as [H01 Hrest]. rewrite diff_cons2 in Hex. cbn [existsb] in Hex.
    apply orb_false_iff in Hex as [H0 Hex].
    apply bool_decide_eq_false_1 in H0.
    rewrite trapz_cons2, (IH (y1 :: ys) Hrest Hex).
    assert (x1 - x0 = 0) as ->; [|ring].
    apply Qcle_antisym; [|by apply Qcnot_lt_le].
    apply (Qcplus_le_mono_r _ _ x0). by ring_simplify.
Qed.

(** scikit-learn's [auc] on a non-increasing abscissa: defined as soon as
    there are two points, and equal to the trapezoidal area. *)
Lemma auc_nonincreasing (xs ys : list Qc) :
  length xs = length ys → (2 ≤ length xs)%nat → nonincreasing xs →
  Sklearn.auc xs ys = Ok (trapezoid_area (zip xs ys)).
Proof.
  intros Hl H2 Hxs. unfold Sklearn.auc.
  rewrite Hl, Nat.eqb_refl. cbn [negb].
  destruct (Nat.ltb_spec (length ys) 2) as [?|_]; [lia|].
  rewrite (trapezoid_area_nonincreasing xs ys Hxs).
  destruct (existsb _ _) eqn:Hex.
  - rewrite nonincreasing_diff by done. f_equal; ring.
  - rewrite (trapz_flat xs ys Hxs Hex). f_equal; ring.
Qed.

End Auc.

Lemma wp_calc_auc_ok (w : world) (f t : list Qc) (area : Qc)
    (Q : world → result unit → Prop) :
  fpr (self w) = Some f → tpr (self w) = Some t → Sklearn.auc f t = Ok area →
  Q (mkWorld (heap w) (set_auc area (self w))) (Ok tt) →
  wp calc_auc w Q.
Proof.
  intros Hf Ht Ha HQ. unfold calc_auc.
  wp_attr. wp_attr. wp_lift_with Ha. by apply wp_setattr.
Qed.

(** The default criterion values of a call: a fresh array, ascending, with
    50 values per observation, from the least to the greatest input. *)
Lemma default_criterion (a : calculate_args) (w : world) (l : loc) (iv : list Qc)
    (bo : list bool) (fc : bool) (w4 : world) (c : loc) (cv iv' : list Qc) :
  call_ok a w l iv bo fc → rates_done a w l iv bo fc w4 c cv iv' →
  arg_criterion_values a = None →
  ∃ lo hi, Np.min iv = Ok lo ∧ Np.max iv = Ok hi ∧
           cv = Np.linspace lo hi (50 * length bo) ∧ c = length (heap w).
Proof.
  intros Hok Hrd Hnone. destruct Hok, Hrd.
  destruct rd_heap0 as (h2 & cv0 & Hsrc & Hh).
  unfold criterion_source in Hsrc. rewrite Hnone in Hsrc.
  destruct Hsrc as (lo & hi & Hlo & Hhi & -> & -> & ->).
  exists lo, hi. repeat split; try done.
  assert (Hlt : (l < length (heap w))%nat) by (by eapply lookup_lt_Some).
  rewrite Hh in rd_criterion0.
  destruct (forced a fc).
  - rewrite list_lookup_insert_ne in rd_criterion0 by lia.
    rewrite list_lookup_middle in rd_criterion0 by done. congruence.
  - rewrite list_lookup_middle in rd_criterion0 by done. congruence.
Qed.

Lemma default_criterion_auc (iv' : list Qc) (bo : list bool) (lo hi : Qc) :
  lo ≤ hi → bo ≠ [] →
  let cv := Np.linspace lo hi (50 * length bo) in
  Sklearn.auc (map (rate false iv' bo) cv) (map (rate true iv' bo) cv)
  = Ok (trapezoid_area (zip (map (rate false iv' bo) cv) (map (rate true iv' bo) cv))).
Proof.
  intros Hle Hbo cv. apply auc_nonincreasing.
  - by rewrite !length_map.
  - rewrite length_map. unfold cv. rewrite linspace_length.
    destruct bo; [done|]. simpl. lia.
  - apply rate_nonincreasing. by apply linspace_nondecreasing.
Qed.

Lemma call_ok_bo_nonempty (a : calculate_args) (w : world) (l : loc) (iv : list Qc)
    (bo : list bool) (fc : bool) : call_ok a w l iv bo fc → bo ≠ [].
Proof. intros [] ->. by apply ok_true0. Qed.

Section AucTheorem.
Variables (norm_ppf : Qc → Qc) (binom_test : Z → Z → Qc) (np_sqrt : Qc → Qc).


End AucTheorem.

(** * The threshold *)

Section Argmax.

Lemma argmax_from_spec (rest : list Qc) :
  ∀ (pre : list Qc) (best : Qc) (ibest i : nat),
    i = length pre →
    pre !! ibest = Some best → (∀ j y, pre !! j = Some y → y ≤ best) →
    ∃ m, (pre ++ rest) !! Np.argmax_from best ibest i rest = Some m ∧
         ∀ j y, (pre ++ rest) !! j = Some y → y ≤ m.
Proof.
  induction rest as [|x rest IH]; intros pre best ibest i Hi Hb Hmax.
  - exists best. rewrite app_nil_r. done.
  - cbn [Np.argmax_from].
    replace (pre ++ x :: rest) with ((pre ++ [x]) ++ rest) by (by rewrite <- app_assoc).
    assert (HSi : S i = length (pre ++ [x])) by (rewrite length_app; simpl; lia).
    case_decide as Hlt.
    + apply IH; [done| |].
      * subst i. by apply list_lookup_middle.
      * intros j y Hj. apply lookup_app_Some in Hj as [Hj|[_ Hj]].
        -- eapply Qcle_trans; [by eapply Hmax|by apply Qclt_le_weak].
        -- destruct (j - length pre)%nat; [|done]. simpl in Hj.
           injection Hj as <-. apply Qcle_refl.
    + apply IH; [done| |].
      * by apply lookup_app_l_Some.
      * intros j y Hj. apply lookup_app_Some in Hj as [Hj|[_ Hj]].
        -- by eapply Hmax.
        -- destruct (j - length pre)%nat; [|done]. simpl in Hj.
           injection Hj as <-. by apply Qcnot_lt_le.
Qed.

(** [np.argmax] returns the index of a greatest entry. *)
Lemma argmax_spec (a : list Qc) (i : nat) :
  Np.argmax a = Ok i →
  ∃ m, a !! i = Some m ∧ ∀ j y, a !! j = Some y → y ≤ m.
Proof.
  destruct a as [|x a]; [done|]. intros [= <-].
  apply (argmax_from_spec a [x] x 0%nat 1%nat); [done|done|].
  intros [|j] y; [|done]. intros [= <-]. apply Qcle_refl.
Qed.

Lemma argmax_ok (a : list Qc) : a ≠ [] → ∃ i, Np.argmax a = Ok i.
Proof. destruct a; [done|]. eauto. Qed.

End Argmax.

(** The number of correct classifications at the criterion [x], written as
    [calculate] writes it: the true positive rate times the number of true
    outcomes plus one minus the false positive rate times the number of
    false outcomes. *)
Definition n_correct (iv : list Qc) (bo : list bool) (x : Qc) : Qc :=
  rate true iv bo x * Qc_of_Z (Z.of_nat (total true bo))
  + (1 - rate false iv bo x) * Qc_of_Z (Z.of_nat (total false bo)).

Lemma zip_with_map_same {A} (g1 g2 : A → Qc) (xs : list A) :
  zip_with Qcplus (map g1 xs) (map g2 xs) = map (fun x => g1 x + g2 x) xs.
Proof. induction xs as [|x xs IH]; [done|]. simpl. by rewrite IH. Qed.

Lemma auc_ok_length (x y : list Qc) (area : Qc) :
  Sklearn.auc x y = Ok area → (2 ≤ length x)%nat.
Proof.
  unfold Sklearn.auc. destruct (negb _); [done|].
  destruct (Nat.ltb_spec (length x) 2); [done|]. done.
Qed.

Section ThresholdOverall.
Variable norm_ppf : Qc → Qc.

Lemma wp_calc_threshold_overall (a : calculate_args) (w : world) (iv : list Qc)
    (bo : list bool) (c : loc) (cv : list Qc) (Q : world → result unit → Prop) :
  forced_choice (self w) = Some false →
  arg_threshold_type a = literal "optimal_overall" →
  tpr (self w) = Some (map (rate true iv bo) cv) →
  fpr (self w) = Some (map (rate false iv bo) cv) →
  n_true (self w) = Some (Qc_of_Z (Z.of_nat (total true bo))) →
  n_false (self w) = Some (Qc_of_Z (Z.of_nat (total false bo))) →
  criterion_values (self w) = Some c → heap w !! c = Some cv → cv ≠ [] →
  (∀ thr, thr ∈ cv → (∀ x, x ∈ cv → n_correct iv bo x ≤ n_correct iv bo thr) →
          Q (mkWorld (heap w)
               (set_class_thr thr (set_threshold_type (literal "optimal_overall") (self w))))
            (Ok tt)) →
  wp (calc_threshold norm_ppf a) w Q.
Proof.
  intros Hfc Htt Ht Hf Hnt Hnf Hc Hcv Hne HQ.
  unfold calc_threshold, self_criterion_values. rewrite Htt.
  wp_attr. cbn [negb]. wp_set.
  change (py_is (literal "optimal_overall") "optimal_balanced") with false.
  change (py_is (literal "optimal_overall") "optimal_overall") with true. cbn iota.
  wp_attr. wp_attr. wp_attr. wp_attr.
  rewrite !map_map.
  wp_lift_with (broadcast2_eq Qcplus
    (map (fun x => rate true iv bo x * Qc_of_Z (Z.of_nat (total true bo))) cv)
    (map (fun x => (1 - rate false iv bo x) * Qc_of_Z (Z.of_nat (total false bo))) cv)).
  { by rewrite !length_map. }
  rewrite zip_with_map_same. fold (n_correct iv bo).
  apply wp_bind. wp_attr. eapply wp_load_some; [done|]. cbn beta iota.
  destruct (argmax_ok (map (n_correct iv bo) cv)) as [i Hi]; [by destruct cv|].
  wp_lift_with Hi.
  destruct (argmax_spec _ _ Hi) as (m & Hm & Hmax).
  apply list_lookup_fmap_Some in Hm as (thr & -> & Hthr).
  apply wp_bind. eapply wp_lift_ok; [unfold Np.item; by rewrite Hthr|]. cbn beta iota.
  apply wp_setattr. apply HQ.
  - by eapply list_elem_of_lookup_2.
  - intros x Hx. apply list_elem_of_lookup_1 in Hx as [j Hj].
    apply (Hmax j). by rewrite list_lookup_fmap, Hj.
Qed.

End ThresholdOverall.

(** The criterion values of a call are acceptable when they are the default
    ones, or an array of the caller on which the area under the curve is
    defined (scikit-learn refuses fewer than two points and rates that go
    up and down). *)
Definition criterion_accepted (a : calculate_args) (w : world) (iv : list Qc)
    (bo : list bool) : Prop :=
  match arg_criterion_values a with
  | None => True
  | Some c0 => ∃ cv, heap w !! c0 = Some cv ∧
                     is_ok (Sklearn.auc (map (rate false iv bo) cv)
                                        (map (rate true iv bo) cv)) = true
  end.

Lemma auc_defined (a : calculate_args) (w : world) (l : loc) (iv : list Qc)
    (bo : list bool) (fc : bool) (w4 : world) (c : loc) (cv iv' : list Qc) :
  call_ok a w l iv bo fc → rates_done a w l iv bo fc w4 c cv iv' →
  criterion_accepted a w iv bo →
  arg_criterion_values a = None ∨ forced a fc = false →
  ∃ area, Sklearn.auc (map (rate false iv' bo) cv) (map (rate true iv' bo) cv) = Ok area.
Proof.
  intros Hok Hrd Hacc Hcase.
  destruct (arg_criterion_values a) as [c0|] eqn:Harg.
  - destruct Hcase as [?|Hoff]; [done|].
    unfold criterion_accepted in Hacc. rewrite Harg in Hacc.
    destruct Hacc as (cv1 & Hcv1 & Hauc).
    destruct Hrd. rewrite Hoff in *. subst iv'.
    destruct rd_heap0 as (h2 & cv0 & Hsrc & Hh).
    unfold criterion_source in Hsrc. rewrite Harg in Hsrc.
    destruct Hsrc as (-> & -> & Hc0). rewrite Hh in rd_criterion0.
    assert (cv = cv1) as -> by congruence.
    destruct (Sklearn.auc _ _); [eauto|done].
  - destruct (default_criterion _ _ _ _ _ _ _ _ _ _ Hok Hrd Harg)
      as (lo & hi & Hlo & Hhi & -> & _).
    eexists. apply default_criterion_auc.
    + by eapply min_le_max.
    + by eapply call_ok_bo_nonempty.
Qed.

Section ThresholdTheorem.
Variables (norm_ppf : Qc → Qc) (binom_test : Z → Z → Qc) (np_sqrt : Qc → Qc).

(** C3 (as amended).  On a valid input, with forced choice off, with the
    default criterion values or criterion values of the caller on which
    scikit-learn's [auc] is defined, and with the literal
    ['optimal_overall'] for threshold type (the interned string, which is
    what [threshold_type is 'optimal_overall'] tests), [Roc.calculate]
    sets [self.class_thr] to one of the criterion values, and one at which
    the number of correct classifications (the true positive rate times
    the number of true outcomes plus one minus the false positive rate
    times the number of false outcomes) is greatest among all criterion
    values. *)
Theorem calculate_optimal_overall (a : calculate_args) (w : world) (l : loc)
    (iv : list Qc) (bo : list bool) (fc : bool) :
  call_ok a w l iv bo fc →
  criterion_accepted a w iv bo →
  forced a fc = false →
  arg_threshold_type a = literal "optimal_overall" →
  let w' := (calculate norm_ppf binom_test np_sqrt a w).1 in
  ∃ c cv thr,
    criterion_values (self w') = Some c ∧ heap w' !! c = Some cv ∧
    class_thr (self w') = Some thr ∧ thr ∈ cv ∧
    ∀ x, x ∈ cv →
      rate true iv bo x * Qc_of_Z (Z.of_nat (total true bo))
        + (1 - rate false iv bo x) * Qc_of_Z (Z.of_nat (total false bo))
      ≤ rate true iv bo thr * Qc_of_Z (Z.of_nat (total true bo))
        + (1 - rate false iv bo thr) * Qc_of_Z (Z.of_nat (total false bo)).
Proof.
  intros Hok Hacc Hoff Htt w'. subst w'. rewrite calculate_unfold.
  match goal with |- context [(?m w).1] => pattern ((m w).1) end.
  apply wp_state.
  apply (wp_prefix a w l iv bo fc Hok); [by rewrite Hoff|].
  intros w4 c cv iv' Hrd.
  destruct (auc_defined _ _ _ _ _ _ _ _ _ _ Hok Hrd Hacc (or_intror Hoff)) as [area Hauc].
  pose proof (auc_ok_length _ _ _ Hauc) as Hlen. rewrite length_map in Hlen.
  destruct Hrd. rewrite Hoff in *. subst iv'.
  unfold after_rates. apply wp_bind.
  eapply wp_calc_auc_ok; [done|done|exact Hauc|]. cbn beta iota.
  unfold after_auc. apply wp_bind.
  eapply (wp_calc_threshold_overall norm_ppf a _ iv bo c cv); try done.
  { by destruct cv. }
  intros thr Hthr Hmax. cbn beta iota.
  eapply wp_mono; [apply after_threshold_frame|].
  intros w5 r [[[(Hh & _ & _ & Hc & _) _] _] [Hct _]]. cbn in Hh, Hc, Hct.
  exists c, cv, thr. rewrite Hh, Hc, Hct. done.
Qed.

End ThresholdTheorem.

(** * The ['optimal_balanced'] branch *)

Section ThresholdBalanced.
Variables (norm_ppf : Qc → Qc) (binom_test : Z → Z → Qc) (np_sqrt : Qc → Qc).

Lemma wp_calc_threshold_balanced (a : calculate_args) (w : world)
    (Q : world → result unit → Prop) :
  forced_choice (self w) = Some false →
  arg_threshold_type a = literal "optimal_balanced" →
  Q (mkWorld (heap w) (set_threshold_type (literal "optimal_balanced") (self w)))
    (Raise (NameError "tpr")) →
  wp (calc_threshold norm_ppf a) w Q.
Proof.
  intros Hfc Htt HQ. unfold calc_threshold. rewrite Htt.
  wp_attr. cbn [negb]. wp_set.
  change (py_is (literal "optimal_balanced") "optimal_balanced") with true. cbn iota.
  apply wp_bind. unfold load_name.
  replace (bool_decide ("tpr" ∈ module_globals)) with false by (by vm_compute).
  by apply wp_raise.
Qed.

(** C4 (the code departs from it).  On a valid input, with forced choice
    off and threshold type ['optimal_balanced'], [Roc.calculate] does not
    complete: the branch reads the undefined names [tpr] and [fpr], the call
    ends in a [NameError], and [self.class_thr] is left as it was. *)
Theorem calculate_optimal_balanced_raises (a : calculate_args) (w : world) (l : loc)
    (iv : list Qc) (bo : list bool) (fc : bool) :
  call_ok a w l iv bo fc →
  criterion_accepted a w iv bo →
  forced a fc = false →
  arg_threshold_type a = literal "optimal_balanced" →
  (calculate norm_ppf binom_test np_sqrt a w).2 = Raise (NameError "tpr") ∧
  class_thr (self (calculate norm_ppf binom_test np_sqrt a w).1) = class_thr (self w).
Proof.
  intros Hok Hacc Hoff Htt. rewrite calculate_unfold.
  match goal with |- context [(?m w).1] =>
    apply (wp_run m w (fun w' r => r = Raise (NameError "tpr") ∧
                                   class_thr (self w') = class_thr (self w)))
  end.
  apply (wp_prefix a w l iv bo fc Hok); [by rewrite Hoff|].
  intros w4 c cv iv' Hrd.
  destruct (auc_defined _ _ _ _ _ _ _ _ _ _ Hok Hrd Hacc (or_intror Hoff)) as [area Hauc].
  destruct Hrd. rewrite Hoff in *. subst iv'.
  unfold after_rates. apply wp_bind.
  eapply wp_calc_auc_ok; [done|done|exact Hauc|]. cbn beta iota.
  unfold after_auc. apply wp_bind.
  apply wp_calc_threshold_balanced; [done|done|]. cbn. done.
Qed.

End ThresholdBalanced.

(** * What the forced-choice transformation does *)

(** The transformation as the specification words it: the mean of the two
    scores of a pair (the score with the true outcome and the score with
    the false outcome) is subtracted from both. *)
Definition centered_scores (iv : list Qc) (bo : list bool) : list Qc :=
  let s_true := Np.select iv bo in
  let s_false := Np.select iv (Np.invert bo) in
  let mn := map (fun v => v / 2) (zip_with Qcplus s_true s_false) in
  Np.scatter (Np.scatter iv bo (zip_with Qcminus s_true mn)) (Np.invert bo)
    (zip_with Qcminus s_false mn).

Section ForcedChoiceScores.
Variables (iv : list Qc) (bo : list bool).
Hypothesis Hlen : length iv = length bo.
Hypothesis Hpairs : total true bo = total false bo.

Lemma zip_with_minus_own_mean (s : list Qc) :
  zip_with Qcminus s (map (fun v => v / 2) (zip_with Qcplus s s)) = map (fun _ => 0) s.
Proof.
  induction s as [|x s IH]; [done|]. simpl. rewrite IH. f_equal. field. done.
Qed.


(** What the code computes: the scores with a true outcome become 0 ... *)
Lemma forced_choice_scores_true :
  Np.select (forced_choice_scores iv bo) bo = map (fun _ => 0) (Np.select iv bo).
Proof.
  unfold forced_choice_scores.
  rewrite select_invert_scatter, zip_with_minus_own_mean.
  apply select_scatter; [done|]. rewrite length_map. by apply select_length.
Qed.


End ForcedChoiceScores.

Definition q (n : Z) : Qc := Qc_of_Z n.

(** C5 (the code departs from it).  With forced choice, [Roc.calculate]
    does set [self.class_thr] to 0, but it does not centre the pairs: the
    mean it subtracts is that of the true-outcome score with itself.  For
    the pair of scores 3 (true outcome) and 1 (false outcome) it leaves 0
    and -2 behind [self.input_values], where subtracting the mean of the
    pair gives 1 and -1. *)
Theorem forced_choice_pair_not_centered
    (norm_ppf : Qc → Qc) (binom_test : Z → Z → Qc) (np_sqrt : Qc → Qc) :
  let w0 := (construct [[q 3; q 1]] 0%nat [true; false] (literal "optimal_overall") true).1 in
  let w' := (calculate norm_ppf binom_test np_sqrt default_args w0).1 in
  heap w' !! 0%nat = Some [q 0; q (-2)] ∧
  centered_scores [q 3; q 1] [true; false] = [q 1; q (-1)] ∧
  class_thr (self w') = Some (q 0).
Proof.
  cbv zeta. repeat split; apply (bool_decide_eq_true_1 _); vm_compute; reflexivity.
Qed.

(** * The other threshold branches *)

Section Argmin.

Lemma argmin_from_bound (rest : list Qc) (best : Qc) (ibest i : nat) :
  (ibest < i)%nat → (Np.argmin_from best ibest i rest < i + length rest)%nat.
Proof.
  revert best ibest i. induction rest as [|x rest IH]; intros best ibest i Hi.
  - simpl. lia.
  - cbn [Np.argmin_from length]. case_decide.
    + specialize (IH x i (S i)). lia.
    + specialize (IH best ibest (S i)). lia.
Qed.

Lemma argmin_ok (a : list Qc) :
  a ≠ [] → ∃ i, Np.argmin a = Ok i ∧ (i < length a)%nat.
Proof.
  destruct a as [|x a]; [done|]. intros _. eexists. split; [done|].
  pose proof (argmin_from_bound a x 0 1). simpl. lia.
Qed.

End Argmin.

Section ThresholdOther.
Variable norm_ppf : Qc → Qc.

Lemma wp_calc_threshold_sdt (a : calculate_args) (w : world) (t f : list Qc)
    (c : loc) (cv : list Qc) (Q : world → result unit → Prop) :
  forced_choice (self w) = Some false →
  arg_threshold_type a = literal "minimum_sdt_bias" →
  tpr (self w) = Some t → fpr (self w) = Some f →
  length t = length cv → length f = length cv →
  criterion_values (self w) = Some c → heap w !! c = Some cv → cv ≠ [] →
  (∀ thr, thr ∈ cv →
          Q (mkWorld (heap w)
               (set_class_thr thr (set_threshold_type (literal "minimum_sdt_bias") (self w))))
            (Ok tt)) →
  wp (calc_threshold norm_ppf a) w Q.
Proof.
  intros Hfc Htt Ht Hf Hlt Hlf Hc Hcv Hne HQ.
  unfold calc_threshold, self_criterion_values. rewrite Htt.
  wp_attr. cbn [negb]. wp_set.
  change (py_is (literal "minimum_sdt_bias") "optimal_balanced") with false.
  change (py_is (literal "minimum_sdt_bias") "optimal_overall") with false.
  change (py_is (literal "minimum_sdt_bias") "minimum_sdt_bias") with true. cbn iota.
  wp_attr. wp_attr.
  match goal with |- wp (lift (Np.broadcast2 _ ?zt ?zf) ≫= _) _ _ =>
    set (xs := zt); set (ys := zf) end.
  assert (Hxs : length xs = length cv)
    by (unfold xs, Np.maximum, Np.minimum; by rewrite !length_map).
  assert (Hys : length ys = length cv)
    by (unfold ys, Np.maximum, Np.minimum; by rewrite !length_map).
  wp_lift_with (broadcast2_eq Qcplus xs ys); [congruence|].
  apply wp_bind. wp_attr. eapply wp_load_some; [done|]. cbn beta iota.
  match goal with |- wp (lift (Np.argmin ?l) ≫= _) _ _ => set (cb := l) end.
  assert (Hcb : length cb = length cv).
  { unfold cb. rewrite !length_map, length_zip_with. lia. }
  destruct (argmin_ok cb) as (i & Hi & Hlt'); [intros E; rewrite E in Hcb; by destruct cv|].
  wp_lift_with Hi.
  destruct (lookup_lt_is_Some_2 cv i) as [thr Hthr]; [lia|].
  apply wp_bind. eapply wp_lift_ok; [unfold Np.item; by rewrite Hthr|]. cbn beta iota.
  apply wp_setattr. apply HQ. by eapply list_elem_of_lookup_2.
Qed.


End ThresholdOther.

(** * Concrete runs *)

(** Instances of the three parameters for concrete runs; the theorems hold
    for any. *)
Definition ex_norm_ppf (x : Qc) : Qc := x.
Definition ex_binom_test (k n_ : Z) : Qc := 1.
Definition ex_sqrt (x : Qc) : Qc := x.

(** Four observations, two of each outcome, in one array of the store. *)
Definition ex_iv : list Qc := [q 3; q 1; q 2; q 0].
Definition ex_bo : list bool := [true; false; true; false].
Definition ex_world : world :=
  (construct [ex_iv] 0%nat ex_bo (literal "optimal_overall") false).1.

Definition ex_bo_fc : list bool := [true; true; false; false].

Lemma ex_call_ok (a : calculate_args) :
  arg_input_values a = None → arg_binary_outcome a = None →
  arg_criterion_values a = None →
  call_ok a ex_world 0%nat ex_iv ex_bo false.
Proof.
  intros H1 H2 H3. split; rewrite ?H1, ?H2, ?H3; try reflexivity.
  - vm_compute. discriminate.
  - vm_compute. discriminate.
  - intros c0 [=].
Defined.

Lemma ex_span_finite : span_is_finite ex_iv.
Proof.
  intros lo hi [= <-] [= <-]. apply (bool_decide_eq_true_1 _). vm_compute. reflexivity.
Defined.






Lemma calculate_optimal_overall_witness :
  call_ok default_args ex_world 0%nat ex_iv ex_bo false ∧
  ∃ c cv thr,
    criterion_values (self (calculate ex_norm_ppf ex_binom_test ex_sqrt default_args ex_world).1)
      = Some c ∧
    heap (calculate ex_norm_ppf ex_binom_test ex_sqrt default_args ex_world).1 !! c = Some cv ∧
    class_thr (self (calculate ex_norm_ppf ex_binom_test ex_sqrt default_args ex_world).1)
      = Some thr ∧ thr ∈ cv ∧
    ∀ x, x ∈ cv →
      rate true ex_iv ex_bo x * Qc_of_Z (Z.of_nat (total true ex_bo))
        + (1 - rate false ex_iv ex_bo x) * Qc_of_Z (Z.of_nat (total false ex_bo))
      ≤ rate true ex_iv ex_bo thr * Qc_of_Z (Z.of_nat (total true ex_bo))
        + (1 - rate false ex_iv ex_bo thr) * Qc_of_Z (Z.of_nat (total false ex_bo)).
Proof.
  split; [by apply ex_call_ok|].
  apply (calculate_optimal_overall ex_norm_ppf ex_binom_test ex_sqrt default_args ex_world
           0%nat ex_iv ex_bo false).
  - by apply ex_call_ok.
  - exact I.
  - reflexivity.
  - reflexivity.
Defined.

(** Criterion values of the caller that are not sorted, in a second array
    of the store, and a threshold type spelled ['optimal_overall'] that is
    not the interned string (as when it is assembled or read at run
    time). *)
Definition ex_world_unsorted : world :=
  (construct [ex_iv; [q 0; q 3; q 1]] 0%nat ex_bo (literal "optimal_overall") false).1.
Definition ex_unsorted_args : calculate_args :=
  mkArgs None None (Some 1%nat) (literal "optimal_overall") false false.
Definition ex_computed_name_args : calculate_args :=
  mkArgs None None None (PyString "optimal_overall" false) false false.

(** C3 as it was stated does not hold of every valid input with forced
    choice off and threshold type ['optimal_overall'].  With the criterion
    values 0, 3, 1 supplied by the caller, the false positive rate goes
    down and up again, scikit-learn's [auc] raises its [ValueError] at
    line 475 and no threshold is set.  And with a threshold type that has
    the characters of optimal_overall without being the interned string,
    none of the three [is] tests holds, no threshold is set and the call
    ends in an [AttributeError] for [class_thr] at line 494. *)
Lemma calculate_optimal_overall_counterexample :
  let r := calculate ex_norm_ppf ex_binom_test ex_sqrt ex_unsorted_args ex_world_unsorted in
  let r' := calculate ex_norm_ppf ex_binom_test ex_sqrt ex_computed_name_args ex_world in
  (fpr (self r.1) = Some [1; 0; Q2Qc (1 # 2)] ∧
   r.2 = Raise (ValueError "x is neither increasing nor decreasing") ∧
   class_thr (self r.1) = None) ∧
  (chars (arg_threshold_type ex_computed_name_args) = "optimal_overall" ∧
   r'.2 = Raise (AttributeError "class_thr") ∧
   class_thr (self r'.1) = None).
Proof.
  cbv zeta. repeat split; try (vm_compute; reflexivity).
  apply (bool_decide_eq_true_1 _). vm_compute. reflexivity.
Qed.

(** [calculate(threshold_type='optimal_balanced')]. *)
Definition ex_balanced_args : calculate_args :=
  mkArgs None None None (literal "optimal_balanced") false false.

Lemma calculate_optimal_balanced_raises_witness :
  call_ok ex_balanced_args ex_world 0%nat ex_iv ex_bo false ∧
  (calculate ex_norm_ppf ex_binom_test ex_sqrt ex_balanced_args ex_world).2
    = Raise (NameError "tpr") ∧
  class_thr (self (calculate ex_norm_ppf ex_binom_test ex_sqrt ex_balanced_args ex_world).1)
    = class_thr (self ex_world).
Proof.
  split; [by apply ex_call_ok|].
  apply (calculate_optimal_balanced_raises ex_norm_ppf ex_binom_test ex_sqrt
           ex_balanced_args ex_world 0%nat ex_iv ex_bo false).
  - by apply ex_call_ok.
  - exact I.
  - reflexivity.
  - reflexivity.
Defined.

(** * Further properties of [Roc]: construction *)

Section Construction.

(** X1.  [Roc(...)] is accepted exactly when the input values and the
    outcomes have the same length, some outcome is true and the threshold
    type is one of the three names; it then stores its four arguments and
    nothing else.  In particular outcomes that are all true are accepted. *)
Theorem construct_accepts_iff (h : store) (l : loc) (bo : list bool)
    (threshold_type_ : pystr) (fc : bool) :
  ((construct h l bo threshold_type_ fc).2 = Ok tt ↔
   ∃ iv, h !! l = Some iv ∧ length iv = length bo ∧ true ∈ bo ∧
         chars threshold_type_
           ∈ ["optimal_overall"; "optimal_balanced"; "minimum_sdt_bias"]) ∧
  ((construct h l bo threshold_type_ fc).2 = Ok tt →
   (construct h l bo threshold_type_ fc).1
   = mkWorld h (set_forced_choice fc (set_threshold_type threshold_type_
                  (set_binary_outcome bo (set_input_values l new_Roc))))).
Proof.
  unfold construct, init, mbind, St_bind, bind, load, raise, mret, St_ret, ret, setattr.
  cbn [heap self].
  destruct (h !! l) as [iv|] eqn:Hl; cbn [fst snd].
  2: { split; [split; [done|by intros (? & ? & _)]|done]. }
  unfold Np.len.
  destruct (Z.eqb_spec (Z.of_nat (length iv)) (Z.of_nat (length bo))) as [Hlen|Hlen];
    cbn [negb fst snd].
  2: { split; [split; [done|]|done]. intros (iv' & [= <-] & Hl' & _). lia. }
  destruct (Np.any bo) eqn:Hany; cbn [negb fst snd].
  2: { split; [split; [done|]|done]. intros (_ & _ & _ & Hin & _).
       unfold Np.any in Hany. apply not_true_iff_false in Hany. destruct Hany.
       apply existsb_exists. exists true. split; [by apply list_elem_of_In|done]. }
  case_bool_decide as Htt; cbn [negb fst snd].
  2: { split; [split; [done|by intros (_ & _ & _ & _ & ?)]|done]. }
  split; [|done]. split; [|done]. intros _. exists iv. repeat split; [lia| |done].
  unfold Np.any in Hany. apply existsb_exists in Hany as (b & Hb & ->).
  by apply list_elem_of_In.
Qed.

End Construction.

(** * Further properties of [Roc]: outcomes that are all true *)

Lemma truediv_no_outcome (flag : bool) (bo : list bool) (x : Qc) :
  total flag bo = 0%nat →
  Np.truediv x (Np.float (Np.sum (if flag then bo else Np.invert bo)))
  = Raise ZeroDivisionError.
Proof.
  intros H0. unfold Np.truediv, Np.float.
  replace (Np.sum (if flag then bo else Np.invert bo)) with (Z.of_nat (total flag bo))
    by (destruct flag; [by rewrite sum_total | by rewrite sum_invert]).
  rewrite H0. by rewrite decide_True by (apply Z2Qc_inj_0).
Qed.

Ltac wp_attr' :=
  apply wp_bind; eapply wp_attr_some; [attr_solve | cbn beta iota].

(** Lines 456-462 when no outcome is false: the zeros are laid out, the
    first true positive rate is stored, and the division for the first
    false positive rate raises. *)
Lemma wp_calc_rates_no_false (w : world) (l : loc) (iv : list Qc) (bo : list bool)
    (c : loc) (x0 : Qc) (cv' : list Qc) (Q : world → result unit → Prop) :
  input_values (self w) = Some l → heap w !! l = Some iv →
  binary_outcome (self w) = Some bo → length iv = length bo →
  total true bo ≠ 0%nat → total false bo = 0%nat →
  criterion_values (self w) = Some c → heap w !! c = Some (x0 :: cv') →
  Q (mkWorld (heap w)
       (set_tpr (<[0%nat := rate true iv bo x0]> (Np.zeros (S (length cv'))))
          (set_fpr (Np.zeros (S (length cv')))
             (set_tpr (Np.zeros (S (length cv'))) (self w)))))
    (Raise ZeroDivisionError) →
  wp calc_rates w Q.
Proof.
  intros Hl Hh Hb Hlen Hnt Hnf Hc Hcv HQ.
  unfold calc_rates, self_criterion_values, self_binary_outcome.
  apply wp_bind. wp_attr'. eapply wp_load_some; [exact Hcv|]. cbn beta iota.
  wp_set.
  apply wp_bind. wp_attr'. eapply wp_load_some; [exact Hcv|]. cbn beta iota.
  wp_set.
  apply wp_bind. wp_attr'. eapply wp_load_some; [exact Hcv|]. cbn beta iota.
  cbn [for_enumerate]. apply wp_bind. apply wp_bind.
  unfold calc_rates_body, self_input_values, self_binary_outcome.
  apply wp_bind. wp_attr'. eapply wp_load_some; [exact Hh|]. cbn beta iota.
  wp_attr'.
  wp_lift_with (bool_index_eq (Np.ge iv x0) bo); [by rewrite ge_length|].
  wp_attr'.
  wp_lift_with (truediv_rate true iv bo x0 Hnt).
  wp_attr'. wp_set.
  wp_attr'.
  wp_lift_with (bool_index_eq (Np.ge iv x0) (Np.invert bo));
    [by rewrite ge_length, invert_length|].
  wp_attr'.
  apply wp_bind, wp_lift.
  rewrite (truediv_no_outcome false bo _ Hnf). cbn beta iota.
  exact HQ.
Qed.

Section AllTrue.
Variables (norm_ppf : Qc → Qc) (binom_test : Z → Z → Qc) (np_sqrt : Qc → Qc).

(** With outcomes that are all true, forced choice off and at least one
    criterion value, the loop of lines 459-462 stores the first true
    positive rate and stops at the division by the number of false
    outcomes. *)
Lemma calculate_all_true_run (a : calculate_args) (w : world) (l : loc)
    (iv : list Qc) (bo : list bool) :
  from_arg (arg_input_values a) (input_values (self w)) = Some l →
  from_arg (arg_binary_outcome a) (binary_outcome (self w)) = Some bo →
  heap w !! l = Some iv → length iv = length bo → bo ≠ [] →
  total false bo = 0%nat →
  forced_choice (self w) = Some false → arg_forced_choice a = false →
  (∀ c0, arg_criterion_values a = Some c0 → ∃ cv, heap w !! c0 = Some cv ∧ cv ≠ []) →
  let r := calculate norm_ppf binom_test np_sqrt a w in
  r.2 = Raise ZeroDivisionError ∧
  ∃ c x0 cv',
    criterion_values (self r.1) = Some c ∧ heap r.1 !! c = Some (x0 :: cv') ∧
    (arg_criterion_values a = None →
     Np.min iv = Ok x0 ∧ S (length cv') = (50 * length bo)%nat) ∧
    tpr (self r.1) = Some (<[0%nat := rate true iv bo x0]> (Np.zeros (S (length cv')))) ∧
    fpr (self r.1) = Some (Np.zeros (S (length cv'))).
Proof.
  intros Hl Hb Hh Hlen Hne Hnf Hfc Ha Hc r. subst r. rewrite calculate_unfold.
  match goal with |- context [(?m w).1] =>
    apply (wp_run m w (fun w' r => r = Raise ZeroDivisionError ∧
      ∃ c x0 cv',
        criterion_values (self w') = Some c ∧ heap w' !! c = Some (x0 :: cv') ∧
        (arg_criterion_values a = None →
         Np.min iv = Ok x0 ∧ S (length cv') = (50 * length bo)%nat) ∧
        tpr (self w') = Some (<[0%nat := rate true iv bo x0]> (Np.zeros (S (length cv')))) ∧
        fpr (self w') = Some (Np.zeros (S (length cv')))))
  end.
  assert (Hnt : total true bo ≠ 0%nat).
  { pose proof (total_split bo). destruct bo; [done|]. simpl in *. lia. }
  assert (Hiv : iv ≠ []) by (intros ->; by destruct bo).
  apply wp_bind, wp_calc_inputs. cbn beta iota.
  apply wp_bind.
  eapply (wp_calc_criterion a _ l iv bo);
    [attr_solve|attr_solve|attr_solve|exact Hiv| |].
  { intros c0 Hc0. destruct (Hc c0 Hc0) as (cv & Hcv & _). by eexists. }
  intros c cv0 h2 Hsrc. cbn beta iota.
  destruct (criterion_source_lookup _ _ _ _ _ _ _ Hsrc) as [Hccv Hkeep].
  pose proof (Hkeep _ _ Hh) as Hl2.
  assert (Hfirst : ∃ x0 cv', cv0 = x0 :: cv' ∧
            (arg_criterion_values a = None →
             Np.min iv = Ok x0 ∧ S (length cv') = (50 * length bo)%nat)).
  { unfold criterion_source in Hsrc.
    destruct (arg_criterion_values a) as [c0|] eqn:Harg.
    - destruct Hsrc as (-> & -> & Hc0). destruct (Hc c0 eq_refl) as (cv & Hcv & Hcvne).
      cbn [heap] in Hc0. assert (cv0 = cv) as -> by congruence.
      destruct cv as [|x0 cv']; [done|]. by exists x0, cv'.
    - destruct Hsrc as (lo & hi & Hlo & Hhi & Hcv0 & Hcl & Hh2).
      assert (Hcvlen : length cv0 = (50 * length bo)%nat)
        by (rewrite Hcv0; apply linspace_length).
      destruct cv0 as [|x0 cv']; [destruct bo; simpl in Hcvlen; [done|lia]|].
      exists x0, cv'. split; [done|]. intros _. split; [|done].
      unfold Np.linspace in Hcv0. destruct (50 * length bo)%nat as [|[|k]] eqn:E;
        [done|by injection Hcv0 as ->|].
      cbn [map seq] in Hcv0. injection Hcv0 as -> _. rewrite Hlo. f_equal.
      change (Z.of_nat 0) with 0%Z. rewrite Z2Qc_inj_0. ring. }
  destruct Hfirst as (x0 & cv' & -> & Hdefault).
  apply wp_bind. eapply wp_calc_forced_choice_off; [attr_solve|exact Ha|].
  cbn beta iota. apply wp_bind.
  eapply (wp_calc_rates_no_false _ l iv bo c x0 cv');
    [attr_solve|exact Hl2|attr_solve|done|done|done|attr_solve|exact Hccv|].
  cbn beta iota.
  split; [done|]. exists c, x0, cv'. cbn [heap self].
  split; [done|]. split; [exact Hccv|]. split; [exact Hdefault|].
  split; reflexivity.
Qed.

(** X2.  When every outcome is true and forced choice is off,
    [Roc.calculate] with the default criterion values ends in a
    [ZeroDivisionError]: at the first criterion value it stores the true
    positive rate and then divides by the number of false outcomes, which
    is 0.  The rest of [self.tpr] and all of [self.fpr] are still the zeros
    they were created with.  When the range of the scores is a finite
    float, the first criterion value is the least score and the rate
    stored is the one at that score. *)
Theorem calculate_all_true_raises (a : calculate_args) (w : world) (l : loc)
    (iv : list Qc) (bo : list bool) :
  from_arg (arg_input_values a) (input_values (self w)) = Some l →
  from_arg (arg_binary_outcome a) (binary_outcome (self w)) = Some bo →
  heap w !! l = Some iv → length iv = length bo → bo ≠ [] →
  total false bo = 0%nat →
  forced_choice (self w) = Some false → arg_forced_choice a = false →
  arg_criterion_values a = None →
  let r := calculate norm_ppf binom_test np_sqrt a w in
  r.2 = Raise ZeroDivisionError ∧
  fpr (self r.1) = Some (Np.zeros (50 * length bo)) ∧
  (∃ y, tpr (self r.1) = Some (<[0%nat := y]> (Np.zeros (50 * length bo)))) ∧
  (span_is_finite iv →
   ∃ lo, Np.min iv = Ok lo ∧
     tpr (self r.1) = Some (<[0%nat := rate true iv bo lo]> (Np.zeros (50 * length bo)))).
Proof.
  intros Hl Hb Hh Hlen Hne Hnf Hfc Ha Hc r.
  destruct (calculate_all_true_run a w l iv bo Hl Hb Hh Hlen Hne Hnf Hfc Ha)
    as (Hr & c & x0 & cv' & _ & _ & Hdef & Ht & Hf).
  { intros c0 Hc0. by rewrite Hc in Hc0. }
  destruct (Hdef Hc) as [Hlo Hn]. fold r in Hr, Ht, Hf. rewrite Hn in Ht, Hf.
  repeat split; [done|done|by eexists|].
  intros _. by exists x0.
Qed.

End AllTrue.

(** Two observations, both with a true outcome. *)
Definition ex_world_all_true : world :=
  (construct [[q 3; q 1]] 0%nat [true; true] (literal "optimal_overall") false).1.

Lemma ex_span_all_true : span_is_finite [q 3; q 1].
Proof.
  intros lo hi [= <-] [= <-]. apply (bool_decide_eq_true_1 _). vm_compute. reflexivity.
Defined.

Lemma calculate_all_true_raises_witness :
  (calculate ex_norm_ppf ex_binom_test ex_sqrt default_args ex_world_all_true).2
    = Raise ZeroDivisionError ∧
  fpr (self (calculate ex_norm_ppf ex_binom_test ex_sqrt default_args ex_world_all_true).1)
    = Some (Np.zeros (50 * length [true; true])) ∧
  ∃ lo, Np.min [q 3; q 1] = Ok lo ∧
    tpr (self (calculate ex_norm_ppf ex_binom_test ex_sqrt default_args ex_world_all_true).1)
      = Some (<[0%nat := rate true [q 3; q 1] [true; true] lo]>
                (Np.zeros (50 * length [true; true]))).
Proof.
  destruct (calculate_all_true_raises ex_norm_ppf ex_binom_test ex_sqrt default_args
              ex_world_all_true 0%nat [q 3; q 1] [true; true])
    as (Hr & Hf & _ & Ht); try reflexivity; [discriminate|].
  split; [exact Hr|]. split; [exact Hf|]. exact (Ht ex_span_all_true).
Defined.

(** * Further properties of [Roc]: what a call without forced choice touches *)

(** Every array of the store is still there, unchanged. *)
Definition arrays_kept (w w' : world) : Prop :=
  ∀ k x, heap w !! k = Some x → heap w' !! k = Some x.

(** The store is kept and the data attributes are the same. *)
Definition data_kept (w w' : world) : Prop :=
  arrays_kept w w' ∧
  input_values (self w') = input_values (self w) ∧
  binary_outcome (self w') = binary_outcome (self w) ∧
  forced_choice (self w') = forced_choice (self w).

Lemma calc_criterion_keeps (a : calculate_args) (w : world) :
  wp (calc_criterion a) w (fun w' _ => data_kept w w').
Proof.
  unfold calc_criterion, self_input_values, self_binary_outcome.
  destruct (arg_criterion_values a).
  - apply wp_setattr. unfold data_kept, arrays_kept. cbn. auto.
  - repeat first [frame_step | apply wp_alloc; cbn beta iota];
      unfold data_kept, arrays_kept; cbn; repeat split; auto using lookup_app_l_Some.
Qed.

Section NoForcedChoice.
Variables (norm_ppf : Qc → Qc) (binom_test : Z → Z → Qc) (np_sqrt : Qc → Qc).

(** Without forced choice no step of [calculate] writes to an array. *)
Lemma calculate_off_keeps_data (a : calculate_args) (w : world) :
  forced_choice (self w) = Some false → arg_forced_choice a = false →
  let w' := (calculate norm_ppf binom_test np_sqrt a w).1 in
  arrays_kept w w' ∧
  input_values (self w') = from_arg (arg_input_values a) (input_values (self w)) ∧
  binary_outcome (self w') = from_arg (arg_binary_outcome a) (binary_outcome (self w)).
Proof.
  intros Hfc Ha w'. subst w'. rewrite calculate_unfold.
  match goal with |- context [(?m w).1] => pattern ((m w).1) end.
  apply wp_state.
  apply wp_bind, wp_calc_inputs. cbn beta iota.
  apply wp_bind. eapply wp_mono; [apply calc_criterion_keeps|].
  intros w2 r2 (Hk & Hi & Hb & Hf). cbn [heap self] in Hk, Hi, Hb, Hf.
  rewrite inputs_upd_input_values in Hi. rewrite inputs_upd_binary_outcome in Hb.
  rewrite inputs_upd_forced_choice in Hf.
  destruct r2 as [[]|e]; [|done].
  apply wp_bind. eapply wp_calc_forced_choice_off; [congruence|exact Ha|].
  cbn beta iota. apply wp_bind.
  eapply wp_mono; [apply calc_rates_frame|].
  intros w3 r3 [(Hh3 & Hi3 & Hb3 & _) _].
  assert (H3 : arrays_kept w w3 ∧
               input_values (self w3) = from_arg (arg_input_values a) (input_values (self w)) ∧
               binary_outcome (self w3) = from_arg (arg_binary_outcome a) (binary_outcome (self w))).
  { repeat split; [|congruence|congruence]. intros k x Hx. rewrite Hh3. by apply Hk. }
  destruct r3 as [[]|e]; [|done].
  eapply wp_mono; [apply after_rates_frame|].
  intros w4 r4 [(Hh4 & Hi4 & Hb4 & _) _]. destruct H3 as (Hk3 & Hi3' & Hb3').
  repeat split; [|congruence|congruence].
  intros k x Hx. rewrite Hh4. by apply Hk3.
Qed.

(** X3.  With forced choice off (in the object and in the call),
    [Roc.calculate] modifies no array: whatever the input and however the
    call ends, every array of the caller is unchanged, and
    [self.input_values] and [self.binary_outcome] are the arguments of the
    call, or what they were when the arguments are [None]. *)
Theorem calculate_without_forced_choice_keeps_data (a : calculate_args) (w : world) :
  forced_choice (self w) = Some false → arg_forced_choice a = false →
  let w' := (calculate norm_ppf binom_test np_sqrt a w).1 in
  arrays_kept w w' ∧
  input_values (self w') = from_arg (arg_input_values a) (input_values (self w)) ∧
  binary_outcome (self w') = from_arg (arg_binary_outcome a) (binary_outcome (self w)).
Proof. apply calculate_off_keeps_data. Qed.

End NoForcedChoice.

Lemma calculate_without_forced_choice_keeps_data_witness :
  arrays_kept ex_world (calculate ex_norm_ppf ex_binom_test ex_sqrt default_args ex_world).1 ∧
  input_values (self (calculate ex_norm_ppf ex_binom_test ex_sqrt default_args ex_world).1)
    = from_arg (arg_input_values default_args) (input_values (self ex_world)) ∧
  binary_outcome (self (calculate ex_norm_ppf ex_binom_test ex_sqrt default_args ex_world).1)
    = from_arg (arg_binary_outcome default_args) (binary_outcome (self ex_world)).
Proof.
  apply (calculate_without_forced_choice_keeps_data ex_norm_ppf ex_binom_test ex_sqrt
           default_args ex_world); reflexivity.
Defined.

(** * Further properties of [Roc]: forced choice on paired data *)



Section ForcedChoiceInPlace.
Variables (norm_ppf : Qc → Qc) (binom_test : Z → Z → Qc) (np_sqrt : Qc → Qc).



End ForcedChoiceInPlace.



(** * Further properties of [Roc]: a second call after forced choice *)







Section Plot.
Variables (norm_ppf : Qc → Qc) (binom_test : Z → Z → Qc) (np_sqrt : Qc → Qc).
Variables (np_arange : Qc → Qc → Qc → result (list Qc)) (norm_cdf : Qc → Qc → Qc → Qc)
          (roc_plot : list Qc → list Qc → result unit).




End Plot.

Section SecondCall.
Variables (norm_ppf : Qc → Qc) (binom_test : Z → Z → Qc) (np_sqrt : Qc → Qc).
Variables (np_arange : Qc → Qc → Qc → result (list Qc)) (norm_cdf : Qc → Qc → Qc → Qc)
          (roc_plot : list Qc → list Qc → result unit).



End SecondCall.


(** * Further properties of [Roc]: forced choice on data that are not paired *)

Section Unpaired.
Variables (l : loc) (iv : list Qc) (bo : list bool).
Hypothesis Hlen : length iv = length bo.
Hypothesis Hunpaired : total true bo ≠ total false bo.
Hypothesis Htwo : (2 ≤ total true bo)%nat.

Lemma wp_calc_forced_choice_unpaired (a : calculate_args) (w : world) (fc : bool)
    (Q : world → result unit → Prop) :
  forced_choice (self w) = Some fc → arg_forced_choice a || fc = true →
  input_values (self w) = Some l → heap w !! l = Some iv →
  binary_outcome (self w) = Some bo →
  (∀ msg, Q (mkWorld (<[l := Np.scatter iv bo (map (fun _ => 0) (Np.select iv bo))]> (heap w))
               (set_forced_choice true (self w)))
            (Raise (ValueError msg))) →
  wp (calc_forced_choice a) w Q.
Proof.
  intros Hfc Hon Hl Hh Hb HQ.
  assert (Hlt : (l < length (heap w))%nat) by (by eapply lookup_lt_Some).
  assert (Hs : length (Np.select iv bo) = total true bo) by (by apply select_length).
  unfold calc_forced_choice, self_binary_outcome.
  wp_attr. rewrite Hon. wp_set. wp_attr.
  wp_load. wp_attr. wp_lift_with (bool_index_eq iv bo Hlen).
  wp_load. wp_attr. wp_lift_with (bool_index_eq iv bo Hlen).
  wp_lift_with (broadcast2_eq Qcplus (Np.select iv bo) (Np.select iv bo) eq_refl).
  wp_load. wp_attr. wp_lift_with (bool_index_eq iv bo Hlen).
  set (mn := map (fun v => v / 2) (zip_with Qcplus (Np.select iv bo) (Np.select iv bo))).
  assert (Hmn : length mn = total true bo).
  { unfold mn. by rewrite length_map, length_zip_with, Hs, Nat.min_id. }
  wp_lift_with (broadcast2_eq Qcminus (Np.select iv bo) mn); [congruence|].
  assert (Hd : zip_with Qcminus (Np.select iv bo) mn = map (fun _ => 0) (Np.select iv bo))
    by apply zip_with_minus_own_mean.
  rewrite Hd. clearbody mn. clear Hd.
  wp_load. wp_attr.
  set (d := map (fun _ : Qc => 0) (Np.select iv bo)).
  assert (Hdl : length d = total true bo) by (unfold d; by rewrite length_map).
  wp_lift_with (bool_index_assign_eq iv bo d Hlen Hdl).
  apply wp_bind, wp_store_at. cbn beta iota.
  set (iv1 := Np.scatter iv bo d).
  assert (Hiv1 : length iv1 = length (Np.invert bo)).
  { unfold iv1. by rewrite scatter_length, invert_length. }
  assert (Hs1 : length (Np.select iv1 (Np.invert bo)) = total false bo).
  { rewrite select_length by done. by rewrite total_invert. }
  apply wp_bind. eapply wp_load_some; [cbn; by apply list_lookup_insert_eq|]. cbn beta iota.
  wp_attr. wp_lift_with (bool_index_eq iv1 (Np.invert bo) Hiv1).
  apply wp_bind, wp_lift. unfold Np.broadcast2.
  replace (length (Np.select iv1 (Np.invert bo)) =? length mn)%nat with false
    by (symmetry; apply Nat.eqb_neq; lia).
  destruct mn as [|y1 [|y2 mn']]; [simpl in Hmn; lia..|].
  destruct (Np.select iv1 (Np.invert bo)) as [|x [|x2 s1]] eqn:Es1; [apply HQ| |apply HQ].
  cbn beta iota.
  apply wp_bind. eapply wp_load_some; [cbn; by apply list_lookup_insert_eq|]. cbn beta iota.
  wp_attr. apply wp_bind, wp_lift. unfold Np.bool_index_assign.
  rewrite Hiv1, Nat.eqb_refl, Es1. cbn. apply HQ.
Qed.

End Unpaired.

Section UnpairedTheorem.
Variables (norm_ppf : Qc → Qc) (binom_test : Z → Z → Qc) (np_sqrt : Qc → Qc).


End UnpairedTheorem.



(** * The output of [calculate]: lines 493-518 *)

(** The vectors that lines 493-495 compute: a false outcome with an input
    value at or above the threshold, a true outcome with an input value
    below it. *)
Definition false_positives (iv : list Qc) (bo : list bool) (thr : Qc) : list bool :=
  zip_with andb (Np.ge iv thr) (Np.invert bo).
Definition false_negatives (iv : list Qc) (bo : list bool) (thr : Qc) : list bool :=
  zip_with andb (Np.lt iv thr) bo.

(** What lines 495 and 502-507 leave in [self.misclass]: one entry per
    observation, or with forced choice one entry per pair. *)
Definition misclassified (fc : bool) (iv : list Qc) (bo : list bool) (thr : Qc)
  : list bool :=
  if fc then zip_with orb (Np.select (false_positives iv bo thr) (Np.invert bo))
                          (Np.select (false_negatives iv bo thr) bo)
  else zip_with orb (false_negatives iv bo thr) (false_positives iv bo thr).

Section OutputFacts.

Lemma lt_invert_ge (iv : list Qc) (thr : Qc) : Np.lt iv thr = Np.invert (Np.ge iv thr).
Proof.
  unfold Np.lt, Np.ge, Np.invert. rewrite map_map. apply map_ext. intros v.
  repeat case_bool_decide; simpl; try done.
  - exfalso. by eapply Qclt_not_le.
  - exfalso. by apply Qcnot_lt_le in H.
Qed.

Lemma total_cons_true (b : bool) (m : list bool) :
  total true (b :: m) = ((if b then 1 else 0) + total true m)%nat.
Proof. rewrite total_cons. by destruct b. Qed.

Lemma hits_cons_bool (flag b : bool) (v x : Qc) (iv : list Qc) (bo : list bool) :
  hits flag (v :: iv) (b :: bo) x
  = ((if Bool.eqb b flag && bool_decide (x ≤ v)%Qc then 1 else 0) + hits flag iv bo x)%nat.
Proof.
  rewrite hits_cons, bool_decide_and. by destruct b, flag.
Qed.

Lemma false_positives_cons (v thr : Qc) (b : bool) (iv : list Qc) (bo : list bool) :
  false_positives (v :: iv) (b :: bo) thr
  = (bool_decide (thr ≤ v) && negb b) :: false_positives iv bo thr.
Proof. done. Qed.

Lemma false_negatives_cons (v thr : Qc) (b : bool) (iv : list Qc) (bo : list bool) :
  false_negatives (v :: iv) (b :: bo) thr
  = (negb (bool_decide (thr ≤ v)) && b) :: false_negatives iv bo thr.
Proof.
  unfold false_negatives. rewrite !lt_invert_ge. done.
Qed.

Lemma false_positives_length (iv : list Qc) (bo : list bool) (thr : Qc) :
  length iv = length bo → length (false_positives iv bo thr) = length bo.
Proof.
  intros H. unfold false_positives.
  rewrite length_zip_with, ge_length, invert_length. lia.
Qed.

Lemma false_negatives_length (iv : list Qc) (bo : list bool) (thr : Qc) :
  length iv = length bo → length (false_negatives iv bo thr) = length bo.
Proof.
  intros H. unfold false_negatives. rewrite length_zip_with, lt_length. lia.
Qed.

(** The true positives of line 496 are counted by [hits true] ... *)
Lemma count_true_positive (iv : list Qc) (bo : list bool) (thr : Qc) :
  total true (zip_with andb bo
                (Np.invert (zip_with orb (false_negatives iv bo thr)
                                         (false_positives iv bo thr))))
  = hits true iv bo thr.
Proof.
  revert bo. induction iv as [|v iv IH]; intros [|b bo];
    try done; try (by rewrite hits_nil_r).
  rewrite false_negatives_cons, false_positives_cons, hits_cons_bool.
  cbn [zip_with Np.invert map]. rewrite total_cons_true.
  fold (Np.invert (zip_with orb (false_negatives iv bo thr) (false_positives iv bo thr))).
  rewrite IH. by destruct b, (bool_decide (thr ≤ v)).
Qed.

(** ... the false positives by [hits false] ... *)
Lemma count_false_positive (iv : list Qc) (bo : list bool) (thr : Qc) :
  total true (false_positives iv bo thr) = hits false iv bo thr.
Proof.
  revert bo. induction iv as [|v iv IH]; intros [|b bo];
    try done; try (by rewrite hits_nil_r).
  rewrite false_positives_cons, hits_cons_bool, total_cons_true, IH.
  by destruct b, (bool_decide (thr ≤ v)).
Qed.

Lemma hits_le_total (flag : bool) (iv : list Qc) (bo : list bool) (thr : Qc) :
  (hits flag iv bo thr ≤ total flag bo)%nat.
Proof.
  revert bo. induction iv as [|v iv IH]; intros [|b bo];
    rewrite ?hits_nil_l, ?hits_nil_r; try lia.
  rewrite hits_cons_bool, total_cons. specialize (IH bo).
  destruct b, flag, (bool_decide (thr ≤ v)); simpl; lia.
Qed.

(** ... and the observations that are misclassified are the true outcomes
    that are no hit together with the false outcomes that are one. *)
Lemma count_misclass (iv : list Qc) (bo : list bool) (thr : Qc) :
  length iv = length bo →
  (total true (zip_with orb (false_negatives iv bo thr) (false_positives iv bo thr))
   + hits true iv bo thr
   = total true bo + hits false iv bo thr)%nat.
Proof.
  revert bo. induction iv as [|v iv IH]; intros [|b bo] Hl; try done.
  rewrite false_negatives_cons, false_positives_cons, !hits_cons_bool.
  cbn [zip_with]. rewrite !total_cons_true.
  injection Hl as Hl. specialize (IH bo Hl).
  destruct b, (bool_decide (thr ≤ v)); simpl; lia.
Qed.

(** Some observation is predicted positive as soon as one input value
    reaches the threshold. *)
Lemma hits_some (iv : list Qc) (bo : list bool) (thr v : Qc) :
  length iv = length bo → v ∈ iv → thr ≤ v →
  (hits true iv bo thr + hits false iv bo thr)%nat ≠ 0%nat.
Proof.
  revert bo. induction iv as [|x iv IH]; intros [|b bo] Hl Hv Hle;
    try done; try (by apply elem_of_nil in Hv).
  - injection Hl as Hl. rewrite !hits_cons_bool.
    apply elem_of_cons in Hv as [<-|Hv].
    + rewrite (bool_decide_eq_true_2 _ Hle). destruct b; simpl; lia.
    + specialize (IH bo Hl Hv Hle). lia.
Qed.



Lemma Qc_of_nat_add (j k : nat) :
  Qc_of_Z (Z.of_nat (j + k)) = Qc_of_Z (Z.of_nat j) + Qc_of_Z (Z.of_nat k).
Proof. by rewrite Nat2Z.inj_add, Z2Qc_inj_add. Qed.

Lemma divide_rate (flag : bool) (iv : list Qc) (bo : list bool) (thr : Qc) :
  total flag bo ≠ 0%nat →
  Np.divide (Np.float (Np.sum (Np.ge (Np.select iv (if flag then bo else Np.invert bo)) thr)))
            (Qc_of_Z (Z.of_nat (total flag bo)))
  = Ok (rate flag iv bo thr).
Proof.
  intros Hn. unfold Np.divide, Np.float, rate.
  rewrite sum_total, total_ge_select.
  destruct (decide _) as [H0|_]; [|done].
  by apply Qc_of_nat_nonzero in H0.
Qed.

Lemma mean_pair (x y : Qc) : Np.mean [x; y] = Ok ((x + y) / 2).
Proof.
  unfold Np.mean, Np.divide, Np.len. cbn [length Np.fsum fold_right].
  destruct (decide _) as [H0|_].
  - by apply (Qc_of_nat_nonzero 2) in H0.
  - f_equal. change (Z.of_nat 2) with 2%Z. rewrite Z2Qc_inj_2.
    change (Q2Qc 0) with 0. rewrite Qcplus_0_r. done.
Qed.

Lemma mean_bool_eq (m : list bool) :
  m ≠ [] →
  Np.mean_bool m
  = Ok (Qc_of_Z (Z.of_nat (total true m)) / Qc_of_Z (Z.of_nat (length m))).
Proof.
  intros Hm. unfold Np.mean_bool, Np.divide, Np.len. rewrite sum_total.
  destruct (decide _) as [H0|_]; [|done].
  apply Qc_of_nat_nonzero in H0; [done|]. by destruct m.
Qed.

End OutputFacts.

(** What [calc_output] leaves in [self], given the scores [iv], the
    outcomes [bo] and the threshold [thr] it finds there. *)
Record output_done (fc : bool) (iv : list Qc) (bo : list bool) (thr : Qc) (s' : Roc)
    : Prop := {
  od_sensitivity : sensitivity s' = Some (rate true iv bo thr);
  od_specificity : specificity s' = Some (1 - rate false iv bo thr);
  od_ppv : ppv s' = Some (Qc_of_Z (Z.of_nat (hits true iv bo thr))
                          / (Qc_of_Z (Z.of_nat (hits true iv bo thr))
                             + Qc_of_Z (Z.of_nat (hits false iv bo thr))));
  od_misclass : misclass s' = Some (misclassified fc iv bo thr)
}.

Ltac wp_self_iv :=
  apply wp_bind; wp_attr; eapply wp_load_some;
    [cbn; first [reflexivity | eassumption] | cbn beta iota].

Section Output.
Variables (l : loc) (iv : list Qc) (bo : list bool) (thr : Qc) (fc : bool).
Hypothesis Hlen : length iv = length bo.
Hypothesis Htrue : total true bo ≠ 0%nat.
Hypothesis Hfalse : total false bo ≠ 0%nat.
Hypothesis Hpairs : fc = true → total true bo = total false bo.

Lemma wp_calc_output (w : world) (Q : world → result unit → Prop) :
  input_values (self w) = Some l → heap w !! l = Some iv →
  binary_outcome (self w) = Some bo → class_thr (self w) = Some thr →
  n_true (self w) = Some (Qc_of_Z (Z.of_nat (total true bo))) →
  n_false (self w) = Some (Qc_of_Z (Z.of_nat (total false bo))) →
  forced_choice (self w) = Some fc →
  ((hits true iv bo thr + hits false iv bo thr)%nat ≠ 0%nat →
   ∀ s', output_done fc iv bo thr s' → Q (mkWorld (heap w) s') (Ok tt)) →
  ((hits true iv bo thr + hits false iv bo thr)%nat = 0%nat →
   ∀ s', Q (mkWorld (heap w) s') (Raise ZeroDivisionError)) →
  wp calc_output w Q.
Proof.
  intros Hl Hh Hb Ht Hnt Hnf Hfc HQ HZ.
  pose proof (false_positives_length iv bo thr Hlen) as Hfpl.
  pose proof (false_negatives_length iv bo thr Hlen) as Hfnl.
  unfold calc_output, self_input_values, self_binary_outcome.
  wp_self_iv. wp_attr. wp_attr.
  wp_lift_with (broadcast2_eq andb (Np.ge iv thr) (Np.invert bo));
    [by rewrite ge_length, invert_length|].
  fold (false_positives iv bo thr). set (fp := false_positives iv bo thr) in *.
  wp_set.
  wp_self_iv. wp_attr. wp_attr.
  wp_lift_with (broadcast2_eq andb (Np.lt iv thr) bo); [by rewrite lt_length|].
  fold (false_negatives iv bo thr). set (fn := false_negatives iv bo thr) in *.
  wp_set.
  wp_attr. wp_attr.
  wp_lift_with (broadcast2_eq orb fn fp); [congruence|].
  set (mc := zip_with orb fn fp).
  assert (Hmcl : length mc = length bo).
  { unfold mc. rewrite length_zip_with. lia. }
  wp_set.
  wp_attr. wp_attr.
  wp_lift_with (broadcast2_eq andb bo (Np.invert mc)); [by rewrite invert_length|].
  set (tp := zip_with andb bo (Np.invert mc)).
  assert (Htpl : length tp = length bo).
  { unfold tp. rewrite length_zip_with, invert_length. lia. }
  wp_set.
  wp_attr. wp_attr.
  wp_lift_with (broadcast2_eq andb (Np.invert bo) (Np.invert mc));
    [by rewrite !invert_length|].
  set (tn := zip_with andb (Np.invert bo) (Np.invert mc)).
  assert (Htnl : length tn = length bo).
  { unfold tn. rewrite length_zip_with, !invert_length. lia. }
  wp_set.
  wp_self_iv. wp_attr. wp_lift_with (bool_index_eq iv bo Hlen).
  wp_attr. wp_attr.
  wp_lift_with (divide_rate true iv bo thr Htrue).
  wp_set.
  wp_self_iv. wp_attr.
  wp_lift_with (bool_index_eq iv (Np.invert bo)); [by rewrite invert_length|].
  wp_attr. wp_attr.
  wp_lift_with (divide_rate false iv bo thr Hfalse).
  wp_set.
  wp_attr. wp_attr. wp_attr.
  assert (Hsum_tp : Np.sum tp = Z.of_nat (hits true iv bo thr)).
  { rewrite sum_total. unfold tp, mc, fn, fp. by rewrite count_true_positive. }
  assert (Hsum_fp : Np.sum fp = Z.of_nat (hits false iv bo thr)).
  { rewrite sum_total. unfold fp. by rewrite count_false_positive. }
  rewrite Hsum_tp, Hsum_fp. unfold Np.float.
  apply wp_bind, wp_lift. unfold Np.truediv.
  destruct (decide _) as [H0|Hne].
  { apply HZ. rewrite <- Qc_of_nat_add in H0.
    destruct (decide ((hits true iv bo thr + hits false iv bo thr)%nat = 0%nat)); [done|].
    by apply Qc_of_nat_nonzero in H0. }
  assert (Hpos : (hits true iv bo thr + hits false iv bo thr)%nat ≠ 0%nat).
  { intros E. apply Hne. rewrite <- Qc_of_nat_add, E. apply Z2Qc_inj_0. }
  wp_set. wp_attr.
  destruct fc.
  - specialize (Hpairs eq_refl).
    wp_attr. wp_attr. wp_lift_with (bool_index_eq tp bo); [done|]. wp_set.
    wp_attr. wp_attr.
    wp_lift_with (bool_index_eq tn (Np.invert bo)); [by rewrite invert_length|]. wp_set.
    wp_attr. wp_attr. wp_lift_with (bool_index_eq fn bo); [done|]. wp_set.
    wp_attr. wp_attr.
    wp_lift_with (bool_index_eq fp (Np.invert bo)); [by rewrite invert_length|]. wp_set.
    wp_attr. wp_attr.
    wp_lift_with (broadcast2_eq orb (Np.select fp (Np.invert bo)) (Np.select fn bo)).
    { rewrite !select_length by (by rewrite ?invert_length). by rewrite total_invert. }
    apply wp_setattr. apply (HQ Hpos). by split.
  - apply wp_ret. apply (HQ Hpos). by split.
Qed.

End Output.

Section Accuracy.
Variables (binom_test : Z → Z → Qc) (np_sqrt : Qc → Qc).

Lemma wp_calc_accuracy (a : calculate_args) (w : world) (se sp : Qc) (mc : list bool)
    (Q : world → result unit → Prop) :
  sensitivity (self w) = Some se → specificity (self w) = Some sp →
  misclass (self w) = Some mc → mc ≠ [] →
  Q (mkWorld (heap w)
       (set_accuracy
          (if arg_balanced_acc a then (se + sp) / 2
           else 1 - Qc_of_Z (Z.of_nat (total true mc)) / Qc_of_Z (Z.of_nat (length mc)))
          (self w)))
    (Ok tt) →
  wp (calc_accuracy a) w Q.
Proof.
  intros Hse Hsp Hmc Hne HQ. unfold calc_accuracy.
  destruct (arg_balanced_acc a).
  - wp_attr. wp_attr. wp_lift_with (mean_pair se sp). by apply wp_setattr.
  - wp_attr. wp_lift_with (mean_bool_eq mc Hne). by apply wp_setattr.
Qed.

(** The fraction of the entries of [mc] that are false: the observations
    (or pairs) classified correctly. *)
Definition fraction_correct (mc : list bool) : Qc :=
  Qc_of_Z (Z.of_nat (total false mc)) / Qc_of_Z (Z.of_nat (length mc)).

Lemma wp_calc_pvalue (w : world) (mc : list bool) (Q : world → result unit → Prop) :
  misclass (self w) = Some mc → mc ≠ [] →
  Q (mkWorld (heap w)
       (set_accuracy_se
          (np_sqrt (fraction_correct mc * fraction_correct mc
                    / Qc_of_Z (Z.of_nat (length mc))))
          (set_accuracy_p
             (binom_test (Z.of_nat (total false mc)) (Z.of_nat (length mc)))
             (set_n (Z.of_nat (length mc)) (self w)))))
    (Ok tt) →
  wp (calc_pvalue binom_test np_sqrt) w Q.
Proof.
  intros Hmc Hne HQ. unfold calc_pvalue.
  assert (Hinv : Np.invert mc ≠ []) by (by destruct mc).
  assert (Hmean : Np.mean_bool (Np.invert mc) = Ok (fraction_correct mc)).
  { rewrite (mean_bool_eq _ Hinv). unfold fraction_correct.
    by rewrite total_invert, invert_length. }
  wp_attr. wp_set. wp_attr. wp_attr. rewrite sum_invert. wp_set.
  wp_attr. wp_lift_with Hmean. wp_attr. wp_lift_with Hmean. wp_attr.
  apply wp_bind, wp_lift. unfold Np.truediv, Np.float, Np.len.
  destruct (decide _) as [H0|_].
  { apply Qc_of_nat_nonzero in H0; [done|]. by destruct mc. }
  by apply wp_setattr.
Qed.

End Accuracy.

(** What lines 493-518 leave in [self]: the output of [calc_output], the
    accuracy, and the figures of the binomial test. *)
Record stats_done (binom_test : Z → Z → Qc) (np_sqrt : Qc → Qc) (a : calculate_args)
    (fc : bool) (iv : list Qc) (bo : list bool) (thr : Qc) (s' : Roc) : Prop := {
  sd_output : output_done fc iv bo thr s';
  sd_accuracy :
    accuracy s' =
      Some (if arg_balanced_acc a
            then (rate true iv bo thr + (1 - rate false iv bo thr)) / 2
            else 1 - Qc_of_Z (Z.of_nat (total true (misclassified fc iv bo thr)))
                     / Qc_of_Z (Z.of_nat (length (misclassified fc iv bo thr))));
  sd_n : n s' = Some (Z.of_nat (length (misclassified fc iv bo thr)));
  sd_accuracy_p :
    accuracy_p s' =
      Some (binom_test (Z.of_nat (total false (misclassified fc iv bo thr)))
                       (Z.of_nat (length (misclassified fc iv bo thr))));
  sd_accuracy_se :
    accuracy_se s' =
      Some (np_sqrt (fraction_correct (misclassified fc iv bo thr)
                     * fraction_correct (misclassified fc iv bo thr)
                     / Qc_of_Z (Z.of_nat (length (misclassified fc iv bo thr)))))
}.

Lemma wp_conj {S A} (m : St S A) (w : S) (Q1 Q2 : S → result A → Prop) :
  wp m w Q1 → wp m w Q2 → wp m w (fun w' r => Q1 w' r ∧ Q2 w' r).
Proof. unfold wp. auto. Qed.

Section AfterThreshold.
Variables (binom_test : Z → Z → Qc) (np_sqrt : Qc → Qc).
Variables (l : loc) (iv : list Qc) (bo : list bool) (thr : Qc) (fc : bool).
Hypothesis Hlen : length iv = length bo.
Hypothesis Htrue : total true bo ≠ 0%nat.
Hypothesis Hfalse : total false bo ≠ 0%nat.
Hypothesis Hpairs : fc = true → total true bo = total false bo.

Lemma misclassified_length :
  length (misclassified fc iv bo thr) = if fc then total true bo else length bo.
Proof.
  unfold misclassified. destruct fc.
  - rewrite length_zip_with, !select_length, total_invert.
    + simpl. rewrite <- (Hpairs eq_refl). lia.
    + by apply false_negatives_length.
    + rewrite invert_length. by apply false_positives_length.
  - rewrite length_zip_with, false_negatives_length, false_positives_length by done. lia.
Qed.

Lemma misclassified_nonempty : misclassified fc iv bo thr ≠ [].
Proof.
  intros E. pose proof misclassified_length as Hl. rewrite E in Hl. simpl in Hl.
  destruct fc; [lia|]. pose proof (total_split bo). lia.
Qed.

Lemma wp_after_threshold (a : calculate_args) (w : world)
    (Q : world → result unit → Prop) :
  input_values (self w) = Some l → heap w !! l = Some iv →
  binary_outcome (self w) = Some bo → class_thr (self w) = Some thr →
  n_true (self w) = Some (Qc_of_Z (Z.of_nat (total true bo))) →
  n_false (self w) = Some (Qc_of_Z (Z.of_nat (total false bo))) →
  forced_choice (self w) = Some fc →
  ((hits true iv bo thr + hits false iv bo thr)%nat ≠ 0%nat →
   ∀ s', stats_done binom_test np_sqrt a fc iv bo thr s' →
         Q (mkWorld (heap w) s') (Ok tt)) →
  ((hits true iv bo thr + hits false iv bo thr)%nat = 0%nat →
   ∀ s', Q (mkWorld (heap w) s') (Raise ZeroDivisionError)) →
  wp (after_threshold binom_test np_sqrt a) w Q.
Proof.
  intros Hl Hh Hb Ht Hnt Hnf Hfc HQ HZ. unfold after_threshold.
  apply wp_bind.
  eapply (wp_calc_output l iv bo thr fc Hlen Htrue Hfalse Hpairs); try eassumption.
  intros Hpos s' [Hse Hsp Hppv Hmc]. cbn beta iota.
  apply wp_bind.
  eapply (wp_calc_accuracy a _ _ _ _); [exact Hse|exact Hsp|exact Hmc
                                       |apply misclassified_nonempty|].
  cbn beta iota.
  eapply wp_calc_pvalue; [exact Hmc|apply misclassified_nonempty|].
  apply (HQ Hpos). by repeat split.
Qed.

End AfterThreshold.

Section LinspaceBound.

Lemma linspace_le_stop (lo hi x : Qc) (k : nat) :
  lo ≤ hi → x ∈ Np.linspace lo hi k → x ≤ hi.
Proof.
  intros Hle Hx. unfold Np.linspace in Hx. destruct k as [|[|k]].
  - by apply elem_of_nil in Hx.
  - by apply list_elem_of_singleton in Hx as ->.
  - apply list_elem_of_fmap in Hx as (i & -> & Hi).
    apply elem_of_seq in Hi.
    assert (Hd : 0 ≤ hi - lo).
    { apply (Qcplus_le_mono_r _ _ lo). by ring_simplify. }
    assert (Hk : Qc_of_Z (Z.of_nat (S k)) ≠ 0) by (by apply Qc_of_nat_nonzero).
    assert (Hi' : Qc_of_Z (Z.of_nat i) ≤ Qc_of_Z (Z.of_nat (S k))).
    { apply (proj1 (Z2Qc_inj_le _ _)). lia. }
    replace hi with (lo + Qc_of_Z (Z.of_nat (S k)) * ((hi - lo) / Qc_of_Z (Z.of_nat (S k))))
      at 2 by (field; done).
    apply Qcplus_le_mono_l. apply Qcmult_le_mono_nonneg_r; [|done].
    unfold Qcdiv. apply Qcmult_nonneg_nonneg; [done|].
    apply Qcinv_nonneg, Qc_of_nat_nonneg.
Qed.

End LinspaceBound.

Section ThresholdSingle.
Variable norm_ppf : Qc → Qc.

Lemma wp_calc_threshold_single (a : calculate_args) (w : world) (iv : list Qc)
    (bo : list bool) (c : loc) (cv : list Qc) (Q : world → result unit → Prop) :
  forced_choice (self w) = Some false →
  arg_threshold_type a = literal "optimal_overall" ∨ arg_threshold_type a = literal "minimum_sdt_bias" →
  tpr (self w) = Some (map (rate true iv bo) cv) →
  fpr (self w) = Some (map (rate false iv bo) cv) →
  n_true (self w) = Some (Qc_of_Z (Z.of_nat (total true bo))) →
  n_false (self w) = Some (Qc_of_Z (Z.of_nat (total false bo))) →
  criterion_values (self w) = Some c → heap w !! c = Some cv → cv ≠ [] →
  (∀ thr, thr ∈ cv →
          Q (mkWorld (heap w)
               (set_class_thr thr (set_threshold_type (arg_threshold_type a) (self w))))
            (Ok tt)) →
  wp (calc_threshold norm_ppf a) w Q.
Proof.
  intros Hfc [Htt|Htt] Ht Hf Hnt Hnf Hc Hcv Hne HQ; rewrite Htt in HQ.
  - eapply (wp_calc_threshold_overall norm_ppf a w iv bo c cv); try done.
    intros thr Hthr _. by apply HQ.
  - eapply (wp_calc_threshold_sdt norm_ppf a w _ _ c cv); try done;
      by rewrite length_map.
Qed.

End ThresholdSingle.

Section SingleInterval.
Variables (norm_ppf : Qc → Qc) (binom_test : Z → Z → Qc) (np_sqrt : Qc → Qc).

(** A call without forced choice, on the default criterion values and with
    one of the two threshold types that work, runs to its end. *)
Lemma calculate_single_interval_run (a : calculate_args) (w : world) (l : loc)
    (iv : list Qc) (bo : list bool) (fc : bool) :
  call_ok a w l iv bo fc → forced a fc = false →
  arg_criterion_values a = None →
  arg_threshold_type a = literal "optimal_overall" ∨ arg_threshold_type a = literal "minimum_sdt_bias" →
  let r := calculate norm_ppf binom_test np_sqrt a w in
  ∃ thr, r.2 = Ok tt ∧ class_thr (self r.1) = Some thr ∧
         stats_done binom_test np_sqrt a false iv bo thr (self r.1).
Proof.
  intros Hok Hoff Hnone Htt r. subst r. rewrite calculate_unfold.
  match goal with |- context [(?m w).1] =>
    apply (wp_run m w (fun w' r =>
      ∃ thr, r = Ok tt ∧ class_thr (self w') = Some thr ∧
             stats_done binom_test np_sqrt a false iv bo thr (self w')))
  end.
  apply (wp_prefix a w l iv bo fc Hok); [by rewrite Hoff|].
  intros w4 c cv iv' Hrd.
  destruct (default_criterion _ _ _ _ _ _ _ _ _ _ Hok Hrd Hnone)
    as (lo & hi & Hlo & Hhi & Hcv & _).
  pose proof (min_le_max _ _ _ Hlo Hhi) as Hle.
  pose proof (call_ok_bo_nonempty _ _ _ _ _ _ Hok) as Hbo.
  pose proof (default_criterion_auc iv' bo lo hi Hle Hbo) as Hauc.
  cbn zeta in Hauc. rewrite <- Hcv in Hauc.
  assert (Hcvne : cv ≠ []).
  { intros E. pose proof (linspace_length lo hi (50 * length bo)) as Hl.
    rewrite <- Hcv, E in Hl. destruct bo; [done|]. simpl in Hl. lia. }
  destruct Hok, Hrd. rewrite Hoff in *. subst iv'.
  unfold after_rates. apply wp_bind.
  eapply wp_calc_auc_ok; [done|done|exact Hauc|]. cbn beta iota.
  unfold after_auc. apply wp_bind.
  eapply (wp_calc_threshold_single norm_ppf a _ iv bo c cv); try done.
  intros thr Hthr. cbn beta iota.
  assert (Hpos : (hits true iv bo thr + hits false iv bo thr)%nat ≠ 0%nat).
  { apply (hits_some iv bo thr hi ok_length0).
    - by eapply max_in.
    - rewrite Hcv in Hthr. by eapply linspace_le_stop. }
  eapply wp_mono.
  - apply wp_conj.
    + eapply (wp_after_threshold binom_test np_sqrt l iv bo thr false ok_length0
                ok_true0 ok_false0 ltac:(done) a _
                (fun w' r => r = Ok tt ∧
                   stats_done binom_test np_sqrt a false iv bo thr (self w')));
        try done.
    + apply after_threshold_frame.
  - intros w5 r [[-> Hsd] [_ [Hct _]]]. cbn in Hct.
    exists thr. by rewrite Hct.
Qed.

(** X7.  On valid data whose range is a finite float, without forced
    choice, with the default criterion values and the literal
    ['optimal_overall'] or ['minimum_sdt_bias'] for threshold type (the
    interned strings, which is what the [is] tests of lines 480-488
    recognise), [Roc.calculate] returns normally, and at the threshold
    [thr] it chose:
    the sensitivity is the proportion of true outcomes with an input value
    at or above [thr]; the specificity is one minus that proportion among
    the false outcomes; the positive predictive value is the number of true
    positives over the number of positive predictions; the accuracy is the
    mean of sensitivity and specificity when [balanced_acc] is set and
    otherwise the number of true positives and true negatives over the
    number of observations; [self.n] is the number of observations. *)
Theorem calculate_single_interval (a : calculate_args) (w : world) (l : loc)
    (iv : list Qc) (bo : list bool) (fc : bool) :
  call_ok a w l iv bo fc → span_is_finite iv → forced a fc = false →
  arg_criterion_values a = None →
  arg_threshold_type a = literal "optimal_overall" ∨ arg_threshold_type a = literal "minimum_sdt_bias" →
  let r := calculate norm_ppf binom_test np_sqrt a w in
  r.2 = Ok tt ∧
  ∃ thr, class_thr (self r.1) = Some thr ∧
    let tp := Qc_of_Z (Z.of_nat (hits true iv bo thr)) in
    let fp := Qc_of_Z (Z.of_nat (hits false iv bo thr)) in
    let n_true_ := Qc_of_Z (Z.of_nat (total true bo)) in
    let n_false_ := Qc_of_Z (Z.of_nat (total false bo)) in
    sensitivity (self r.1) = Some (tp / n_true_) ∧
    specificity (self r.1) = Some (1 - fp / n_false_) ∧
    ppv (self r.1) = Some (tp / (tp + fp)) ∧
    accuracy (self r.1) =
      Some (if arg_balanced_acc a then (tp / n_true_ + (1 - fp / n_false_)) / 2
            else (tp + (n_false_ - fp)) / Qc_of_Z (Z.of_nat (length bo))) ∧
    n (self r.1) = Some (Z.of_nat (length bo)).
Proof.
  intros Hok _ Hoff Hnone Htt r.
  destruct (calculate_single_interval_run a w l iv bo fc Hok Hoff Hnone Htt)
    as (thr & Hr & Hct & [[Hse Hsp Hppv Hmc] Hacc Hn _ _]).
  fold r in Hr, Hct, Hse, Hsp, Hppv, Hmc, Hacc, Hn.
  split; [done|]. exists thr. cbn zeta.
  destruct Hok.
  rewrite (misclassified_length iv bo thr false ok_length0 ok_true0 ok_false0
             ltac:(done)) in Hn, Hacc.
  repeat split; try done.
  rewrite Hacc. destruct (arg_balanced_acc a); [done|]. f_equal.
  pose proof (count_misclass iv bo thr ok_length0) as Hcount.
  pose proof (total_split bo) as Hsplit.
  unfold misclassified.
  assert (Hn0 : Qc_of_Z (Z.of_nat (length bo)) ≠ 0).
  { apply Qc_of_nat_nonzero. lia. }
  set (m := Qc_of_Z (Z.of_nat (total true (zip_with orb (false_negatives iv bo thr)
                                             (false_positives iv bo thr))))).
  assert (Hm : m + Qc_of_Z (Z.of_nat (hits true iv bo thr))
               = Qc_of_Z (Z.of_nat (total true bo))
                 + Qc_of_Z (Z.of_nat (hits false iv bo thr))).
  { unfold m. rewrite <- !Qc_of_nat_add. by rewrite Hcount. }
  assert (Hs : Qc_of_Z (Z.of_nat (length bo))
               = Qc_of_Z (Z.of_nat (total true bo)) + Qc_of_Z (Z.of_nat (total false bo))).
  { rewrite <- Qc_of_nat_add. by rewrite Hsplit. }
  assert (m = Qc_of_Z (Z.of_nat (total true bo)) + Qc_of_Z (Z.of_nat (hits false iv bo thr))
              - Qc_of_Z (Z.of_nat (hits true iv bo thr))) as ->.
  { rewrite <- Hm. ring. }
  rewrite Hs in *. field. done.
Qed.

End SingleInterval.

Lemma calculate_single_interval_witness :
  (calculate ex_norm_ppf ex_binom_test ex_sqrt default_args ex_world).2 = Ok tt ∧
  ∃ thr, class_thr (self (calculate ex_norm_ppf ex_binom_test ex_sqrt default_args
                            ex_world).1) = Some thr ∧
    let r := calculate ex_norm_ppf ex_binom_test ex_sqrt default_args ex_world in
    let tp := Qc_of_Z (Z.of_nat (hits true ex_iv ex_bo thr)) in
    let fp := Qc_of_Z (Z.of_nat (hits false ex_iv ex_bo thr)) in
    let n_true_ := Qc_of_Z (Z.of_nat (total true ex_bo)) in
    let n_false_ := Qc_of_Z (Z.of_nat (total false ex_bo)) in
    sensitivity (self r.1) = Some (tp / n_true_) ∧
    specificity (self r.1) = Some (1 - fp / n_false_) ∧
    ppv (self r.1) = Some (tp / (tp + fp)) ∧
    accuracy (self r.1) =
      Some (if arg_balanced_acc default_args then (tp / n_true_ + (1 - fp / n_false_)) / 2
            else (tp + (n_false_ - fp)) / Qc_of_Z (Z.of_nat (length ex_bo))) ∧
    n (self r.1) = Some (Z.of_nat (length ex_bo)).
Proof.
  apply (calculate_single_interval ex_norm_ppf ex_binom_test ex_sqrt default_args
           ex_world 0%nat ex_iv ex_bo false).
  - exact (ex_call_ok default_args eq_refl eq_refl eq_refl).
  - exact ex_span_finite.
  - reflexivity.
  - reflexivity.
  - by left.
Defined.

Section AccuracyTest.
Variables (norm_ppf : Qc → Qc) (binom_test : Z → Z → Qc) (np_sqrt : Qc → Qc).

(** X8.  In such a call (valid data whose range is a finite float, no
    forced choice, default criterion values, the literal
    ['optimal_overall'] or ['minimum_sdt_bias'] for threshold type) the
    binomial test is run on the number [k] of correct classifications (true positives plus true negatives) out of the
    number of observations, and [self.accuracy_se] is the square root of
    [p * p / n] for the proportion [p = k / n] of correct classifications;
    both are the same whether or not [balanced_acc] is set. *)
Theorem calculate_accuracy_test (a : calculate_args) (w : world) (l : loc)
    (iv : list Qc) (bo : list bool) (fc : bool) :
  call_ok a w l iv bo fc → span_is_finite iv → forced a fc = false →
  arg_criterion_values a = None →
  arg_threshold_type a = literal "optimal_overall" ∨ arg_threshold_type a = literal "minimum_sdt_bias" →
  let r := calculate norm_ppf binom_test np_sqrt a w in
  ∃ thr, class_thr (self r.1) = Some thr ∧
    let k := (Z.of_nat (hits true iv bo thr)
              + (Z.of_nat (total false bo) - Z.of_nat (hits false iv bo thr)))%Z in
    let n_ := Z.of_nat (length bo) in
    let p := Qc_of_Z k / Qc_of_Z n_ in
    accuracy_p (self r.1) = Some (binom_test k n_) ∧
    accuracy_se (self r.1) = Some (np_sqrt (p * p / Qc_of_Z n_)).
Proof.
  intros Hok _ Hoff Hnone Htt r.
  destruct (calculate_single_interval_run norm_ppf binom_test np_sqrt a w l iv bo fc
              Hok Hoff Hnone Htt)
    as (thr & _ & Hct & [_ _ _ Hp Hse]).
  fold r in Hct, Hp, Hse. exists thr. split; [done|]. cbn zeta.
  destruct Hok.
  unfold fraction_correct in Hse.
  rewrite (misclassified_length iv bo thr false ok_length0 ok_true0 ok_false0
             ltac:(done)) in Hp, Hse.
  pose proof (count_misclass iv bo thr ok_length0) as Hcount.
  pose proof (total_split bo) as Hsplit.
  pose proof (total_split (misclassified false iv bo thr)) as Hmc.
  rewrite (misclassified_length iv bo thr false ok_length0 ok_true0 ok_false0
             ltac:(done)) in Hmc.
  pose proof (hits_le_total false iv bo thr) as Hle.
  assert (Hk : Z.of_nat (total false (misclassified false iv bo thr))
               = (Z.of_nat (hits true iv bo thr)
                  + (Z.of_nat (total false bo) - Z.of_nat (hits false iv bo thr)))%Z).
  { unfold misclassified in *. lia. }
  rewrite Hk in Hp, Hse. done.
Qed.

End AccuracyTest.

Lemma calculate_accuracy_test_witness :
  let r := calculate ex_norm_ppf ex_binom_test ex_sqrt default_args ex_world in
  ∃ thr, class_thr (self r.1) = Some thr ∧
    let k := (Z.of_nat (hits true ex_iv ex_bo thr)
              + (Z.of_nat (total false ex_bo) - Z.of_nat (hits false ex_iv ex_bo thr)))%Z in
    let n_ := Z.of_nat (length ex_bo) in
    let p := Qc_of_Z k / Qc_of_Z n_ in
    accuracy_p (self r.1) = Some (ex_binom_test k n_) ∧
    accuracy_se (self r.1) = Some (ex_sqrt (p * p / Qc_of_Z n_)).
Proof.
  apply (calculate_accuracy_test ex_norm_ppf ex_binom_test ex_sqrt default_args
           ex_world 0%nat ex_iv ex_bo false).
  - exact (ex_call_ok default_args eq_refl eq_refl eq_refl).
  - exact ex_span_finite.
  - reflexivity.
  - reflexivity.
  - by left.
Defined.

(** * Forced choice: what the output says about the pairs *)



Section PairFacts.





End PairFacts.

Section ForcedChoiceOutput.
Variables (iv : list Qc) (bo : list bool).
Hypothesis Hlen : length iv = length bo.
Hypothesis Hpairs : total true bo = total false bo.




End ForcedChoiceOutput.

Section ForcedChoiceAccuracy.
Variables (norm_ppf : Qc → Qc) (binom_test : Z → Z → Qc) (np_sqrt : Qc → Qc).



End ForcedChoiceAccuracy.


(** * A threshold type that [calculate] does not know *)

Section ThresholdUnknown.
Variables (norm_ppf : Qc → Qc) (binom_test : Z → Z → Qc) (np_sqrt : Qc → Qc).

Lemma wp_calc_threshold_unknown (a : calculate_args) (w : world)
    (Q : world → result unit → Prop) :
  forced_choice (self w) = Some false →
  py_is (arg_threshold_type a) "optimal_balanced" = false →
  py_is (arg_threshold_type a) "optimal_overall" = false →
  py_is (arg_threshold_type a) "minimum_sdt_bias" = false →
  Q (mkWorld (heap w) (set_threshold_type (arg_threshold_type a) (self w))) (Ok tt) →
  wp (calc_threshold norm_ppf a) w Q.
Proof.
  intros Hfc H1 H2 H3 HQ. unfold calc_threshold. cbv zeta.
  wp_attr. cbn [negb]. wp_set.
  rewrite H1, H2, H3. by apply wp_ret.
Qed.

Lemma wp_after_threshold_no_threshold (a : calculate_args) (w : world) (l : loc)
    (iv : list Qc) :
  input_values (self w) = Some l → heap w !! l = Some iv →
  class_thr (self w) = None →
  wp (after_threshold binom_test np_sqrt a) w
     (fun _ r => r = Raise (AttributeError "class_thr")).
Proof.
  intros Hl Hh Hct. unfold after_threshold, calc_output, self_input_values.
  apply wp_bind. wp_self_iv.
  apply wp_bind. by apply wp_attr_none.
Qed.

(** X10.  [Roc.calculate] does not check its own [threshold_type]
    argument.  Without forced choice, a value that is none of the three
    known literals (another name, or a string with the characters of one of
    them that is not the interned object) is stored in
    [self.threshold_type] and no threshold is chosen:
    [self.class_thr] stays what it was, so the output is computed at the
    threshold of an earlier call, and on an object that never had one the
    call ends in an [AttributeError] for [class_thr]. *)
Theorem calculate_unknown_threshold_type (a : calculate_args) (w : world) (l : loc)
    (iv : list Qc) (bo : list bool) (fc : bool) :
  call_ok a w l iv bo fc →
  criterion_accepted a w iv bo →
  forced a fc = false →
  py_is (arg_threshold_type a) "optimal_balanced" = false →
  py_is (arg_threshold_type a) "optimal_overall" = false →
  py_is (arg_threshold_type a) "minimum_sdt_bias" = false →
  let r := calculate norm_ppf binom_test np_sqrt a w in
  threshold_type (self r.1) = Some (arg_threshold_type a) ∧
  class_thr (self r.1) = class_thr (self w) ∧
  (class_thr (self w) = None → r.2 = Raise (AttributeError "class_thr")).
Proof.
  intros Hok Hacc Hoff H1 H2 H3 r. subst r. rewrite calculate_unfold.
  match goal with |- context [(?m w).1] =>
    apply (wp_run m w (fun w' r =>
      threshold_type (self w') = Some (arg_threshold_type a) ∧
      class_thr (self w') = class_thr (self w) ∧
      (class_thr (self w) = None → r = Raise (AttributeError "class_thr"))))
  end.
  apply (wp_prefix a w l iv bo fc Hok); [by rewrite Hoff|].
  intros w4 c cv iv' Hrd.
  destruct (auc_defined _ _ _ _ _ _ _ _ _ _ Hok Hrd Hacc (or_intror Hoff)) as [area Hauc].
  destruct Hrd. rewrite Hoff in *. subst iv'.
  unfold after_rates. apply wp_bind.
  eapply wp_calc_auc_ok; [done|done|exact Hauc|]. cbn beta iota.
  unfold after_auc. apply wp_bind.
  apply wp_calc_threshold_unknown; try done. cbn beta iota.
  eapply wp_mono.
  - match goal with |- wp _ ?w6 _ =>
      apply (wp_conj _ _ (fun w' _ => same_thr w6 w')
               (fun _ r' => class_thr (self w) = None
                            → r' = Raise (AttributeError "class_thr")))
    end.
    + apply after_threshold_frame.
    + destruct (class_thr (self w)) as [thr0|] eqn:Hct.
      * unfold wp. intros [=].
      * eapply wp_mono;
          [apply (wp_after_threshold_no_threshold a _ l iv); [done|done|by cbn]|].
        intros w' r' Hr' _. exact Hr'.
  - intros w5 r [[_ [Hct5 Htt5]] Hr]. cbn in Hct5, Htt5. cbn beta in Hr.
    rewrite Hct5, Htt5, rd_class_thr0. by repeat split.
Qed.

End ThresholdUnknown.

Definition ex_unknown_args : calculate_args :=
  mkArgs None None None (literal "optimal") false false.

Lemma calculate_unknown_threshold_type_witness :
  let r := calculate ex_norm_ppf ex_binom_test ex_sqrt ex_unknown_args ex_world in
  threshold_type (self r.1) = Some (arg_threshold_type ex_unknown_args) ∧
  class_thr (self r.1) = class_thr (self ex_world) ∧
  (class_thr (self ex_world) = None → r.2 = Raise (AttributeError "class_thr")).
Proof.
  apply (calculate_unknown_threshold_type ex_norm_ppf ex_binom_test ex_sqrt
           ex_unknown_args ex_world 0%nat ex_iv ex_bo false).
  - exact (ex_call_ok ex_unknown_args eq_refl eq_refl eq_refl).
  - exact I.
  - reflexivity.
  - reflexivity.
  - reflexivity.
  - reflexivity.
Defined.

(** * Criterion values above every score *)

Section CriterionAbove.
Variables (norm_ppf : Qc → Qc) (binom_test : Z → Z → Qc) (np_sqrt : Qc → Qc).

Lemma hits_none (flag : bool) (iv : list Qc) (bo : list bool) (x : Qc) :
  (∀ v, v ∈ iv → v < x) → hits flag iv bo x = 0%nat.
Proof.
  revert bo. induction iv as [|v iv IH]; intros [|b bo] Hall;
    rewrite ?hits_nil_l, ?hits_nil_r; try done.
  rewrite hits_cons_bool, IH by (intros; apply Hall; by right).
  rewrite bool_decide_eq_false_2; [by rewrite andb_false_r|].
  apply Qclt_not_le, Hall. by left.
Qed.

Lemma nonincreasing_constant (f : Qc → Qc) (y : Qc) (xs : list Qc) :
  (∀ x, x ∈ xs → f x = y) → nonincreasing (map f xs).
Proof.
  induction xs as [|x0 xs IH]; [done|]. destruct xs as [|x1 xs]; [done|].
  intros Hall. split.
  - rewrite (Hall x0), (Hall x1) by (repeat constructor). apply Qcle_refl.
  - apply IH. intros x Hx. apply Hall. by right.
Qed.

(** X11.  When the caller's criterion values all lie above every input
    value, and the threshold type is the literal ['optimal_overall'] or
    ['minimum_sdt_bias'] (the interned string that the [is] tests
    recognise), no observation is predicted positive at the threshold that
    [Roc.calculate] picks among them, and the call ends in a
    [ZeroDivisionError] at the positive predictive value (line 501). *)
Theorem calculate_criterion_above_scores (a : calculate_args) (w : world) (l : loc)
    (iv : list Qc) (bo : list bool) (fc : bool) (c0 : loc) (cv : list Qc) :
  call_ok a w l iv bo fc → forced a fc = false →
  arg_criterion_values a = Some c0 → heap w !! c0 = Some cv →
  (2 ≤ length cv)%nat →
  (∀ x v, x ∈ cv → v ∈ iv → v < x) →
  arg_threshold_type a = literal "optimal_overall" ∨ arg_threshold_type a = literal "minimum_sdt_bias" →
  (calculate norm_ppf binom_test np_sqrt a w).2 = Raise ZeroDivisionError.
Proof.
  intros Hok Hoff Harg Hcv0 Hlen2 Habove Htt. rewrite calculate_unfold.
  match goal with |- context [(?m w).2] =>
    apply (wp_run m w (fun w' r => r = Raise ZeroDivisionError))
  end.
  apply (wp_prefix a w l iv bo fc Hok); [by rewrite Hoff|].
  intros w4 c cv' iv' Hrd.
  destruct Hok, Hrd. rewrite Hoff in *. subst iv'.
  destruct rd_heap0 as (h2 & cv1 & Hsrc & Hh).
  unfold criterion_source in Hsrc. rewrite Harg in Hsrc.
  destruct Hsrc as (-> & -> & Hc0).
  assert (cv' = cv) as -> by (rewrite Hh in rd_criterion0; congruence).
  assert (Hauc : Sklearn.auc (map (rate false iv bo) cv) (map (rate true iv bo) cv)
                 = Ok (trapezoid_area (zip (map (rate false iv bo) cv)
                                           (map (rate true iv bo) cv)))).
  { apply auc_nonincreasing.
    - by rewrite !length_map.
    - by rewrite length_map.
    - apply (nonincreasing_constant _ (Qc_of_Z (Z.of_nat 0)
                                       / Qc_of_Z (Z.of_nat (total false bo)))).
      intros x Hx. unfold rate. rewrite hits_none; [done|].
      intros v Hv. by apply Habove. }
  unfold after_rates. apply wp_bind.
  eapply wp_calc_auc_ok; [done|done|exact Hauc|]. cbn beta iota.
  unfold after_auc. apply wp_bind.
  eapply (wp_calc_threshold_single norm_ppf a _ iv bo c0 cv); try done.
  { intros ->. simpl in Hlen2. lia. }
  intros thr Hthr. cbn beta iota.
  assert (Hz : (hits true iv bo thr + hits false iv bo thr)%nat = 0%nat).
  { rewrite !hits_none; [done|intros v Hv; by apply Habove..]. }
  eapply (wp_after_threshold binom_test np_sqrt l iv bo thr false ok_length0
            ok_true0 ok_false0 ltac:(done) a _); try done.
Qed.

End CriterionAbove.

(** The scores of [ex_world] and, in a second array, two criterion values
    above all of them. *)
Definition ex_world_above : world :=
  (construct [ex_iv; [q 4; q 5]] 0%nat ex_bo (literal "optimal_overall") false).1.
Definition ex_above_args : calculate_args :=
  mkArgs None None (Some 1%nat) (literal "optimal_overall") false false.

Lemma calculate_criterion_above_scores_witness :
  (calculate ex_norm_ppf ex_binom_test ex_sqrt ex_above_args ex_world_above).2
  = Raise ZeroDivisionError.
Proof.
  apply (calculate_criterion_above_scores ex_norm_ppf ex_binom_test ex_sqrt ex_above_args
           ex_world_above 0%nat ex_iv ex_bo false 1%nat [q 4; q 5]).
  - split; try reflexivity.
    + vm_compute. discriminate.
    + vm_compute. discriminate.
    + intros c1 [= <-]. by eexists.
  - reflexivity.
  - reflexivity.
  - reflexivity.
  - simpl. lia.
  - intros x v Hx Hv.
    assert (Hxs : Forall (fun x => Forall (fun v => v < x) ex_iv) [q 4; q 5]).
    { repeat constructor. }
    rewrite Forall_forall in Hxs. specialize (Hxs x Hx).
    rewrite Forall_forall in Hxs. by apply Hxs.
  - by left.
Defined.

(** * Forced choice and the default criterion values *)

Section CriterionBeforeForcedChoice.
Variables (norm_ppf : Qc → Qc) (binom_test : Z → Z → Qc) (np_sqrt : Qc → Qc).

Lemma fold_qmin_in (a : list Qc) (x : Qc) : fold_left Np.qmin a x ∈ x :: a.
Proof.
  revert x. induction a as [|y a IH]; intros x; simpl; [by left|].
  specialize (IH (Np.qmin x y)).
  apply elem_of_cons in IH as [->|IH].
  - unfold Np.qmin. case_decide; [right; by left|by left].
  - right. by right.
Qed.

Lemma min_in (iv : list Qc) (lo : Qc) : Np.min iv = Ok lo → lo ∈ iv.
Proof.
  destruct iv as [|x a]; [done|]. simpl. intros [= <-]. apply fold_qmin_in.
Qed.

Lemma linspace_ge_start (lo hi x : Qc) (k : nat) :
  lo ≤ hi → x ∈ Np.linspace lo hi k → lo ≤ x.
Proof.
  intros Hle Hx. unfold Np.linspace in Hx. destruct k as [|[|k]].
  - by apply elem_of_nil in Hx.
  - apply list_elem_of_singleton in Hx as ->. apply Qcle_refl.
  - apply list_elem_of_fmap in Hx as (i & -> & _).
    rewrite <- (Qcplus_0_r lo) at 1. apply Qcplus_le_mono_l.
    apply Qcmult_nonneg_nonneg; [apply Qc_of_nat_nonneg|].
    unfold Qcdiv. apply Qcmult_nonneg_nonneg.
    + apply (Qcplus_le_mono_r _ _ lo). replace (hi - lo + lo) with hi by ring.
      by rewrite Qcplus_0_l.
    + apply Qcinv_nonneg, Qc_of_nat_nonneg.
Qed.

Lemma ge_zeros_above (s : list Qc) (x : Qc) :
  0 < x → total true (Np.ge (map (fun _ => 0) s) x) = 0%nat.
Proof.
  intros Hx. induction s as [|y s IH]; [done|].
  cbn [map]. rewrite total_ge_cons, IH.
  rewrite bool_decide_eq_false_2; [done|]. by apply Qclt_not_le.
Qed.

Lemma trapezoid_area_flat (pts : list (Qc * Qc)) :
  (∀ p, p ∈ pts → p.2 = 0) → trapezoid_area pts = 0.
Proof.
  induction pts as [|p0 pts IH]; [done|]. destruct pts as [|p1 pts]; [done|].
  intros Hall. rewrite trapezoid_area_cons2, IH by (intros p Hp; apply Hall; by right).
  rewrite (Hall p0), (Hall p1) by (repeat constructor).
  unfold Qcdiv. ring.
Qed.

(** X12.  The default criterion values are laid out between the least and
    the greatest score before the forced-choice transformation changes
    the scores, and the rates are computed afterwards.  So on a first
    forced-choice call on paired data whose scores are all positive, every
    criterion value is positive while every score with a true outcome has
    become 0: the true positive rate is 0 at every criterion value and the
    area under the curve is 0, whatever the data. *)
Theorem calculate_forced_choice_positive_scores (a : calculate_args) (w : world)
    (l : loc) (iv : list Qc) (bo : list bool) (fc : bool) :
  call_ok a w l iv bo fc → forced a fc = true →
  total true bo = total false bo →
  arg_criterion_values a = None →
  (∀ v, v ∈ iv → 0 < v) →
  let w' := (calculate norm_ppf binom_test np_sqrt a w).1 in
  ∃ c cv, criterion_values (self w') = Some c ∧ heap w' !! c = Some cv ∧
          length cv = (50 * length bo)%nat ∧
          tpr (self w') = Some (map (fun _ => 0) cv) ∧
          auc (self w') = Some 0.
Proof.
  intros Hok Hon Hpairs Hnone Hpos w'. subst w'. rewrite calculate_unfold.
  match goal with |- context [(?m w).1] => pattern ((m w).1) end.
  apply wp_state. apply (wp_prefix a w l iv bo fc Hok); [done|].
  intros w4 c cv iv' Hrd.
  destruct (default_criterion _ _ _ _ _ _ _ _ _ _ Hok Hrd Hnone)
    as (lo & hi & Hlo & Hhi & Hcv & _).
  pose proof (min_le_max _ _ _ Hlo Hhi) as Hle.
  pose proof (call_ok_bo_nonempty _ _ _ _ _ _ Hok) as Hbo.
  pose proof (default_criterion_auc iv' bo lo hi Hle Hbo) as Hauc.
  cbn zeta in Hauc. rewrite <- Hcv in Hauc.
  destruct Hok, Hrd. rewrite Hon in *. subst iv'.
  assert (Ht0 : map (rate true (forced_choice_scores iv bo) bo) cv
                = map (fun _ => 0) cv).
  { apply map_ext_in. intros x Hx. apply list_elem_of_In in Hx.
    assert (H0x : 0 < x).
    { eapply Qclt_le_trans; [apply (Hpos lo); by eapply min_in|].
      rewrite Hcv in Hx. by eapply linspace_ge_start. }
    unfold rate.
    rewrite <- (total_ge_select true), (forced_choice_scores_true iv bo ok_length0).
    rewrite (ge_zeros_above _ x H0x).
    change (Z.of_nat 0) with 0%Z. rewrite Z2Qc_inj_0. unfold Qcdiv. ring. }
  rewrite Ht0 in *.
  assert (Harea : trapezoid_area
                    (zip (map (rate false (forced_choice_scores iv bo) bo) cv)
                         (map (fun _ : Qc => 0) cv)) = 0).
  { apply trapezoid_area_flat. intros [x y] Hp.
    apply elem_of_zip_r in Hp. by apply list_elem_of_fmap in Hp as (? & -> & _). }
  rewrite Harea in Hauc.
  unfold after_rates. apply wp_bind.
  eapply wp_calc_auc_ok; [done|done|exact Hauc|]. cbn beta iota.
  eapply wp_mono; [apply after_auc_frame|].
  intros w5 r [[(Hh & _ & _ & Hc & _) (Ht & _)] Ha]. cbn in Hh, Hc, Ht, Ha.
  exists c, cv. rewrite Hh, Hc, Ht, Ha. repeat split; try done.
  by rewrite Hcv, linspace_length.
Qed.

End CriterionBeforeForcedChoice.

(** Two pairs of positive scores. *)
Definition ex_iv_pos : list Qc := [q 4; q 3; q 2; q 1].
Definition ex_world_pos : world :=
  (construct [ex_iv_pos] 0%nat ex_bo_fc (literal "optimal_overall") true).1.

Lemma calculate_forced_choice_positive_scores_witness :
  let w' := (calculate ex_norm_ppf ex_binom_test ex_sqrt default_args ex_world_pos).1 in
  ∃ c cv, criterion_values (self w') = Some c ∧ heap w' !! c = Some cv ∧
          length cv = (50 * length ex_bo_fc)%nat ∧
          tpr (self w') = Some (map (fun _ => 0) cv) ∧
          auc (self w') = Some 0.
Proof.
  apply (calculate_forced_choice_positive_scores ex_norm_ppf ex_binom_test ex_sqrt
           default_args ex_world_pos 0%nat ex_iv_pos ex_bo_fc true).
  - split; try reflexivity.
    + vm_compute. discriminate.
    + vm_compute. discriminate.
    + intros c0 [=].
  - reflexivity.
  - reflexivity.
  - reflexivity.
  - intros v Hv.
    assert (Hall : Forall (fun v => 0 < v) ex_iv_pos) by (repeat constructor).
    rewrite Forall_forall in Hall. by apply Hall.
Defined.

(** * [apply_mask] *)

Section MatrixFacts.

Lemma map_nth_seq_id (wv : list Qc) :
  map (fun j => nth j wv 0) (seq 0 (length wv)) = wv.
Proof.
  induction wv as [|x wv IH]; [done|].
  cbn [length seq map nth]. f_equal.
  rewrite <- seq_shift, map_map. exact IH.
Qed.

(** The only column of the transpose of a one-row matrix is that row. *)
Lemma column_transpose_row (w : matrix) (wv : list Qc) :
  cells w = [wv] → cols w = length wv → column 0 (transpose w) = wv.
Proof.
  destruct w as [rw cw cs]. cbn [cells cols]. intros -> ->.
  unfold column, transpose. cbn [cells cols].
  rewrite map_map. cbn [map nth]. apply map_nth_seq_id.
Qed.

(** The product of a matrix with the transpose of a one-row matrix: one
    inner product per row. *)
Lemma dot_transpose_row (d w : matrix) (wv : list Qc) :
  cells w = [wv] → rows w = 1%nat → cols w = length wv → cols d = length wv →
  dot d (transpose w)
  = Ok (mkMatrix (rows d) 1 (map (fun r => [inner r wv]) (cells d))).
Proof.
  intros Hc Hr Hn Hd. unfold dot.
  change (rows (transpose w)) with (cols w). change (cols (transpose w)) with (rows w).
  rewrite Hd, Hn, Nat.eqb_refl, Hr. cbn [negb seq map].
  by rewrite (column_transpose_row w wv Hc Hn).
Qed.

End MatrixFacts.

(** The pattern expression of the images in the rows of [d] against the
    weights [wv]: one dot product per image, and for a single image a bare
    number rather than a vector of length one. *)
Definition pattern_expression (d : matrix) (wv : list Qc) : ndarray :=
  match rows d with
  | 1%nat => Scalar (inner (nth 0 (cells d) []) wv)
  | _ => Vector (map (fun r => inner r wv) (cells d))
  end.

Lemma squeeze_inner_products (d : matrix) (wv : list Qc) :
  squeeze (mkMatrix (rows d) 1 (map (fun r => [inner r wv]) (cells d)))
  = pattern_expression d wv.
Proof.
  unfold squeeze, pattern_expression. cbn [rows cols cells].
  destruct (rows d) as [|[|k]].
  - unfold column. cbn [cells]. by rewrite map_map.
  - destruct (cells d) as [|r rs]; [done|]. done.
  - unfold column. cbn [cells]. by rewrite map_map.
Qed.

Section ApplyMaskFacts.
Variables (image files : Type).
Variable fit_transform : image → image → result matrix.
Variable load_default_mask : result image.
Variable np_savetxt : string → ndarray → St files unit.
Variable np_sqrt : Qc → Qc.

(** The mask image that [apply_mask] hands to the masker. *)
Definition mask_used (mask : pyobj image) (m : image) : Prop :=
  mask = Nifti1Image m ∨ (mask = PyNone ∧ load_default_mask = Ok m).

(** The run of [apply_mask] with the literal ['dot_product']. *)
Lemma apply_mask_dot_product_run (d wm m : image) (mask : pyobj image)
    (dm w : matrix) (wv : list Qc) (save_output : bool) (output_dir : string)
    (fs : files) :
  mask_used mask m →
  fit_transform m d = Ok dm → fit_transform m wm = Ok w →
  cells w = [wv] → rows w = 1%nat → cols w = length wv → cols dm = length wv →
  apply_mask image files fit_transform load_default_mask np_savetxt np_sqrt
    (Nifti1Image d) (Nifti1Image wm) mask (literal "dot_product") save_output
    output_dir fs
  = if save_output
    then let r := np_savetxt (path_join output_dir "Pattern_Expression_dot_product.csv")
                             (pattern_expression dm wv) fs in
         (r.1, match r.2 with
               | Ok _ => Ok (pattern_expression dm wv)
               | Raise e => Raise e
               end)
    else (fs, Ok (pattern_expression dm wv)).
Proof.
  intros Hmask Hd Hw Hc Hr Hn Hdn.
  pose proof (dot_transpose_row dm w wv Hc Hr Hn Hdn) as Hdot.
  pose proof (squeeze_inner_products dm wv) as Hsq.
  unfold apply_mask.
  destruct Hmask as [->|[-> Hload]]; rewrite ?Hload;
    unfold mbind, mret, St_bind, St_ret, bind, ret, lift; cbn;
    rewrite Hd; cbn; rewrite Hw; cbn; rewrite Hdot; cbn; rewrite Hsq;
    destruct save_output; cbn; try done;
    by destruct (np_savetxt _ _ fs) as [fs' [[]|e]].
Qed.

(** X13.  Given images for the data and the weight map, and a mask image
    (or none, and then the mask shipped with the package), when the masker
    turns the data into a matrix with one row per image and the weight map
    into a single row with as many voxels, [apply_mask] with the literal
    ['dot_product'] for method (the interned string, which is what
    [method is 'dot_product'] tests) computes the dot product of every masked image with
    the masked weight map: a vector with one entry per image, but a bare
    number when there is a single image.  With [save_output] it hands that
    value to [np.savetxt] under the name
    [Pattern_Expression_dot_product.csv] in [output_dir], and returns it
    when the writing succeeds; without, it touches no file. *)
Theorem apply_mask_dot_product (d wm m : image) (mask : pyobj image)
    (dm w : matrix) (wv : list Qc) (save_output : bool) (output_dir : string)
    (fs : files) :
  mask_used mask m →
  fit_transform m d = Ok dm → fit_transform m wm = Ok w →
  cells w = [wv] → rows w = 1%nat → cols w = length wv → cols dm = length wv →
  apply_mask image files fit_transform load_default_mask np_savetxt np_sqrt
    (Nifti1Image d) (Nifti1Image wm) mask (literal "dot_product") save_output
    output_dir fs
  = if save_output
    then let r := np_savetxt (path_join output_dir "Pattern_Expression_dot_product.csv")
                             (pattern_expression dm wv) fs in
         (r.1, match r.2 with
               | Ok _ => Ok (pattern_expression dm wv)
               | Raise e => Raise e
               end)
    else (fs, Ok (pattern_expression dm wv)).
Proof. apply apply_mask_dot_product_run. Qed.

(** With a method that neither [is] test recognises, [pexp] is never
    assigned. *)
Lemma apply_mask_no_value (data weight_map mask : pyobj image)
    (method : pystr) (save_output : bool) (output_dir : string) (fs : files) :
  py_is method "dot_product" = false → py_is method "correlation" = false →
  let r := apply_mask image files fit_transform load_default_mask np_savetxt np_sqrt
             data weight_map mask method save_output output_dir fs in
  r.1 = fs ∧ is_ok r.2 = false ∧
  ∀ d wm m dm w,
    data = Nifti1Image d → weight_map = Nifti1Image wm → mask_used mask m →
    fit_transform m d = Ok dm → fit_transform m wm = Ok w →
    r.2 = Raise (UnboundLocalError "pexp").
Proof.
  intros H1 H2 r. subst r.
  unfold apply_mask. rewrite H1, H2.
  unfold mbind, mret, St_bind, St_ret, bind, ret, lift, raise.
  split; [|split].
  - destruct mask as [|m|]; cbn; [destruct load_default_mask as [m|e]; cbn| |];
      try done;
      (destruct data as [|d|]; cbn; try done;
       destruct (fit_transform m d) as [dm|e]; cbn; try done;
       destruct weight_map as [|wm|]; cbn; try done;
       destruct (fit_transform m wm) as [w|e]; cbn; try done;
       by destruct save_output).
  - destruct mask as [|m|]; cbn; [destruct load_default_mask as [m|e]; cbn| |];
      try done;
      (destruct data as [|d|]; cbn; try done;
       destruct (fit_transform m d) as [dm|e]; cbn; try done;
       destruct weight_map as [|wm|]; cbn; try done;
       destruct (fit_transform m wm) as [w|e]; cbn; try done;
       by destruct save_output).
  - intros d wm m dm w -> -> Hmask Hd Hw.
    destruct Hmask as [->|[-> Hload]]; rewrite ?Hload; cbn;
      rewrite Hd; cbn; rewrite Hw; cbn; by destruct save_output.
Qed.

(** X14.  [apply_mask] does not check [method].  With a value that is
    neither of the literals ['dot_product'] and ['correlation'] (another
    name, or a string with their characters that is not the interned
    object) it never returns a value and never
    writes a file, whatever its other arguments; and when the arguments are
    otherwise in order (images, and a masker that accepts them) it ends in
    an [UnboundLocalError] for [pexp], after both images have been masked. *)
Theorem apply_mask_unknown_method (data weight_map mask : pyobj image)
    (method : pystr) (save_output : bool) (output_dir : string) (fs : files) :
  py_is method "dot_product" = false → py_is method "correlation" = false →
  let r := apply_mask image files fit_transform load_default_mask np_savetxt np_sqrt
             data weight_map mask method save_output output_dir fs in
  r.1 = fs ∧ is_ok r.2 = false ∧
  ∀ d wm m dm w,
    data = Nifti1Image d → weight_map = Nifti1Image wm → mask_used mask m →
    fit_transform m d = Ok dm → fit_transform m wm = Ok w →
    r.2 = Raise (UnboundLocalError "pexp").
Proof. apply apply_mask_no_value. Qed.

(** What lines 385-389 do with the pattern expression [p] computed for the
    method named [name]: with [save_output] it is written under
    [Pattern_Expression_<name>.csv] in [output_dir] and returned when the
    writing succeeds; without, it is returned and no file is touched. *)
Definition deliver (save_output : bool) (output_dir name : string) (p : ndarray)
    (fs : files) : files * result ndarray :=
  if save_output
  then let r := np_savetxt (path_join output_dir ("Pattern_Expression_" ++ name ++ ".csv"))
                           p fs in
       (r.1, match r.2 with Ok _ => Ok p | Raise e => Raise e end)
  else (fs, Ok p).

Lemma mapM_Forall2 {A B} (f : A → result B) (xs : list A) (ys : list B) :
  Forall2 (fun x y => f x = Ok y) xs ys → mapM f xs = Ok ys.
Proof.
  induction 1 as [|x y xs ys Hxy _ IH]; [done|].
  cbn [mapM]. rewrite Hxy. cbn. by rewrite IH.
Qed.

(** The run of [apply_mask] with the literal ['correlation']. *)
Lemma apply_mask_correlation_run (d wm m : image) (mask : pyobj image)
    (dm w : matrix) (wv v : list Qc) (save_output : bool) (output_dir : string)
    (fs : files) :
  mask_used mask m →
  fit_transform m d = Ok dm → fit_transform m wm = Ok w →
  cells w = [wv] →
  Forall2 (fun r c => pearson_r np_sqrt r wv = Ok c) (cells dm) v →
  apply_mask image files fit_transform load_default_mask np_savetxt np_sqrt
    (Nifti1Image d) (Nifti1Image wm) mask (literal "correlation") save_output
    output_dir fs
  = deliver save_output output_dir "correlation" (Vector v) fs.
Proof.
  intros Hmask Hd Hw Hc Hv. apply mapM_Forall2 in Hv.
  unfold apply_mask, deliver.
  destruct Hmask as [->|[-> Hload]]; rewrite ?Hload;
    unfold mbind, mret, St_bind, St_ret, bind, ret, lift; cbn;
    rewrite Hd; cbn; rewrite Hw; cbn; unfold pearson; rewrite Hc;
    unfold mbind, mret; cbn; rewrite Hv; cbn;
    destruct save_output; cbn; try done;
    by destruct (np_savetxt _ _ fs) as [fs' [[]|e]].
Qed.

(** C7 (the code departs from it).  For a data image and a weight map
    that the masker flattens to rows of the same length, the weight map to
    a single row, [apply_mask] called with the literal ['dot_product']
    returns the dot product of every masked image with the masked weight
    map, and called with the literal ['correlation'] the Pearson
    correlation of every masked image with the masked weight map.  But the
    method is recognised with [is]: a string with the same characters that
    is not the interned object (one assembled or read at run time) is
    recognised by neither test, [pexp] is never assigned and the call ends
    in an [UnboundLocalError], whether or not the output is to be saved. *)
Theorem apply_mask_methods (d wm m : image) (mask : pyobj image)
    (dm w : matrix) (wv : list Qc) (save_output : bool) (output_dir : string)
    (fs : files) :
  mask_used mask m →
  fit_transform m d = Ok dm → fit_transform m wm = Ok w →
  cells w = [wv] → rows w = 1%nat → cols w = length wv → cols dm = length wv →
  let run method :=
    apply_mask image files fit_transform load_default_mask np_savetxt np_sqrt
      (Nifti1Image d) (Nifti1Image wm) mask method save_output output_dir fs in
  run (literal "dot_product")
    = deliver save_output output_dir "dot_product" (pattern_expression dm wv) fs ∧
  (∀ v, Forall2 (fun r c => pearson_r np_sqrt r wv = Ok c) (cells dm) v →
        run (literal "correlation")
        = deliver save_output output_dir "correlation" (Vector v) fs) ∧
  (∀ name, run (PyString name false) = (fs, Raise (UnboundLocalError "pexp"))).
Proof.
  intros Hmask Hd Hw Hc Hr Hn Hdn run. subst run. cbn beta. split; [|split].
  - rewrite (apply_mask_dot_product_run d wm m mask dm w wv save_output output_dir fs);
      done.
  - intros v Hv. by eapply apply_mask_correlation_run.
  - intros name.
    destruct (apply_mask_no_value (Nifti1Image d) (Nifti1Image wm) mask
                (PyString name false) save_output output_dir fs eq_refl eq_refl)
      as (Hfs & _ & Hraise).
    apply injective_projections; [exact Hfs|]. by eapply Hraise.
Qed.

(** C9.  [apply_mask] returns a value only when [method] spells
    ['dot_product'] or ['correlation'].  With any other method string
    [pexp] is never assigned: the call returns no value and writes no
    file, whatever its other arguments, and when the arguments are
    otherwise in order it ends in an [UnboundLocalError] for [pexp]. *)
Theorem apply_mask_value_only_for_known_methods (data weight_map mask : pyobj image)
    (method : pystr) (save_output : bool) (output_dir : string) (fs : files) :
  let r := apply_mask image files fit_transform load_default_mask np_savetxt np_sqrt
             data weight_map mask method save_output output_dir fs in
  (is_ok r.2 = true → chars method = "dot_product" ∨ chars method = "correlation") ∧
  (chars method ≠ "dot_product" → chars method ≠ "correlation" →
   r.1 = fs ∧ is_ok r.2 = false ∧
   ∀ d wm m dm w,
     data = Nifti1Image d → weight_map = Nifti1Image wm → mask_used mask m →
     fit_transform m d = Ok dm → fit_transform m wm = Ok w →
     r.2 = Raise (UnboundLocalError "pexp")).
Proof.
  intros r. subst r. split.
  - intros Hok.
    destruct (py_is method "dot_product") eqn:H1.
    { left. unfold py_is in H1. apply andb_true_iff in H1 as [_ H1].
      by apply String.eqb_eq. }
    destruct (py_is method "correlation") eqn:H2.
    { right. unfold py_is in H2. apply andb_true_iff in H2 as [_ H2].
      by apply String.eqb_eq. }
    destruct (apply_mask_no_value data weight_map mask method save_output output_dir fs
                H1 H2) as (_ & Hno & _).
    cbv zeta in Hno. congruence.
  - intros H1 H2. apply apply_mask_no_value; unfold py_is; apply andb_false_iff; right;
      by apply String.eqb_neq.
Qed.

End ApplyMaskFacts.

(** A concrete setting for [apply_mask]: images are their own masked
    matrices, and the files written are kept in a list. *)
Definition ex_fit_transform (m img : matrix) : result matrix := Ok img.
Definition ex_savetxt (path : string) (p : ndarray)
  : St (list (string * ndarray)) unit :=
  fun fs => (fs ++ [(path, p)], Ok tt).
Definition ex_data : matrix := mkMatrix 2 2 [[q 1; q 2]; [q 3; q 4]].
Definition ex_weights : matrix := mkMatrix 1 2 [[q 1; q 1]].
Definition ex_mask : matrix := mkMatrix 1 2 [[q 1; q 1]].

Lemma apply_mask_dot_product_witness :
  apply_mask matrix (list (string * ndarray)) ex_fit_transform (Ok ex_mask) ex_savetxt
    ex_sqrt (Nifti1Image ex_data) (Nifti1Image ex_weights) PyNone
    (literal "dot_product") true "out" []
  = let r := ex_savetxt (path_join "out" "Pattern_Expression_dot_product.csv")
                        (pattern_expression ex_data [q 1; q 1]) [] in
    (r.1, match r.2 with
          | Ok _ => Ok (pattern_expression ex_data [q 1; q 1])
          | Raise e => Raise e
          end).
Proof.
  apply (apply_mask_dot_product matrix (list (string * ndarray)) ex_fit_transform
           (Ok ex_mask) ex_savetxt ex_sqrt ex_data ex_weights ex_mask PyNone
           ex_data ex_weights [q 1; q 1] true "out" []).
  - right. split; reflexivity.
  - reflexivity.
  - reflexivity.
  - reflexivity.
  - reflexivity.
  - reflexivity.
  - reflexivity.
Defined.

Lemma apply_mask_methods_witness :
  let run method :=
    apply_mask matrix (list (string * ndarray)) ex_fit_transform (Ok ex_mask) ex_savetxt
      ex_sqrt (Nifti1Image ex_data) (Nifti1Image ex_weights) PyNone method true "out" [] in
  run (literal "dot_product")
    = deliver (list (string * ndarray)) ex_savetxt true "out" "dot_product"
        (pattern_expression ex_data [q 1; q 1]) [] ∧
  (∀ v, Forall2 (fun r c => pearson_r ex_sqrt r [q 1; q 1] = Ok c) (cells ex_data) v →
        run (literal "correlation")
        = deliver (list (string * ndarray)) ex_savetxt true "out" "correlation"
            (Vector v) []) ∧
  (∀ name, run (PyString name false) = ([], Raise (UnboundLocalError "pexp"))).
Proof.
  apply (apply_mask_methods matrix (list (string * ndarray)) ex_fit_transform
           (Ok ex_mask) ex_savetxt ex_sqrt ex_data ex_weights ex_mask PyNone
           ex_data ex_weights [q 1; q 1] true "out" []).
  - right. split; reflexivity.
  - reflexivity.
  - reflexivity.
  - reflexivity.
  - reflexivity.
  - reflexivity.
  - reflexivity.
Defined.

Lemma apply_mask_unknown_method_witness :
  let r := apply_mask matrix (list (string * ndarray)) ex_fit_transform (Ok ex_mask)
             ex_savetxt ex_sqrt (Nifti1Image ex_data) (Nifti1Image ex_weights) PyNone
             (literal "cosine") true "out" [] in
  r.1 = [] ∧ is_ok r.2 = false ∧
  ∀ d wm m dm w,
    Nifti1Image ex_data = Nifti1Image d → Nifti1Image ex_weights = Nifti1Image wm →
    mask_used matrix (Ok ex_mask) PyNone m →
    ex_fit_transform m d = Ok dm → ex_fit_transform m wm = Ok w →
    r.2 = Raise (UnboundLocalError "pexp").
Proof.
  apply (apply_mask_unknown_method matrix (list (string * ndarray)) ex_fit_transform
           (Ok ex_mask) ex_savetxt ex_sqrt (Nifti1Image ex_data) (Nifti1Image ex_weights)
           PyNone (literal "cosine") true "out" []).
  - reflexivity.
  - reflexivity.
Defined.

(** * [calculate] never reads [self.threshold_type] *)

(** Two states that differ at most in [self.threshold_type]: the same
    store, and the same object once that attribute is overwritten. *)
Definition same_but_threshold_type (w1 w2 : world) : Prop :=
  heap w1 = heap w2 ∧
  set_threshold_type (literal "") (self w1) = set_threshold_type (literal "") (self w2).

(** A computation that runs alike from two such states: the same outcome,
    and again two states that differ at most in that attribute. *)
Definition indifferent {A} (m : M A) : Prop :=
  ∀ w1 w2, same_but_threshold_type w1 w2 →
    same_but_threshold_type (m w1).1 (m w2).1 ∧ (m w1).2 = (m w2).2.

Section Indifferent.

Lemma indifferent_bind {A B} (m : M A) (k : A → M B) :
  indifferent m → (∀ a, indifferent (k a)) → indifferent (m ≫= k).
Proof.
  intros Hm Hk w1 w2 HR. unfold mbind, St_bind, bind.
  destruct (Hm w1 w2 HR) as [HR' Hr].
  destruct (m w1) as [w1' r1], (m w2) as [w2' r2]. simpl in HR', Hr. subst r2.
  destruct r1 as [a|e]; [by apply Hk|done].
Qed.

Lemma indifferent_ret {A} (a : A) : indifferent (ret a : M A).
Proof. by intros w1 w2 HR. Qed.

Lemma indifferent_raise {A} (e : exn) : indifferent (raise e : M A).
Proof. by intros w1 w2 HR. Qed.

Lemma indifferent_lift {A} (r : result A) : indifferent (lift r : M A).
Proof. by intros w1 w2 HR. Qed.

Lemma indifferent_attr {A} (f : Roc → option A) (name : string) :
  (∀ r, f (set_threshold_type (literal "") r) = f r) → indifferent (attr f name).
Proof.
  intros Hf w1 w2 [Hh Hs]. unfold attr.
  rewrite <- (Hf (self w1)), <- (Hf (self w2)), Hs.
  by destruct (f _).
Qed.

Lemma indifferent_setattr (upd : Roc → Roc) :
  (∀ r, set_threshold_type (literal "") (upd r)
        = set_threshold_type (literal "") (upd (set_threshold_type (literal "") r))) →
  indifferent (setattr upd).
Proof.
  intros Hc w1 w2 [Hh Hs]. unfold setattr. repeat split; [done|]. cbn.
  by rewrite (Hc (self w1)), (Hc (self w2)), Hs.
Qed.

Lemma indifferent_load (l : loc) : indifferent (load l).
Proof.
  intros w1 w2 [Hh Hs]. unfold load. rewrite Hh. by destruct (heap w2 !! l).
Qed.

Lemma indifferent_store_at (l : loc) (x : list Qc) : indifferent (store_at l x).
Proof.
  intros w1 w2 [Hh Hs]. unfold store_at. repeat split; cbn; [by rewrite Hh|done].
Qed.

Lemma indifferent_alloc (x : list Qc) : indifferent (alloc x).
Proof.
  intros w1 w2 [Hh Hs]. unfold alloc. repeat split; cbn; by rewrite ?Hh.
Qed.

Lemma indifferent_load_name (name : string) : indifferent (load_name name).
Proof. unfold load_name. case_bool_decide; apply indifferent_raise. Qed.

Lemma indifferent_for_enumerate {A} (body : nat → A → M unit) (i : nat) (xs : list A) :
  (∀ i x, indifferent (body i x)) → indifferent (for_enumerate body i xs).
Proof.
  intros Hbody. revert i. induction xs as [|x xs IH]; intros i; cbn [for_enumerate].
  - apply indifferent_ret.
  - apply indifferent_bind; [apply Hbody|intros _; apply IH].
Qed.

End Indifferent.

Ltac indifferent_step :=
  lazymatch goal with
  | |- indifferent (mbind _ _) => apply indifferent_bind; [|intros ?]
  | |- indifferent (attr _ _) => apply indifferent_attr; intros ?; reflexivity
  | |- indifferent (setattr _) => apply indifferent_setattr; intros ?; reflexivity
  | |- indifferent (load _) => apply indifferent_load
  | |- indifferent (store_at _ _) => apply indifferent_store_at
  | |- indifferent (alloc _) => apply indifferent_alloc
  | |- indifferent (lift _) => apply indifferent_lift
  | |- indifferent (load_name _) => apply indifferent_load_name
  | |- indifferent (mret _) => apply indifferent_ret
  | |- indifferent (ret _) => apply indifferent_ret
  | |- indifferent (raise _) => apply indifferent_raise
  | |- indifferent (for_enumerate _ _ _) => apply indifferent_for_enumerate; intros ? ?
  | |- indifferent (if ?b then _ else _) => destruct b
  | |- indifferent (match ?o with Some _ => _ | None => _ end) => destruct o
  | |- indifferent (match ?p with (_, _) => _ end) => destruct p
  end.

Section ThresholdTypeUnused.
Variables (norm_ppf : Qc → Qc) (binom_test : Z → Z → Qc) (np_sqrt : Qc → Qc).
Variables (np_arange : Qc → Qc → Qc → result (list Qc)) (norm_cdf : Qc → Qc → Qc → Qc)
          (roc_plot : list Qc → list Qc → result unit).

Lemma calculate_indifferent (a : calculate_args) :
  indifferent (calculate norm_ppf binom_test np_sqrt a).
Proof.
  unfold calculate, calc_inputs, calc_criterion, calc_forced_choice, calc_rates,
    calc_auc, calc_threshold, calc_output, calc_accuracy, calc_pvalue,
    self_input_values, self_criterion_values, self_binary_outcome.
  cbv zeta.
  repeat indifferent_step.
  unfold calc_rates_body, self_input_values, self_binary_outcome.
  repeat indifferent_step.
Qed.

(** X15.  [Roc.calculate] never reads [self.threshold_type]: run on two
    objects that differ only in that attribute (so whatever threshold type
    was given to the constructor, or left by an earlier call), it ends the
    same way, and leaves the same store and the same attributes apart from
    [threshold_type] itself.  So does [Roc.plot], through the preparation
    of the curve (lines 536-561) and the call of [roc_plot]: whatever
    numpy's [arange], scipy's [norm.cdf] and [roc_plot] answer, they are
    given the same values in both runs.  The threshold type that counts is
    the argument of the call, ['optimal_overall'] when none is given. *)
Theorem calculate_ignores_stored_threshold_type (a : calculate_args) (w : world)
    (stored : pystr) (plot_method : pystr) :
  let w_other := mkWorld (heap w) (set_threshold_type stored (self w)) in
  let r := calculate norm_ppf binom_test np_sqrt a w in
  let r_other := calculate norm_ppf binom_test np_sqrt a w_other in
  let p := plot norm_ppf binom_test np_sqrt np_arange norm_cdf roc_plot plot_method w in
  let p_other := plot norm_ppf binom_test np_sqrt np_arange norm_cdf roc_plot
                   plot_method w_other in
  (r.2 = r_other.2 ∧ same_but_threshold_type r.1 r_other.1) ∧
  (p.2 = p_other.2 ∧ same_but_threshold_type p.1 p_other.1).
Proof.
  intros w_other r r_other p p_other.
  assert (HR : same_but_threshold_type w w_other) by (by split).
  split.
  - destruct (calculate_indifferent a w w_other HR) as [H1 H2]. by split.
  - assert (Hplot : indifferent (plot norm_ppf binom_test np_sqrt np_arange norm_cdf
                                   roc_plot plot_method)).
    { unfold plot. apply indifferent_bind; [apply calculate_indifferent|intros _].
      unfold plot_gaussian_forced, plot_gaussian_single, self_input_values,
        self_binary_outcome.
      repeat indifferent_step. }
    destruct (Hplot w w_other HR) as [H1 H2]. by split.
Qed.

End ThresholdTypeUnused.

(** * Class [Predict] *)

From Stdlib Require Import Ascii.

(** The [algorithm] argument: a string, [None], or another object. *)
Inductive pyval : Type :=
| PyStr (s : pystr)
| PyNoneV
| PyObject.

(** The keys of a dict passed as [cv_dict]. *)
Inductive pykey : Type :=
| KStr (s : string)
| KOther.

(** The [cv_dict] argument: a dict, given by its items in the order in
    which [keys()] and [values()] list them, or an object of another
    type. *)
Inductive cv_arg (value : Type) : Type :=
| CvDict (items : list (pykey * value))
| CvOther.
Arguments CvDict {value} items.
Arguments CvOther {value}.

(** [s.split(sep)] for a separator of one character, and [sep.join(l)]. *)
Fixpoint str_split (sep : ascii) (s : string) : list string :=
  match s with
  | EmptyString => [EmptyString]
  | String a s' =>
      if Ascii.eqb a sep then EmptyString :: str_split sep s'
      else match str_split sep s' with
           | tok :: rest => String a tok :: rest
           | [] => [String a EmptyString]
           end
  end.

Fixpoint str_join (sep : string) (l : list string) : string :=
  match l with
  | [] => EmptyString
  | x :: rest =>
      match rest with
      | [] => x
      | _ :: _ => x ++ sep ++ str_join sep rest
      end
  end.

(** [l[-1]] and [l[0]]: [IndexError] on an empty list. *)
Definition last_item {A} (l : list A) : result A :=
  match last l with
  | Some x => Ok x
  | None => Raise IndexError
  end.
Definition first_item {A} (l : list A) : result A :=
  match l with
  | x :: _ => Ok x
  | [] => Raise IndexError
  end.

(** The two tables of [set_algorithm], lines 196-211. *)
Definition algs_classify : list (string * string) :=
  [("svm", "sklearn.svm.SVC");
   ("logistic", "sklearn.linear_model.LogisticRegression");
   ("ridgeClassifier", "sklearn.linear_model.RidgeClassifier");
   ("ridgeClassifierCV", "sklearn.linear_model.RidgeClassifierCV");
   ("randomforestClassifier", "sklearn.ensemble.RandomForestClassifier")].
Definition algs_predict : list (string * string) :=
  [("svr", "sklearn.svm.SVR");
   ("linear", "sklearn.linear_model.LinearRegression");
   ("lasso", "sklearn.linear_model.Lasso");
   ("lassoCV", "sklearn.linear_model.LassoCV");
   ("ridge", "sklearn.linear_model.Ridge");
   ("ridgeCV", "sklearn.linear_model.RidgeCV");
   ("randomforest", "sklearn.ensemble.RandomForest")].

(** [k in d] and [d[k]] together: the value under the key [k], if any. *)
Fixpoint dict_get (d : list (string * string)) (k : string) : option string :=
  match d with
  | [] => None
  | (k', v) :: d' => if String.eqb k' k then Some v else dict_get d' k
  end.

(** The message of the [ValueError] of lines 236-239. *)
Definition invalid_algorithm : string :=
  "Invalid prediction/classification algorithm name. Valid
                options are 'svm','svr', 'linear', 'logistic', 'lasso', 'lassopcr',
                'lassoCV','ridge','ridgeCV','ridgeClassifier', 'randomforest', or
                'randomforestClassifier'.".

(** [k == lit] for a key of a dict. *)
Definition key_eq (k : pykey) (lit : string) : bool :=
  match k with
  | KStr s => String.eqb s lit
  | KOther => false
  end.

Section PredictClass.

(** Images, labels, keyword arguments and the objects of scikit-learn are
    opaque; what comes from outside the repository is a parameter:
    [nib.load] of the packaged mask, [NiftiMasker(mask_img=m).fit_transform],
    [importlib.import_module], [getattr] on a module, a [from ... import]
    statement, the call of a class, [Pipeline(steps=...)], and the calls of
    the two cross-validation classes. *)
Variables (image label subject kwargs value pymodule pyclass estimator cv_iter : Type).
Variable load_default_mask : result image.
Variable fit_transform : option image → image → result matrix.
Variable import_module : string → result pymodule.
Variable getattr_module : pymodule → string → result pyclass.
Variable from_import : string → string → result pyclass.
Variable call_class : pyclass → kwargs → result estimator.
Variable no_kwargs : kwargs.
Variable Pipeline : list (string * estimator) → result estimator.
Variable call_StratifiedKFold : pyclass → list label → value → result cv_iter.
Variable call_LeaveOneLabelOut : pyclass → value → result cv_iter.

(** The attributes of a [Predict] object; [None] is an attribute that was
    never assigned. *)
Record Predict : Type := mkPredict {
  output_dir : option (string);
  subject_id : option (subject);
  mask : option (image);
  nifti_masker : option (option image);
  data : option (matrix);
  Y : option (list label);
  algorithm : option (pyval);
  prediction_type : option (pystr);
  predicter : option (estimator);
  _lasso : option (estimator);
  _pca : option (estimator);
  _regress : option (estimator);
  cv : option (cv_iter)
}.

(** An object before [__init__] has run. *)
Definition new_Predict : Predict :=
  mkPredict None None None None None None None None None None None None None.

(** [self.attr = v], one function per attribute. *)
Definition assign_output_dir (v : string) (r : Predict) : Predict :=
  mkPredict (Some v) (subject_id r) (mask r) (nifti_masker r) (data r) (Y r) (algorithm r) (prediction_type r) (predicter r) (_lasso r) (_pca r) (_regress r) (cv r).
Definition assign_subject_id (v : subject) (r : Predict) : Predict :=
  mkPredict (output_dir r) (Some v) (mask r) (nifti_masker r) (data r) (Y r) (algorithm r) (prediction_type r) (predicter r) (_lasso r) (_pca r) (_regress r) (cv r).
Definition assign_mask (v : image) (r : Predict) : Predict :=
  mkPredict (output_dir r) (subject_id r) (Some v) (nifti_masker r) (data r) (Y r) (algorithm r) (prediction_type r) (predicter r) (_lasso r) (_pca r) (_regress r) (cv r).
Definition assign_nifti_masker (v : option image) (r : Predict) : Predict :=
  mkPredict (output_dir r) (subject_id r) (mask r) (Some v) (data r) (Y r) (algorithm r) (prediction_type r) (predicter r) (_lasso r) (_pca r) (_regress r) (cv r).
Definition assign_data (v : matrix) (r : Predict) : Predict :=
  mkPredict (output_dir r) (subject_id r) (mask r) (nifti_masker r) (Some v) (Y r) (algorithm r) (prediction_type r) (predicter r) (_lasso r) (_pca r) (_regress r) (cv r).
Definition assign_Y (v : list label) (r : Predict) : Predict :=
  mkPredict (output_dir r) (subject_id r) (mask r) (nifti_masker r) (data r) (Some v) (algorithm r) (prediction_type r) (predicter r) (_lasso r) (_pca r) (_regress r) (cv r).
Definition assign_algorithm (v : pyval) (r : Predict) : Predict :=
  mkPredict (output_dir r) (subject_id r) (mask r) (nifti_masker r) (data r) (Y r) (Some v) (prediction_type r) (predicter r) (_lasso r) (_pca r) (_regress r) (cv r).
Definition assign_prediction_type (v : pystr) (r : Predict) : Predict :=
  mkPredict (output_dir r) (subject_id r) (mask r) (nifti_masker r) (data r) (Y r) (algorithm r) (Some v) (predicter r) (_lasso r) (_pca r) (_regress r) (cv r).
Definition assign_predicter (v : estimator) (r : Predict) : Predict :=
  mkPredict (output_dir r) (subject_id r) (mask r) (nifti_masker r) (data r) (Y r) (algorithm r) (prediction_type r) (Some v) (_lasso r) (_pca r) (_regress r) (cv r).
Definition assign_lasso (v : estimator) (r : Predict) : Predict :=
  mkPredict (output_dir r) (subject_id r) (mask r) (nifti_masker r) (data r) (Y r) (algorithm r) (prediction_type r) (predicter r) (Some v) (_pca r) (_regress r) (cv r).
Definition assign_pca (v : estimator) (r : Predict) : Predict :=
  mkPredict (output_dir r) (subject_id r) (mask r) (nifti_masker r) (data r) (Y r) (algorithm r) (prediction_type r) (predicter r) (_lasso r) (Some v) (_regress r) (cv r).
Definition assign_regress (v : estimator) (r : Predict) : Predict :=
  mkPredict (output_dir r) (subject_id r) (mask r) (nifti_masker r) (data r) (Y r) (algorithm r) (prediction_type r) (predicter r) (_lasso r) (_pca r) (Some v) (cv r).
Definition assign_cv (v : cv_iter) (r : Predict) : Predict :=
  mkPredict (output_dir r) (subject_id r) (mask r) (nifti_masker r) (data r) (Y r) (algorithm r) (prediction_type r) (predicter r) (_lasso r) (_pca r) (_regress r) (Some v).

Definition pattr {A} (f : Predict → option A) (name : string) : St Predict A :=
  fun s => match f s with
           | Some v => (s, Ok v)
           | None => (s, Raise (AttributeError name))
           end.
Definition psetattr (upd : Predict → Predict) : St Predict unit :=
  fun s => (upd s, Ok tt).

(** [load_class], the local function of [set_algorithm], lines 189-194. *)
Definition load_class (import_string : string) : result pyclass :=
  let class_data := str_split "."%char import_string in
  let module_path := str_join "." (removelast class_data) in
  class_str ← last_item class_data;
  module ← import_module module_path;
  getattr_module module class_str.

(** [Predict.set_algorithm(algorithm, **kwargs)], lines 174-239.  The two
    tables are looked up with [in], by the characters of the name; the two
    pipelines are reached through [is]. *)
Definition set_algorithm (algorithm_ : pyval) (kw : kwargs) : St Predict unit :=
  psetattr (assign_algorithm algorithm_);;
  match algorithm_ with
  | PyObject => raise (OutOfModel "an algorithm that is neither a string nor None")
  | PyNoneV => raise (ValueError invalid_algorithm)
  | PyStr name =>
      match dict_get algs_classify (chars name) with
      | Some import_string =>
          psetattr (assign_prediction_type (literal "classification"));;
          alg ← lift (load_class import_string);
          p ← lift (call_class alg kw);
          psetattr (assign_predicter p)
      | None =>
      match dict_get algs_predict (chars name) with
      | Some import_string =>
          psetattr (assign_prediction_type (literal "prediction"));;
          alg ← lift (load_class import_string);
          p ← lift (call_class alg kw);
          psetattr (assign_predicter p)
      | None =>
      if py_is name "lassopcr" then
        psetattr (assign_prediction_type (literal "prediction"));;
        Lasso ← lift (from_import "sklearn.linear_model" "Lasso");
        PCA ← lift (from_import "sklearn.decomposition" "PCA");
        o ← lift (call_class Lasso no_kwargs);
        psetattr (assign_lasso o);;
        o ← lift (call_class PCA no_kwargs);
        psetattr (assign_pca o);;
        pca ← pattr _pca "_pca";
        lasso ← pattr _lasso "_lasso";
        p ← lift (Pipeline [("pca", pca); ("lasso", lasso)]);
        psetattr (assign_predicter p)
      else if py_is name "pcr" then
        psetattr (assign_prediction_type (literal "prediction"));;
        LinearRegression ← lift (from_import "sklearn.linear_model" "LinearRegression");
        PCA ← lift (from_import "sklearn.decomposition" "PCA");
        o ← lift (call_class LinearRegression no_kwargs);
        psetattr (assign_regress o);;
        o ← lift (call_class PCA no_kwargs);
        psetattr (assign_pca o);;
        pca ← pattr _pca "_pca";
        regress ← pattr _regress "_regress";
        p ← lift (Pipeline [("pca", pca); ("regress", regress)]);
        psetattr (assign_predicter p)
      else raise (ValueError invalid_algorithm)
      end
      end
  end.

(** [Predict.set_cv(cv_dict)], lines 241-259. *)
Definition set_cv (cv_dict : cv_arg value) : St Predict unit :=
  match cv_dict with
  | CvDict items =>
      k ← lift (first_item (map fst items));
      if key_eq k "kfold" then
        StratifiedKFold ← lift (from_import "sklearn.cross_validation" "StratifiedKFold");
        y ← pattr Y "Y";
        v ← lift (first_item (map snd items));
        c ← lift (call_StratifiedKFold StratifiedKFold y v);
        psetattr (assign_cv c)
      else
        k ← lift (first_item (map fst items));
        if key_eq k "loso" then
          LeaveOneLabelOut ← lift (from_import "sklearn.cross_validation" "LeaveOneLabelOut");
          v ← lift (first_item (map snd items));
          c ← lift (call_LeaveOneLabelOut LeaveOneLabelOut v);
          psetattr (assign_cv c)
        else
          raise (ValueError "Make sure you specify a dictionary of {'kfold',5} or {'loso':subject_id}.")
  | CvOther => raise (ValueError "Make sure 'cv_dict' is a dictionary.")
  end.

(** The [mask_img] that [__init__] passes to [NiftiMasker]: its [mask]
    argument, which is [None] when the packaged mask was loaded. *)
Definition mask_argument (mask_ : pyobj image) : option image :=
  match mask_ with
  | Nifti1Image m => Some m
  | _ => None
  end.

(** [Predict.__init__(data, Y, subject_id, algorithm, cv_dict, mask,
    output_dir, **kwargs)], lines 40-84. *)
Definition Predict_init (data_ : pyobj image) (Y_ : list label)
    (subject_id_ : option subject) (algorithm_ : pyval)
    (cv_dict_ : option (cv_arg value)) (mask_ : pyobj image) (output_dir_ : string)
    (kw : kwargs) : St Predict unit :=
  psetattr (assign_output_dir output_dir_);;
  match subject_id_ with
  | Some sid => psetattr (assign_subject_id sid)
  | None => mret tt
  end;;
  match mask_ with
  | PyNone => m ← lift load_default_mask; psetattr (assign_mask m)
  | Nifti1Image m => psetattr (assign_mask m)
  | PyOther => raise (ValueError "mask is not a nibabel instance")
  end;;
  d ← match data_ with
      | Nifti1Image d => mret d
      | _ => raise (ValueError "data is not a nibabel instance")
      end;
  psetattr (assign_nifti_masker (mask_argument mask_));;
  masker ← pattr nifti_masker "nifti_masker";
  dm ← lift (fit_transform masker d);
  psetattr (assign_data dm);;
  dm ← pattr data "data";
  (if negb (Nat.eqb (rows dm) (length Y_))
   then raise (ValueError "Y does not match the correct size of data")
   else mret tt);;
  psetattr (assign_Y Y_);;
  match algorithm_ with
  | PyNoneV => mret tt
  | _ => set_algorithm algorithm_ kw
  end;;
  match cv_dict_ with
  | Some c => set_cv c
  | None => mret tt
  end.

(** [Predict.predict], lines 86-172.  From line 112 on the method fits
    and runs scikit-learn estimators, builds a pandas table and writes
    files; that part is the parameter [predict_fit], which receives the
    arguments and the estimator read from [self.predicter]. *)
Variable predict_fit :
  option (cv_arg value) → bool → bool → bool → estimator → St Predict unit.

Definition predict (algorithm_ : pyval) (cv_dict_ : option (cv_arg value))
    (save_images save_output save_plot : bool) (kw : kwargs) : St Predict unit :=
  match algorithm_ with
  | PyNoneV => mret tt
  | _ => set_algorithm algorithm_ kw
  end;;
  a ← pattr algorithm "algorithm";
  match a with
  | PyNoneV => raise (ValueError "Make sure you specify an 'algorithm' to use.")
  | _ => mret tt
  end;;
  predicter_ ← pattr predicter "predicter";
  predict_fit cv_dict_ save_images save_output save_plot predicter_.


(** ** What [load_class] imports *)

Fixpoint has_char (c : ascii) (s : string) : bool :=
  match s with
  | EmptyString => false
  | String a s' => Ascii.eqb a c || has_char c s'
  end.

Lemma str_split_nonempty (sep : ascii) (s : string) : str_split sep s ≠ [].
Proof.
  destruct s as [|a s]; simpl; [done|].
  destruct (Ascii.eqb a sep); [done|]. by destruct (str_split sep s).
Qed.

Lemma str_split_no_sep (sep : ascii) (c : string) :
  has_char sep c = false → str_split sep c = [c].
Proof.
  induction c as [|a c IH]; simpl; [done|].
  intros H. apply orb_false_iff in H as [Ha Hc]. by rewrite Ha, (IH Hc).
Qed.

Lemma str_split_app (sep : ascii) (m c : string) :
  has_char sep c = false →
  str_split sep (m ++ String sep c)%string = str_split sep m ++ [c].
Proof.
  intros Hc. induction m as [|a m IH]; simpl.
  - by rewrite Ascii.eqb_refl, str_split_no_sep.
  - rewrite IH. destruct (Ascii.eqb a sep); [done|].
    pose proof (str_split_nonempty sep m). by destruct (str_split sep m).
Qed.

(** Joining what was split gives the string back. *)
Lemma str_join_split (sep : ascii) (s : string) :
  str_join (String sep EmptyString) (str_split sep s) = s.
Proof.
  induction s as [|a s IH]; simpl; [done|].
  pose proof (str_split_nonempty sep s) as Hne.
  destruct (Ascii.eqb_spec a sep) as [->|Hneq].
  - destruct (str_split sep s) as [|tok rest]; [done|].
    simpl in *. by rewrite IH.
  - destruct (str_split sep s) as [|tok rest]; [done|].
    destruct rest as [|tok' rest']; simpl in *; by rewrite <- IH.
Qed.

Lemma load_class_dotted (m c : string) :
  has_char "."%char c = false →
  load_class (m ++ String "."%char c)%string
  = (md ← import_module m; getattr_module md c).
Proof.
  intros Hc. unfold load_class, last_item.
  rewrite (str_split_app "."%char m c Hc), removelast_last, last_snoc.
  by rewrite (str_join_split "."%char m).
Qed.

(** X16.  For every algorithm name of the two tables of [set_algorithm],
    the table entry is a dotted path [m.c] whose last component [c]
    contains no dot, and [load_class] on that entry imports the module [m]
    (everything before the last dot) and looks up the attribute [c] in it:
    splitting at the dots and joining all parts but the last gives the
    module path back. *)
Theorem load_class_of_table (name import_string : string) :
  dict_get (algs_classify ++ algs_predict) name = Some import_string →
  ∃ m c, import_string = (m ++ String "."%char c)%string ∧ has_char "."%char c = false ∧
         load_class import_string = (md ← import_module m; getattr_module md c).
Proof.
  intros Hget.
  assert (Hform : ∃ m c, import_string = (m ++ String "."%char c)%string
                         ∧ has_char "."%char c = false).
  { revert Hget. unfold algs_classify, algs_predict. cbn [app dict_get].
    repeat (destruct (String.eqb _ name);
            [intros [= <-];
             match goal with
             | |- ∃ m c, ?p = _ ∧ _ =>
                 exists (str_join "." (removelast (str_split "."%char p))),
                        (default EmptyString (last (str_split "."%char p)))
             end; by vm_compute|]).
    done. }
  destruct Hform as (m & c & -> & Hc).
  exists m, c. repeat split; [done|]. by apply load_class_dotted.
Qed.

(** ** [set_algorithm] *)

(** The names that [set_algorithm] takes for a classification and for a
    prediction. *)
Definition classification_names : list string := map fst algs_classify.
Definition table_prediction_names : list string := map fst algs_predict.
Definition prediction_names : list string := table_prediction_names ++ ["lassopcr"; "pcr"].

(** The attributes that neither [set_algorithm] nor [set_cv] assigns. *)
Definition same_data (s s' : Predict) : Prop :=
  output_dir s' = output_dir s ∧ subject_id s' = subject_id s ∧ mask s' = mask s ∧
  nifti_masker s' = nifti_masker s ∧ data s' = data s ∧ Y s' = Y s.

Ltac run_all :=
  unfold mbind, mret, St_bind, St_ret, bind, ret, lift, raise, pattr, psetattr;
  repeat (cbn; try done; case_match; simplify_eq/=); cbn; try done.

Lemma set_algorithm_keeps (x : pyval) (kw : kwargs) (s : Predict) :
  same_data s (set_algorithm x kw s).1 ∧
  cv (set_algorithm x kw s).1 = cv s ∧
  algorithm (set_algorithm x kw s).1 = Some x.
Proof.
  unfold same_data, set_algorithm.
  destruct x as [name| |]; [|run_all..].
  destruct (dict_get algs_classify (chars name)); [run_all|].
  destruct (dict_get algs_predict (chars name)); [run_all|].
  destruct (py_is name "lassopcr"); [run_all|].
  destruct (py_is name "pcr"); run_all.
Qed.

Lemma set_cv_keeps (c : cv_arg value) (s : Predict) :
  same_data s (set_cv c s).1 ∧
  algorithm (set_cv c s).1 = algorithm s ∧
  prediction_type (set_cv c s).1 = prediction_type s ∧
  predicter (set_cv c s).1 = predicter s.
Proof.
  unfold same_data, set_cv. destruct c as [items|]; [|run_all].
  destruct (first_item (map fst items)) as [k|e]; [|run_all].
  run_all.
Qed.

Lemma dict_get_None (d : list (string * string)) (k : string) :
  k ∉ map fst d → dict_get d k = None.
Proof.
  induction d as [|[k' v] d IH]; [done|]. cbn [map fst dict_get]. intros Hk.
  destruct (String.eqb_spec k' k) as [->|Hne].
  - destruct Hk. by left.
  - apply IH. intros Hin. apply Hk. by right.
Qed.

Lemma dict_get_Some (d : list (string * string)) (k : string) :
  k ∈ map fst d → is_Some (dict_get d k).
Proof.
  induction d as [|[k' v] d IH]; cbn [map fst dict_get].
  - intros H. by apply elem_of_nil in H.
  - intros H. destruct (String.eqb_spec k' k) as [->|Hne]; [by eexists|].
    apply IH. apply elem_of_cons in H as [->|H]; [done|done].
Qed.

(** A name that is in neither table and is neither of the two literals is
    rejected, and nothing but [self.algorithm] has been assigned. *)
Lemma set_algorithm_rejects (name : pystr) (kw : kwargs) (s : Predict) :
  chars name ∉ classification_names → chars name ∉ table_prediction_names →
  py_is name "lassopcr" = false → py_is name "pcr" = false →
  set_algorithm (PyStr name) kw s
  = (assign_algorithm (PyStr name) s, Raise (ValueError invalid_algorithm)).
Proof.
  intros Hc Hp Hl Hr. unfold set_algorithm.
  by rewrite (dict_get_None _ _ Hc), (dict_get_None _ _ Hp), Hl, Hr.
Qed.

Lemma py_is_false_chars (x : pystr) (name : string) :
  chars x ≠ name → py_is x name = false.
Proof.
  intros Hne. unfold py_is. apply andb_false_iff. right. by apply String.eqb_neq.
Qed.

(** X17.  [set_algorithm] stores its argument in [self.algorithm] before
    it looks at it.  A string whose characters are a name of the
    classification table then gets [prediction_type] ['classification'],
    one whose characters are a name of the prediction table gets
    ['prediction'], and so does the literal ['lassopcr'] or ['pcr'] (the
    interned string, which is what [algorithm is 'lassopcr'] tests); in
    all these cases already before the estimator class is imported and
    whether or not that succeeds.  [None], a string with other characters,
    and also a string with the characters of lassopcr or pcr that is not
    the interned one, end in the [ValueError], and the object is then as
    before except that [self.algorithm] holds the rejected value. *)
Theorem set_algorithm_outcome (x : pyval) (kw : kwargs) (s : Predict) :
  let r := set_algorithm x kw s in
  algorithm r.1 = Some x ∧
  (∀ name, x = PyStr name → chars name ∈ classification_names →
           prediction_type r.1 = Some (literal "classification")) ∧
  (∀ name, x = PyStr name → chars name ∈ table_prediction_names →
           prediction_type r.1 = Some (literal "prediction")) ∧
  (∀ name, x = PyStr name → name = literal "lassopcr" ∨ name = literal "pcr" →
           prediction_type r.1 = Some (literal "prediction")) ∧
  ((x = PyNoneV
    ∨ (∃ name, x = PyStr name ∧ (chars name ∉ classification_names)
                             ∧ (chars name ∉ table_prediction_names)
                             ∧ py_is name "lassopcr" = false
                             ∧ py_is name "pcr" = false)) →
   r.2 = Raise (ValueError invalid_algorithm) ∧ r.1 = assign_algorithm x s).
Proof.
  intros r. subst r. split; [apply set_algorithm_keeps|]. split; [|split; [|split]].
  - intros name -> Hin. unfold set_algorithm.
    destruct (dict_get_Some algs_classify (chars name) Hin) as [p ->]. run_all.
  - intros [cs i] -> Hin. unfold set_algorithm. cbn [chars] in *.
    assert (Hnot : cs ∉ map fst algs_classify).
    { intros Hc. unfold table_prediction_names in Hin. cbn in Hin, Hc.
      repeat (apply elem_of_cons in Hc as [->|Hc];
              [by repeat (apply elem_of_cons in Hin as [Hin|Hin]; [done|]);
                  apply elem_of_nil in Hin|]).
      by apply elem_of_nil in Hc. }
    rewrite (dict_get_None _ _ Hnot).
    destruct (dict_get_Some algs_predict cs Hin) as [p ->]. run_all.
  - intros name -> [->| ->]; unfold set_algorithm; run_all.
  - intros [->|(name & -> & Hc & Hp & Hl & Hr)]; [done|].
    by rewrite set_algorithm_rejects.
Qed.

(** ** [__init__] and [predict] *)

Lemma tail_keeps (x : pyval) (c : option (cv_arg value)) (kw : kwargs) (s : Predict) :
  let tail := (match x with PyNoneV => mret tt | _ => set_algorithm x kw end;;
               match c with Some c' => set_cv c' | None => mret tt end) in
  same_data s (tail s).1 ∧
  (x = PyNoneV → algorithm (tail s).1 = algorithm s ∧ predicter (tail s).1 = predicter s).
Proof.
  intros tail. subst tail.
  unfold mbind, St_bind, bind.
  assert (Hfirst : ∀ m : St Predict unit,
            m = match x with PyNoneV => mret tt | _ => set_algorithm x kw end →
            same_data s (m s).1 ∧
            (x = PyNoneV → algorithm (m s).1 = algorithm s
                           ∧ predicter (m s).1 = predicter s)).
  { intros m ->. destruct x; try (split; [apply set_algorithm_keeps|done]).
    by repeat split. }
  specialize (Hfirst _ eq_refl).
  destruct (match x with PyNoneV => mret tt | _ => set_algorithm x kw end s)
    as [s1 [[]|e]]; cbn in Hfirst |- *; [|done].
  destruct c as [c'|]; [|done].
  destruct (set_cv_keeps c' s1) as (Hd & Ha & _ & Hp).
  destruct Hfirst as [Hd1 Hx]. unfold same_data in *. split.
  - intuition congruence.
  - intros Hnone. destruct (Hx Hnone). split; congruence.
Qed.

(** The state in which [__init__] reaches lines 80-84, when it does. *)
Definition before_algorithm (Y_ : list label) (subject_id_ : option subject)
    (mask_ : pyobj image) (output_dir_ : string) (m : image) (dm : matrix) : Predict :=
  assign_Y Y_
    (assign_data dm
       (assign_nifti_masker (mask_argument mask_)
          (assign_mask m
             (match subject_id_ with
              | Some sid => assign_subject_id sid (assign_output_dir output_dir_ new_Predict)
              | None => assign_output_dir output_dir_ new_Predict
              end)))).

Lemma Predict_init_ok (data_ : pyobj image) (Y_ : list label)
    (subject_id_ : option subject) (algorithm_ : pyval)
    (cv_dict_ : option (cv_arg value)) (mask_ : pyobj image) (output_dir_ : string)
    (kw : kwargs) :
  (Predict_init data_ Y_ subject_id_ algorithm_ cv_dict_ mask_ output_dir_ kw
     new_Predict).2 = Ok tt →
  ∃ d dm m,
    data_ = Nifti1Image d ∧
    match mask_ with
    | PyNone => load_default_mask = Ok m
    | Nifti1Image m' => m' = m
    | PyOther => False
    end ∧
    fit_transform (mask_argument mask_) d = Ok dm ∧ rows dm = length Y_ ∧
    Predict_init data_ Y_ subject_id_ algorithm_ cv_dict_ mask_ output_dir_ kw new_Predict
    = (match algorithm_ with PyNoneV => mret tt | _ => set_algorithm algorithm_ kw end;;
       match cv_dict_ with Some c' => set_cv c' | None => mret tt end)
        (before_algorithm Y_ subject_id_ mask_ output_dir_ m dm).
Proof.
  unfold Predict_init, before_algorithm.
  set (tail := (match algorithm_ with
                | PyNoneV => mret tt
                | _ => set_algorithm algorithm_ kw
                end;;
                match cv_dict_ with Some c' => set_cv c' | None => mret tt end)).
  unfold mbind, St_bind, bind, mret, St_ret, ret, lift, raise, pattr, psetattr.
  intros Hok.
  destruct subject_id_ as [sid|], mask_ as [|m'|]; cbn in Hok |- *; try done;
    try (destruct load_default_mask as [m|e]; cbn in Hok |- *; [|done]);
    (destruct data_ as [|d|]; cbn in Hok |- *; try done);
    (match goal with
     | |- context [fit_transform ?mm d] =>
         destruct (fit_transform mm d) as [dm|e] eqn:Hft
     end; cbn in Hok |- *; [|done]);
    (destruct (Nat.eqb_spec (rows dm) (length Y_)) as [Hrows|Hrows];
     cbn in Hok |- *; [|done]);
    eexists d, dm, _; repeat split; try done.
Qed.

(** X18.  When [Predict(...)] succeeds, the data it keeps are the rows
    that the masker made of the [data] image, one per label, and the
    masker was built from the [mask] argument itself: with [mask=None] the
    packaged mask is loaded into [self.mask], yet the masker has no mask
    image and the data are masked without it.  This is so whatever
    [set_algorithm] and [set_cv] do afterwards. *)
Theorem Predict_init_masks_with_argument (data_ : pyobj image) (Y_ : list label)
    (subject_id_ : option subject) (algorithm_ : pyval)
    (cv_dict_ : option (cv_arg value)) (mask_ : pyobj image) (output_dir_ : string)
    (kw : kwargs) :
  let r := Predict_init data_ Y_ subject_id_ algorithm_ cv_dict_ mask_ output_dir_ kw
             new_Predict in
  r.2 = Ok tt →
  ∃ d dm,
    data_ = Nifti1Image d ∧
    nifti_masker r.1 = Some (mask_argument mask_) ∧
    fit_transform (mask_argument mask_) d = Ok dm ∧
    data r.1 = Some dm ∧ rows dm = length Y_ ∧ Y r.1 = Some Y_ ∧
    output_dir r.1 = Some output_dir_ ∧ subject_id r.1 = subject_id_ ∧
    match mask_ with
    | PyNone => ∃ m, load_default_mask = Ok m ∧ mask r.1 = Some m ∧
                     nifti_masker r.1 = Some None ∧ fit_transform None d = Ok dm
    | Nifti1Image m => mask r.1 = Some m
    | PyOther => False
    end.
Proof.
  intros r Hok. subst r.
  destruct (Predict_init_ok _ _ _ _ _ _ _ _ Hok) as (d & dm & m & -> & Hm & Hft & Hrows & Hrun).
  rewrite Hrun.
  destruct (tail_keeps algorithm_ cv_dict_ kw
              (before_algorithm Y_ subject_id_ mask_ output_dir_ m dm))
    as [(Ho & Hs & Hmask & Hnm & Hd & HY) _].
  cbv zeta in Ho, Hs, Hmask, Hnm, Hd, HY.
  exists d, dm. rewrite Ho, Hs, Hmask, Hnm, Hd, HY.
  repeat split; try done; try (by destruct subject_id_).
  destruct mask_ as [|m'|]; [|by subst|done].
  exists m. by repeat split.
Qed.

(** X19.  An object built without an [algorithm] has no attribute
    [algorithm] at all, so [predict()] called on it without an algorithm
    does not reach the [ValueError] of line 108 that asks for one: it ends
    in an [AttributeError] at line 107, nothing is fitted and the object
    is unchanged. *)
Theorem predict_without_algorithm (data_ : pyobj image) (Y_ : list label)
    (subject_id_ : option subject) (cv_dict_ : option (cv_arg value))
    (mask_ : pyobj image) (output_dir_ : string) (kw : kwargs)
    (cv_dict' : option (cv_arg value)) (save_images save_output save_plot : bool)
    (kw' : kwargs) :
  let r := Predict_init data_ Y_ subject_id_ PyNoneV cv_dict_ mask_ output_dir_ kw
             new_Predict in
  r.2 = Ok tt →
  predict PyNoneV cv_dict' save_images save_output save_plot kw' r.1
  = (r.1, Raise (AttributeError "algorithm")).
Proof.
  intros r Hok. subst r.
  destruct (Predict_init_ok _ _ _ _ _ _ _ _ Hok) as (d & dm & m & -> & Hm & Hft & Hrows & Hrun).
  rewrite Hrun.
  destruct (tail_keeps PyNoneV cv_dict_ kw
              (before_algorithm Y_ subject_id_ mask_ output_dir_ m dm))
    as [_ Halg].
  destruct (Halg eq_refl) as [Ha _]. cbv zeta in Ha.
  assert (Ha' : algorithm (before_algorithm Y_ subject_id_ mask_ output_dir_ m dm) = None)
    by (unfold before_algorithm; by destruct subject_id_).
  rewrite Ha' in Ha.
  match goal with
  | |- predict _ _ _ _ _ _ ?st = _ =>
      assert (Hnone : algorithm st = None) by exact Ha;
      clear - Hnone; generalize dependent st; intros s1 Hnone
  end.
  unfold predict, mbind, St_bind, bind, mret, St_ret, ret, pattr. cbn.
  by rewrite Hnone.
Qed.

(** X20.  A call [predict(algorithm=x)] with a name that [set_algorithm]
    rejects ends in the [ValueError], but [self.algorithm] is then [x]
    while [self.predicter] is still the estimator of the earlier
    algorithm; a following [predict()] without algorithm passes the check
    of line 107 and goes on to fit that earlier estimator. *)
Theorem predict_after_rejected_algorithm (name : pystr) (p : estimator) (s : Predict)
    (cv_dict_ cv_dict' : option (cv_arg value))
    (save_images save_output save_plot save_images' save_output' save_plot' : bool)
    (kw kw' : kwargs) :
  chars name ∉ classification_names → chars name ∉ prediction_names →
  predicter s = Some p →
  let r := predict (PyStr name) cv_dict_ save_images save_output save_plot kw s in
  r.2 = Raise (ValueError invalid_algorithm) ∧
  algorithm r.1 = Some (PyStr name) ∧ predicter r.1 = Some p ∧
  predict PyNoneV cv_dict' save_images' save_output' save_plot' kw' r.1
  = predict_fit cv_dict' save_images' save_output' save_plot' p r.1.
Proof.
  intros Hc Hp Hpred r. subst r.
  unfold prediction_names in Hp. rewrite not_elem_of_app in Hp. destruct Hp as [Hp Hq].
  assert (Hrun : predict (PyStr name) cv_dict_ save_images save_output save_plot kw s
                 = (assign_algorithm (PyStr name) s, Raise (ValueError invalid_algorithm))).
  { unfold predict. unfold mbind at 1. unfold St_bind, bind.
    rewrite set_algorithm_rejects; [done|done|done|..];
      apply py_is_false_chars; intros Heq; apply Hq; rewrite Heq.
    - by left.
    - right. by left. }
  rewrite Hrun. cbn [fst snd]. repeat split; [done|].
  unfold predict, mbind, St_bind, bind, mret, St_ret, ret, pattr. cbn.
  by rewrite Hpred.
Qed.

End PredictClass.

(** A concrete setting for [Predict]: images are their own masked
    matrices, modules, classes and estimators are known by their names. *)
Definition ex_masker (m : option matrix) (img : matrix) : result matrix := Ok img.
Definition ex_import_module (m : string) : result string := Ok m.
Definition ex_getattr (m c : string) : result string := Ok (m +:+ "." +:+ c).
Definition ex_call_class (c : string) (kw : unit) : result string := Ok c.
Definition ex_Pipeline (steps : list (string * string)) : result string := Ok "Pipeline".
Definition ex_kfold (c : string) (y : list bool) (v : nat) : result nat := Ok v.
Definition ex_loso (c : string) (v : nat) : result nat := Ok v.
Definition ex_predict_fit (c : option (cv_arg nat)) (save_images save_output save_plot : bool)
    (p : string) : St (Predict matrix bool nat string nat) unit :=
  fun s => (s, Ok tt).

Definition ex_Predict_init :=
  Predict_init matrix bool nat unit nat string string string nat (Ok ex_mask) ex_masker
    ex_import_module ex_getattr ex_getattr ex_call_class tt ex_Pipeline ex_kfold ex_loso.
Definition ex_predict :=
  predict matrix bool nat unit nat string string string nat ex_import_module ex_getattr
    ex_getattr ex_call_class tt ex_Pipeline ex_predict_fit.

Lemma load_class_of_table_witness :
  ∃ m c, "sklearn.svm.SVC" = (m +:+ String "."%char c) ∧ has_char "."%char c = false ∧
         load_class string string ex_import_module ex_getattr "sklearn.svm.SVC"
         = (md ← ex_import_module m; ex_getattr md c).
Proof.
  apply (load_class_of_table string string ex_import_module ex_getattr "svm").
  reflexivity.
Defined.

Lemma Predict_init_masks_with_argument_witness :
  let r := ex_Predict_init (Nifti1Image ex_data) [true; false] None PyNoneV None PyNone
             "." tt (new_Predict matrix bool nat string nat) in
  ∃ d dm,
    Nifti1Image ex_data = Nifti1Image d ∧
    nifti_masker _ _ _ _ _ r.1 = Some (mask_argument matrix PyNone) ∧
    ex_masker (mask_argument matrix PyNone) d = Ok dm ∧
    data _ _ _ _ _ r.1 = Some dm ∧ rows dm = length [true; false] ∧
    Y _ _ _ _ _ r.1 = Some [true; false] ∧
    output_dir _ _ _ _ _ r.1 = Some "." ∧ subject_id _ _ _ _ _ r.1 = None ∧
    ∃ m, Ok ex_mask = Ok m ∧ mask _ _ _ _ _ r.1 = Some m ∧
         nifti_masker _ _ _ _ _ r.1 = Some None ∧ ex_masker None d = Ok dm.
Proof.
  apply (Predict_init_masks_with_argument matrix bool nat unit nat string string string nat
           (Ok ex_mask) ex_masker ex_import_module ex_getattr ex_getattr ex_call_class tt
           ex_Pipeline ex_kfold ex_loso (Nifti1Image ex_data) [true; false] None PyNoneV
           None PyNone "." tt).
  reflexivity.
Defined.

Lemma predict_without_algorithm_witness :
  let r := ex_Predict_init (Nifti1Image ex_data) [true; false] None PyNoneV None PyNone
             "." tt (new_Predict matrix bool nat string nat) in
  ex_predict PyNoneV None true true true tt r.1
  = (r.1, Raise (AttributeError "algorithm")).
Proof.
  apply (predict_without_algorithm matrix bool nat unit nat string string string nat
           (Ok ex_mask) ex_masker ex_import_module ex_getattr ex_getattr ex_call_class tt
           ex_Pipeline ex_kfold ex_loso ex_predict_fit (Nifti1Image ex_data) [true; false]
           None None PyNone "." tt None true true true tt).
  reflexivity.
Defined.

(** An object whose estimator was set by an earlier call. *)
Definition ex_fitted : Predict matrix bool nat string nat :=
  assign_predicter _ _ _ _ _ "sklearn.svm.SVC"
    (assign_algorithm _ _ _ _ _ (PyStr (literal "svm"))
       (new_Predict matrix bool nat string nat)).

Lemma predict_after_rejected_algorithm_witness :
  let r := ex_predict (PyStr (literal "svc")) None true true true tt ex_fitted in
  r.2 = Raise (ValueError invalid_algorithm) ∧
  algorithm _ _ _ _ _ r.1 = Some (PyStr (literal "svc")) ∧
  predicter _ _ _ _ _ r.1 = Some "sklearn.svm.SVC" ∧
  ex_predict PyNoneV None true true true tt r.1
  = ex_predict_fit None true true true "sklearn.svm.SVC" r.1.
Proof.
  apply (predict_after_rejected_algorithm matrix bool nat unit nat string string string nat
           ex_import_module ex_getattr ex_getattr ex_call_class tt ex_Pipeline
           ex_predict_fit (literal "svc") "sklearn.svm.SVC" ex_fitted None None
           true true true true true true tt tt).
  - intros H. cbn in H.
    repeat (apply elem_of_cons in H as [H|H]; [discriminate H|]).
    by apply elem_of_nil in H.
  - intros H. cbn in H.
    repeat (apply elem_of_cons in H as [H|H]; [discriminate H|]).
    by apply elem_of_nil in H.
  - reflexivity.
Defined.

(** * The rates and the area stay within bounds *)

Section Bounds.
Variables (norm_ppf : Qc → Qc) (binom_test : Z → Z → Qc) (np_sqrt : Qc → Qc).

Lemma rate_bounds (flag : bool) (iv : list Qc) (bo : list bool) (x : Qc) :
  0 ≤ rate flag iv bo x ∧ rate flag iv bo x ≤ 1.
Proof.
  unfold rate. pose proof (hits_le_total flag iv bo x) as Hle.
  destruct (total flag bo) as [|k] eqn:Hk.
  - assert (hits flag iv bo x = 0%nat) as -> by lia.
    change (Z.of_nat 0) with 0%Z. rewrite Z2Qc_inj_0. unfold Qcdiv.
    replace (0 * / 0) with 0 by ring. done.
  - split.
    + unfold Qcdiv. apply Qcmult_nonneg_nonneg; [apply Qc_of_nat_nonneg|].
      apply Qcinv_nonneg, Qc_of_nat_nonneg.
    + replace 1 with (Qc_of_Z (Z.of_nat (S k)) / Qc_of_Z (Z.of_nat (S k)))
        by (field; by apply Qc_of_nat_nonzero).
      apply Qcdiv_le_mono; [apply Qc_of_nat_nonneg|].
      apply (proj1 (Z2Qc_inj_le _ _)). lia.
Qed.

Lemma half_sum_bounds (y0 y1 : Qc) :
  0 ≤ y0 → y0 ≤ 1 → 0 ≤ y1 → y1 ≤ 1 → 0 ≤ (y0 + y1) / 2 ∧ (y0 + y1) / 2 ≤ 1.
Proof.
  intros H0 H0' H1 H1'. split.
  - unfold Qcdiv. apply Qcmult_nonneg_nonneg; [|done].
    replace 0 with (0 + 0) by ring. by apply Qcplus_le_compat.
  - replace 1 with ((1 + 1) / 2) by (field; done).
    apply Qcdiv_le_mono; [done|]. by apply Qcplus_le_compat.
Qed.

(** The area under a curve that runs right to left inside the unit square
    is between 0 and the abscissa it starts from. *)
Lemma trapezoid_area_bounds (xs ys : list Qc) :
  nonincreasing xs →
  Forall (fun x => 0 ≤ x) xs → Forall (fun y => 0 ≤ y ∧ y ≤ 1) ys →
  0 ≤ trapezoid_area (zip xs ys) ∧
  trapezoid_area (zip xs ys) ≤ default 0 (head xs).
Proof.
  revert ys. induction xs as [|x0 xs IH]; intros ys Hmono Hx Hy.
  - by destruct ys.
  - destruct ys as [|y0 ys].
    { cbn. split; [done|]. by inversion Hx. }
    destruct xs as [|x1 xs].
    { cbn. split; [done|]. by inversion Hx. }
    destruct ys as [|y1 ys].
    { cbn. split; [done|]. by inversion Hx. }
    destruct Hmono as [H10 Hrest].
    inversion Hx as [|? ? Hx0 Hx']; subst. inversion Hy as [|? ? Hy0 Hy']; subst.
    destruct (IH (y1 :: ys) Hrest Hx' Hy') as [Hlo Hhi]. cbn [head default] in Hhi.
    change (zip (x0 :: x1 :: xs) (y0 :: y1 :: ys))
      with ((x0, y0) :: (x1, y1) :: zip xs ys).
    rewrite trapezoid_area_cons2. cbn [fst snd head default].
    change ((x1, y1) :: zip xs ys) with (zip (x1 :: xs) (y1 :: ys)).
    inversion Hy' as [|? ? Hy1 _]; subst.
    destruct (half_sum_bounds y0 y1) as [Hm0 Hm1]; try tauto.
    rewrite qabs_nonpos
      by (apply (Qcplus_le_mono_r _ _ x0); replace (x1 - x0 + x0) with x1 by ring;
          by rewrite Qcplus_0_l).
    assert (Hd : 0 ≤ - (x1 - x0)).
    { apply (Qcplus_le_mono_r _ _ x1). replace (- (x1 - x0) + x1) with x0 by ring.
      by rewrite Qcplus_0_l. }
    split.
    + replace 0 with (0 + 0) by ring. apply Qcplus_le_compat; [|done].
      by apply Qcmult_nonneg_nonneg.
    + replace x0 with (- (x1 - x0) * 1 + x1) at 2 by ring.
      apply Qcplus_le_compat; [|done].
      rewrite !(Qcmult_comm (- (x1 - x0))).
      by apply Qcmult_le_mono_nonneg_r.
Qed.

(** X21.  On valid data whose range is a finite float and with the
    default criterion values, the rates that [Roc.calculate] computes lie
    between 0 and 1 and do not increase along the criterion values, and
    the area under the curve that it stores lies between 0 and 1. *)
Theorem calculate_rates_and_area_bounded (a : calculate_args) (w : world) (l : loc)
    (iv : list Qc) (bo : list bool) (fc : bool) :
  call_ok a w l iv bo fc → span_is_finite iv →
  (forced a fc = true → total true bo = total false bo) →
  arg_criterion_values a = None →
  let w' := (calculate norm_ppf binom_test np_sqrt a w).1 in
  ∃ t f area,
    tpr (self w') = Some t ∧ fpr (self w') = Some f ∧ auc (self w') = Some area ∧
    Forall (fun y => 0 ≤ y ∧ y ≤ 1) t ∧ Forall (fun x => 0 ≤ x ∧ x ≤ 1) f ∧
    nonincreasing t ∧ nonincreasing f ∧
    0 ≤ area ∧ area ≤ 1.
Proof.
  intros Hok _ Hpairs Hnone w'. subst w'. rewrite calculate_unfold.
  match goal with |- context [(?m w).1] => pattern ((m w).1) end.
  apply wp_state. apply (wp_prefix a w l iv bo fc Hok Hpairs).
  intros w4 c cv iv' Hrd.
  destruct (default_criterion _ _ _ _ _ _ _ _ _ _ Hok Hrd Hnone)
    as (lo & hi & Hlo & Hhi & Hcv & _).
  pose proof (min_le_max _ _ _ Hlo Hhi) as Hle.
  pose proof (call_ok_bo_nonempty _ _ _ _ _ _ Hok) as Hbo.
  pose proof (default_criterion_auc iv' bo lo hi Hle Hbo) as Hauc.
  cbn zeta in Hauc. rewrite <- Hcv in Hauc.
  assert (Hmono : nondecreasing cv) by (rewrite Hcv; by apply linspace_nondecreasing).
  assert (Hrates : ∀ flag, Forall (fun y => 0 ≤ y ∧ y ≤ 1) (map (rate flag iv' bo) cv)).
  { intros flag. apply Forall_fmap, Forall_forall. intros x _. apply rate_bounds. }
  assert (Hf0 : Forall (fun x => 0 ≤ x) (map (rate false iv' bo) cv)).
  { eapply Forall_impl; [apply (Hrates false)|]. by intros x [? ?]. }
  destruct (trapezoid_area_bounds (map (rate false iv' bo) cv) (map (rate true iv' bo) cv))
    as [Hlo' Hhi']; [by apply rate_nonincreasing|done|done|].
  assert (Hhead : default 0 (head (map (rate false iv' bo) cv)) ≤ 1).
  { destruct cv as [|x0 cv']; [done|]. cbn. apply rate_bounds. }
  unfold after_rates. apply wp_bind.
  eapply wp_calc_auc_ok; [apply (rd_fpr _ _ _ _ _ _ _ _ _ _ Hrd)
                         |apply (rd_tpr _ _ _ _ _ _ _ _ _ _ Hrd)|exact Hauc|].
  cbn beta iota.
  eapply wp_mono; [apply after_auc_frame|].
  intros w5 r [[_ (Ht & Hf & _)] Ha]. cbn in Ht, Hf, Ha.
  destruct Hrd. eexists _, _, _. rewrite Ht, Hf, Ha, rd_tpr0, rd_fpr0.
  repeat split; try done; try (by apply rate_nonincreasing).
  by eapply Qcle_trans.
Qed.

End Bounds.

Lemma calculate_rates_and_area_bounded_witness :
  let w' := (calculate ex_norm_ppf ex_binom_test ex_sqrt default_args ex_world).1 in
  ∃ t f area,
    tpr (self w') = Some t ∧ fpr (self w') = Some f ∧ auc (self w') = Some area ∧
    Forall (fun y => 0 ≤ y ∧ y ≤ 1) t ∧ Forall (fun x => 0 ≤ x ∧ x ≤ 1) f ∧
    nonincreasing t ∧ nonincreasing f ∧
    0 ≤ area ∧ area ≤ 1.
Proof.
  apply (calculate_rates_and_area_bounded ex_norm_ppf ex_binom_test ex_sqrt default_args
           ex_world 0%nat ex_iv ex_bo false).
  - exact (ex_call_ok default_args eq_refl eq_refl eq_refl).
  - exact ex_span_finite.
  - discriminate.
  - reflexivity.
Defined.

(** * [set_cv] *)

Ltac run_cases :=
  unfold mbind, mret, St_bind, St_ret, bind, ret, lift, raise, pattr, psetattr;
  repeat (cbn; try done; case_match; simplify_eq/=); cbn; try done.

Section SetCv.
Variables (image label subject value pyclass estimator cv_iter : Type).
Variable from_import : string → string → result pyclass.
Variable call_StratifiedKFold : pyclass → list label → value → result cv_iter.
Variable call_LeaveOneLabelOut : pyclass → value → result cv_iter.

Local Abbreviation set_cv_ :=
  (set_cv image label subject value pyclass estimator cv_iter from_import
     call_StratifiedKFold call_LeaveOneLabelOut).

(** X22.  [Predict.set_cv] looks at the first key of the dict only.  It
    succeeds only for a dict whose first key is ['kfold'] or ['loso'], and
    then changes nothing but [self.cv]; for ['kfold'] the folds are made
    from [self.Y] and the first value.  Whenever it fails the object is
    unchanged: an object that is not a dict, such as a set, ends in the
    [ValueError] that asks for a dictionary, an empty dict in an
    [IndexError], and a dict with another first key in the other
    [ValueError]. *)
Theorem set_cv_outcome (c : cv_arg value)
    (s : Predict image label subject estimator cv_iter) :
  let r := set_cv_ c s in
  (r.2 = Ok tt →
   ∃ k v items it,
     c = CvDict ((k, v) :: items) ∧
     (key_eq k "kfold" = true ∨ key_eq k "loso" = true) ∧
     r.1 = assign_cv image label subject estimator cv_iter it s ∧
     (key_eq k "kfold" = true →
      ∃ y cls, Y _ _ _ _ _ s = Some y ∧
               from_import "sklearn.cross_validation" "StratifiedKFold" = Ok cls ∧
               call_StratifiedKFold cls y v = Ok it)) ∧
  (r.2 ≠ Ok tt → r.1 = s) ∧
  (c = CvOther → r.2 = Raise (ValueError "Make sure 'cv_dict' is a dictionary.")) ∧
  (c = CvDict [] → r.2 = Raise IndexError) ∧
  (∀ k v items,
     c = CvDict ((k, v) :: items) → key_eq k "kfold" = false → key_eq k "loso" = false →
     r.2 = Raise (ValueError
       "Make sure you specify a dictionary of {'kfold',5} or {'loso':subject_id}.")).
Proof.
  intros r. subst r. unfold set_cv.
  destruct c as [[|[k v] items]|]; cbn [map fst snd first_item].
  - run_cases; repeat split; try done; try (by intros ? ? ? [=]).
  - unfold mbind, mret, St_bind, St_ret, bind, ret, lift, raise, pattr, psetattr. cbn.
    destruct (key_eq k "kfold") eqn:Hk; [|destruct (key_eq k "loso") eqn:Hl].
    + destruct (from_import "sklearn.cross_validation" "StratifiedKFold") as [cls|e] eqn:Hi;
        cbn; [|repeat split; try done; intros ? ? ? [= <- <- <-]; congruence].
      destruct (Y _ _ _ _ _ s) as [y|] eqn:HY; cbn;
        [|repeat split; try done; intros ? ? ? [= <- <- <-]; congruence].
      destruct (call_StratifiedKFold cls y v) as [it|e] eqn:Hc; cbn;
        [|repeat split; try done; intros ? ? ? [= <- <- <-]; congruence].
      repeat split; try done.
      * intros _. exists k, v, items, it. repeat split; [by left|]. intros _. by exists y, cls.
      * intros ? ? ? [= <- <- <-]. congruence.
    + destruct (from_import "sklearn.cross_validation" "LeaveOneLabelOut") as [cls|e] eqn:Hi;
        cbn; [|repeat split; try done; intros ? ? ? [= <- <- <-]; congruence].
      destruct (call_LeaveOneLabelOut cls v) as [it|e] eqn:Hc; cbn;
        [|repeat split; try done; intros ? ? ? [= <- <- <-]; congruence].
      repeat split; try done.
      * intros _. exists k, v, items, it. repeat split; [by right|]. congruence.
      * intros ? ? ? [= <- <- <-]. congruence.
    + repeat split; done.
  - run_cases; repeat split; try done.
Qed.

End SetCv.

(** * Outcomes that are all true, from the constructor on *)

(** What [Roc(...)] builds when it accepts its arguments. *)
Lemma construct_ok (h : store) (l : loc) (iv : list Qc) (bo : list bool)
    (threshold_type_ : pystr) (fc : bool) :
  h !! l = Some iv → length iv = length bo → true ∈ bo →
  chars threshold_type_ ∈ ["optimal_overall"; "optimal_balanced"; "minimum_sdt_bias"] →
  construct h l bo threshold_type_ fc
  = (mkWorld h (set_forced_choice fc (set_threshold_type threshold_type_
                  (set_binary_outcome bo (set_input_values l new_Roc)))), Ok tt).
Proof.
  intros Hl Hlen Hin Htt.
  unfold construct, init, mbind, St_bind, bind, load, raise, mret, St_ret, ret, setattr.
  cbn [heap self]. rewrite Hl. cbn [fst snd]. unfold Np.len. rewrite Hlen, Z.eqb_refl.
  cbn [negb].
  assert (Hany : Np.any bo = true).
  { unfold Np.any. apply existsb_exists. exists true. split; [by apply list_elem_of_In|done]. }
  rewrite Hany. cbn [negb]. by rewrite bool_decide_eq_true_2.
Qed.

Lemma all_true_elem (bo : list bool) : bo ≠ [] → total false bo = 0%nat → true ∈ bo.
Proof.
  destruct bo as [|b bo]; [done|]. intros _. rewrite total_cons.
  destruct b; [intros _; by left|simpl; lia].
Qed.

Section AllTrueAccepted.
Variables (norm_ppf : Qc → Qc) (binom_test : Z → Z → Qc) (np_sqrt : Qc → Qc).

(** C8 (as amended).  [Roc(...)] accepts outcomes that are all true: it
    only refuses outcomes with no true element.  On every such object,
    [Roc.calculate] with at least one criterion value (the default ones,
    or a non-empty array of the caller) and without forced choice, or with
    forced choice on a single observation, stores the first true positive
    rate and then divides by the number of false outcomes, which is 0: it
    ends in a [ZeroDivisionError] with [self.fpr] still all zeros.  With
    forced choice on two or more observations the call does not get that
    far: it ends in numpy's [ValueError] at line 453 and the rates are
    never assigned. *)
Theorem all_true_accepted_then_zero_division (h : store) (l : loc) (iv : list Qc)
    (bo : list bool) (threshold_type_ : pystr) (fc : bool) (a : calculate_args) :
  h !! l = Some iv → length iv = length bo → bo ≠ [] → total false bo = 0%nat →
  chars threshold_type_ ∈ ["optimal_overall"; "optimal_balanced"; "minimum_sdt_bias"] →
  arg_input_values a = None → arg_binary_outcome a = None →
  (∀ c0, arg_criterion_values a = Some c0 → ∃ cv, h !! c0 = Some cv ∧ cv ≠ []) →
  let made := construct h l bo threshold_type_ fc in
  let r := calculate norm_ppf binom_test np_sqrt a made.1 in
  made.2 = Ok tt ∧
  (forced a fc = false ∨ length bo = 1%nat →
   r.2 = Raise ZeroDivisionError ∧
   ∃ k y, tpr (self r.1) = Some (<[0%nat := y]> (Np.zeros k)) ∧
          fpr (self r.1) = Some (Np.zeros k)) ∧
  (forced a fc = true → (2 ≤ length bo)%nat →
   (∃ msg, r.2 = Raise (ValueError msg)) ∧
   tpr (self r.1) = None ∧ fpr (self r.1) = None).
Proof.
  intros Hl Hlen Hne Hnf Htt Hai Hab Hc made r. subst made r.
  rewrite (construct_ok h l iv bo threshold_type_ fc Hl Hlen (all_true_elem bo Hne Hnf) Htt).
  cbn [fst snd].
  set (w := mkWorld h _).
  assert (Hwi : from_arg (arg_input_values a) (input_values (self w)) = Some l)
    by (by rewrite Hai).
  assert (Hwb : from_arg (arg_binary_outcome a) (binary_outcome (self w)) = Some bo)
    by (by rewrite Hab).
  assert (Hwf : forced_choice (self w) = Some fc) by done.
  assert (Hwl : heap w !! l = Some iv) by done.
  assert (Hwc : ∀ c0, arg_criterion_values a = Some c0 →
                      ∃ cv, heap w !! c0 = Some cv ∧ cv ≠ []) by done.
  assert (Hwt : tpr (self w) = None ∧ fpr (self w) = None) by done.
  clearbody w. clear Hc Hl.
  assert (Hnt : total true bo = length bo) by (pose proof (total_split bo); lia).
  assert (Hlen0 : length bo ≠ 0%nat) by (by destruct bo).
  assert (Hiv : iv ≠ []) by (intros ->; by destruct bo).
  split; [done|]. split.
  - intros Hcase.
    destruct (forced a fc) eqn:Hon.
    + destruct Hcase as [?|Hone]; [done|].
      rewrite calculate_unfold.
      match goal with |- context [(?m w).1] =>
        apply (wp_run m w (fun w' r => r = Raise ZeroDivisionError ∧
          ∃ k y, tpr (self w') = Some (<[0%nat := y]> (Np.zeros k)) ∧
                 fpr (self w') = Some (Np.zeros k)))
      end.
      apply wp_bind, wp_calc_inputs. cbn beta iota.
      apply wp_bind.
      eapply (wp_calc_criterion a _ l iv bo);
        [attr_solve|exact Hwl|attr_solve|exact Hiv| |].
      { intros c0 Hc0. destruct (Hwc c0 Hc0) as (cv & Hcv & _). by eexists. }
      intros c cv0 h2 Hsrc. cbn beta iota.
      destruct (criterion_source_lookup _ _ _ _ _ _ _ Hsrc) as [Hccv Hkeep].
      pose proof (Hkeep _ _ Hwl) as Hl2.
      assert (Hcv0 : cv0 ≠ []).
      { unfold criterion_source in Hsrc.
        destruct (arg_criterion_values a) as [c0|] eqn:Harg.
        - destruct Hsrc as (-> & -> & Hc0). destruct (Hwc c0 eq_refl) as (cv & Hcv & Hcvne).
          cbn [heap] in Hc0. congruence.
        - destruct Hsrc as (lo & hi & _ & _ & -> & _). intros E.
          pose proof (linspace_length lo hi (50 * length bo)) as Hll.
          rewrite E in Hll. simpl in Hll. lia. }
      apply wp_bind.
      eapply (wp_calc_forced_choice_single l iv bo Hlen ltac:(lia) a _ fc);
        [attr_solve|exact Hon|attr_solve|exact Hl2|attr_solve|].
      cbn beta iota. apply wp_bind.
      set (iv' := forced_choice_single iv bo).
      assert (Hiv' : length iv' = length bo)
        by (unfold iv'; by rewrite forced_choice_single_length).
      assert (Hc' : ∃ x0 cv', <[l := iv']> h2 !! c = Some (x0 :: cv')).
      { destruct (decide (l = c)) as [->|Hnec].
        - destruct iv' as [|x0 cv'] eqn:E; [simpl in Hiv'; lia|].
          exists x0, cv'. apply list_lookup_insert_eq. by eapply lookup_lt_Some.
        - destruct cv0 as [|x0 cv']; [done|]. exists x0, cv'.
          by rewrite list_lookup_insert_ne. }
      destruct Hc' as (x0 & cv' & Hcv).
      eapply (wp_calc_rates_no_false _ l iv' bo c x0 cv');
        [attr_solve
        |apply list_lookup_insert_eq; by eapply lookup_lt_Some
        |attr_solve|done|lia|done|attr_solve|exact Hcv|].
      cbn beta iota. split; [done|]. by eexists _, _.
    + unfold forced in Hon. apply orb_false_iff in Hon as [Ha ->].
      destruct (calculate_all_true_run norm_ppf binom_test np_sqrt a w l iv bo)
        as (Hr & c & x0 & cv' & _ & _ & _ & Ht & Hf); try done.
      split; [done|]. by eexists _, _.
  - intros Hon Htwo. rewrite calculate_unfold.
    match goal with |- context [(?m w).1] =>
      apply (wp_run m w (fun w' r => (∃ msg, r = Raise (ValueError msg)) ∧
                                     tpr (self w') = None ∧ fpr (self w') = None))
    end.
    apply wp_bind, wp_calc_inputs. cbn beta iota.
    apply wp_bind.
    eapply (wp_calc_criterion a _ l iv bo);
      [attr_solve|exact Hwl|attr_solve|exact Hiv| |].
    { intros c0 Hc0. destruct (Hwc c0 Hc0) as (cv & Hcv & _). by eexists. }
    intros c cv0 h2 Hsrc. cbn beta iota.
    destruct (criterion_source_lookup _ _ _ _ _ _ _ Hsrc) as [Hccv Hkeep].
    pose proof (Hkeep _ _ Hwl) as Hl2.
    apply wp_bind.
    eapply (wp_calc_forced_choice_unpaired l iv bo Hlen ltac:(lia) ltac:(lia) a _ fc);
      [attr_solve|exact Hon|attr_solve|exact Hl2|attr_solve|].
    intros msg. cbn. unfold inputs_upd. rewrite Hai, Hab. cbn.
    split; [by eexists|done].
Qed.

End AllTrueAccepted.

(** C8 as it was stated does not hold of every accepted all-true input:
    built with forced choice on the scores 3 and 1, both with a true
    outcome, the object is accepted, and [Roc.calculate] ends in numpy's
    [ValueError] at line 453 (no score with a false outcome against two
    mean scores) before any rate is computed, so that nothing is divided
    by the number of false outcomes. *)
Lemma all_true_accepted_then_zero_division_counterexample :
  let made := construct [[q 3; q 1]] 0%nat [true; true] (literal "optimal_overall") true in
  let r := calculate ex_norm_ppf ex_binom_test ex_sqrt default_args made.1 in
  made.2 = Ok tt ∧
  r.2 = Raise (ValueError "operands could not be broadcast together") ∧
  tpr (self r.1) = None ∧ fpr (self r.1) = None.
Proof.
  cbv zeta. repeat split; vm_compute; reflexivity.
Qed.

Lemma all_true_accepted_then_zero_division_witness :
  let made := construct [[q 3; q 1]] 0%nat [true; true] (literal "optimal_overall") false in
  let r := calculate ex_norm_ppf ex_binom_test ex_sqrt default_args made.1 in
  made.2 = Ok tt ∧
  (forced default_args false = false ∨ length [true; true] = 1%nat →
   r.2 = Raise ZeroDivisionError ∧
   ∃ k y, tpr (self r.1) = Some (<[0%nat := y]> (Np.zeros k)) ∧
          fpr (self r.1) = Some (Np.zeros k)) ∧
  (forced default_args false = true → (2 ≤ length [true; true])%nat →
   (∃ msg, r.2 = Raise (ValueError msg)) ∧
   tpr (self r.1) = None ∧ fpr (self r.1) = None).
Proof.
  apply (all_true_accepted_then_zero_division ex_norm_ppf ex_binom_test ex_sqrt
           [[q 3; q 1]] 0%nat [q 3; q 1] [true; true] (literal "optimal_overall") false
           default_args); try reflexivity.
  - discriminate.
  - by left.
  - intros c0 [=].
Defined.

(** * What [calculate] does to the data of the object *)

Section FrameEffect.
Variables (norm_ppf : Qc → Qc) (binom_test : Z → Z → Qc) (np_sqrt : Qc → Qc).
Variables (np_arange : Qc → Qc → Qc → result (list Qc)) (norm_cdf : Qc → Qc → Qc → Qc)
          (roc_plot : list Qc → list Qc → result unit).


End FrameEffect.




(** * The accuracy *)





Section AccuracyClaim.
Variables (norm_ppf : Qc → Qc) (binom_test : Z → Z → Qc) (np_sqrt : Qc → Qc).






End AccuracyClaim.


